(** * koko-slack-bot: the gateway schema change extractor and the message
    dispatcher of [internal/slack/slack.go], and [PRDescription] of
    [internal/github/github.go], embedded in Rocq.

    Go strings are byte sequences: they are modelled as [string], one [ascii]
    per byte.  Go integers are modelled as [Z] with the wrap-around of each
    conversion written out.  A Go [error] is modelled by its message
    ([option string], [None] being [nil]): the code only builds errors with
    [errors.New] and [fmt.Errorf], and tests compare them by message. *)

From Stdlib Require Import ZArith List String Ascii Bool Lia.
From Stdlib Require Import DecimalString.
Import ListNotations.

Local Open Scope string_scope.
Local Open Scope Z_scope.

(** ** The parts of Go's standard library the code calls *)

Module GoStrings.

(** [c >= utf8.RuneSelf] fails: the byte is a one-byte rune. *)
Definition isASCIIByte (c : ascii) : bool := (nat_of_ascii c <? 128)%nat.

(** ['A' <= c && c <= 'Z'] *)
Definition isUpperByte (c : ascii) : bool :=
  ((65 <=? nat_of_ascii c) && (nat_of_ascii c <=? 90))%nat.

(** [c += 'a' - 'A'] for an upper case byte, the byte itself otherwise. *)
Definition lowerByte (c : ascii) : ascii :=
  if isUpperByte c then ascii_of_nat (nat_of_ascii c + 32) else c.

Fixpoint isASCII (s : string) : bool :=
  match s with
  | EmptyString => true
  | String c rest => isASCIIByte c && isASCII rest
  end.

Fixpoint hasUpper (s : string) : bool :=
  match s with
  | EmptyString => false
  | String c rest => isUpperByte c || hasUpper rest
  end.

Fixpoint lowerBytes (s : string) : string :=
  match s with
  | EmptyString => EmptyString
  | String c rest => String (lowerByte c) (lowerBytes rest)
  end.

(** [strings.ToLower]: strings of one-byte runes are lowered byte by byte
    (returned as they are when no byte is upper case); any other string
    goes through [strings.Map(unicode.ToLower, s)], which reads Unicode's
    case tables.  The tables are not part of this repository:
    [unicodeLower] stands for that call, and nothing is assumed of it. *)
Definition ToLower (unicodeLower : string -> string) (s : string) : string :=
  if isASCII s then
    if hasUpper s then lowerBytes s else s
  else unicodeLower s.

(** [strings.Split(s, sep)] for a separator of one byte, the only kind the
    code uses (["/"] and ["|"]): the substrings between the separators, one
    more than there are separators; [[""]] for the empty string. *)
Fixpoint Split (s : string) (sep : ascii) : list string :=
  match s with
  | EmptyString => [EmptyString]
  | String c rest =>
      if Ascii.eqb c sep then EmptyString :: Split rest sep
      else match Split rest sep with
           | tok :: toks => String c tok :: toks
           | [] => [String c EmptyString]
           end
  end.

(** [len(s)] as a Go [int]. *)
Definition len (s : string) : Z := Z.of_nat (String.length s).

End GoStrings.

Module GoFmt.

(** The verb [%d] of [fmt] applied to an integer. *)
Definition formatInt (n : Z) : string := NilZero.string_of_int (Z.to_int n).

End GoFmt.

Module GoStrconv.

(** The two errors [strconv] reports inside a [*NumError]. *)
Inductive NumError := ErrSyntax | ErrRange.

(** [strconv.IntSize]: the size of [int] on the platform built for. *)
Inductive IntSize := Int32 | Int64.

Definition bitsOf (arch : IntSize) : Z :=
  match arch with Int32 => 32 | Int64 => 64 end.

Definition maxUint64 : Z := 2 ^ 64 - 1.
Definition MinInt64 : Z := - 2 ^ 63.

(** Conversion to [uint64] and to [int64]: the low 64 bits. *)
Definition uint64 (z : Z) : Z := z mod 2 ^ 64.
Definition int64 (z : Z) : Z := (z + 2 ^ 63) mod 2 ^ 64 - 2 ^ 63.

(** Conversion of an [int64] to [int]: the low [bitsOf arch] bits. *)
Definition int (arch : IntSize) (z : Z) : Z :=
  (z + 2 ^ (bitsOf arch - 1)) mod 2 ^ bitsOf arch - 2 ^ (bitsOf arch - 1).

(** The digit a byte stands for in [ParseUint]: ['0'..'9'] are 0..9 and
    letters of either case are 10..35; any other byte is a syntax error. *)
Definition digitOfByte (c : ascii) : option Z :=
  let n := nat_of_ascii c in
  let l := nat_of_ascii (GoStrings.lowerByte c) in
  if ((48 <=? n) && (n <=? 57))%nat then Some (Z.of_nat n - 48)
  else if ((97 <=? l) && (l <=? 122))%nat then Some (Z.of_nat l - 97 + 10)
  else None.

(** The loop of [ParseUint] over the bytes of [s], for a base given
    explicitly (underscores are then not accepted). *)
Fixpoint parseUintLoop (base cutoff maxVal : Z) (s : string) (n : Z)
  : Z * option NumError :=
  match s with
  | EmptyString => (n, None)
  | String c rest =>
      match digitOfByte c with
      | None => (0, Some ErrSyntax)
      | Some d =>
          if base <=? d then (0, Some ErrSyntax)
          else if cutoff <=? n then (maxVal, Some ErrRange)
          else
            let n' := uint64 (n * base) in
            let n1 := uint64 (n' + d) in
            if (n1 <? n') || (maxVal <? n1) then (maxVal, Some ErrRange)
            else parseUintLoop base cutoff maxVal rest n1
      end
  end.

(** [strconv.ParseUint(s, base, bitSize)] for [2 <= base <= 36]. *)
Definition ParseUint (arch : IntSize) (s : string) (base bitSize : Z)
  : Z * option NumError :=
  if (s =? "")%string then (0, Some ErrSyntax)
  else
    let bitSize := if bitSize =? 0 then bitsOf arch else bitSize in
    let cutoff := maxUint64 / base + 1 in
    let maxVal := 2 ^ bitSize - 1 in
    parseUintLoop base cutoff maxVal s 0.

(** [strconv.ParseInt(s, base, bitSize)] for [2 <= base <= 36]. *)
Definition ParseInt (arch : IntSize) (s : string) (base bitSize : Z)
  : Z * option NumError :=
  match s with
  | EmptyString => (0, Some ErrSyntax)
  | String c0 rest =>
      let neg := Ascii.eqb c0 "-" in
      let s1 := if Ascii.eqb c0 "+" || neg then rest else s in
      let (un, err) := ParseUint arch s1 base bitSize in
      match err with
      | Some ErrSyntax => (0, err)
      | _ =>
          let bitSize := if bitSize =? 0 then bitsOf arch else bitSize in
          let cutoff := 2 ^ (bitSize - 1) in
          if negb neg && (cutoff <=? un) then (int64 (cutoff - 1), Some ErrRange)
          else if neg && (cutoff <? un) then (int64 (- int64 cutoff), Some ErrRange)
          else
            let n := int64 un in
            ((if neg then int64 (- n) else n), None)
      end
  end.

End GoStrconv.

(** A Go [error], by its message; [None] is [nil]. *)
Definition error := option string.

(** [errors.New(msg)], and [fmt.Errorf] once its verbs are filled in. *)
Definition New (msg : string) : error := Some msg.

(** ** The data of [slack-go] the code reads *)

(** [slack.AttachmentField] *)
Record AttachmentField := {
  Title : string;
  Value : string;
  Short : bool
}.

(** [slack.Attachment], with the fields the code reads. *)
Record Attachment := {
  AuthorName : string;
  Fields : list AttachmentField
}.

(** [slackevents.MessageEvent], with the fields the code reads. *)
Record MessageEvent := {
  BotID : string;
  SubType : string;
  Channel : string;
  User : string;
  Text : string;
  Attachments : list Attachment
}.

(** The zero value of [slack.Attachment], as a default for indexing. *)
Definition zeroAttachment : Attachment :=
  {| AuthorName := ""; Fields := [] |}.

(** ** [internal/slack]: the gateway schema change extractor *)

(** [gatewaySchemaChange], the response of the processing of the gateway
    schema change event. *)
Record gatewaySchemaChange := {
  organization : string;
  pullRequest : Z;
  repository : string
}.

(** [gatewaySchemaChange{}], the zero value. *)
Definition zeroGatewaySchemaChange : gatewaySchemaChange :=
  {| organization := ""; pullRequest := 0; repository := "" |}.

(** The three variables the loop over the fields assigns. *)
Record scanState := {
  scanPullRequest : Z;
  scanOrganization : string;
  scanRepository : string
}.

(** What one turn of the loop does: it goes on to the next field, or the
    function returns from inside the loop. *)
Inductive scanOutcome :=
| Next (st : scanState)
| Return (r : gatewaySchemaChange * error).

Section Extractor.

(** The platform: the size of [int], and Unicode's lower-casing of a
    string that is not plain ASCII. *)
Variable arch : GoStrconv.IntSize.
Variable unicodeLower : string -> string.

(** [var pullRequest int64 = math.MinInt64; var organization string;
    var repository string] *)
Definition initialScan : scanState :=
  {| scanPullRequest := GoStrconv.MinInt64;
     scanOrganization := "";
     scanRepository := "" |}.

(** The body of [for _, field := range ...Fields]: the [switch] on the
    lower-cased title.  The indices [tokens[2]], [tokens[0]], [tokens[3]]
    and [tokens[4]] are read only after the token count was checked. *)
Definition scanField (st : scanState) (field : AttachmentField) : scanOutcome :=
  let title := GoStrings.ToLower unicodeLower (Title field) in
  if (title =? "ref")%string then
    let tokens := GoStrings.Split (Value field) "/" in
    let numOfTokens := Z.of_nat (List.length tokens) in
    if numOfTokens <? 3 then
      Return (zeroGatewaySchemaChange,
              New ("not enough tokens in ref value to parse pull request: "
                   ++ GoFmt.formatInt numOfTokens ++ " < 3"))
    else
      let (n, err) := GoStrconv.ParseInt arch (nth 2 tokens "") 10 0 in
      match err with
      | Some _ =>
          Return (zeroGatewaySchemaChange,
                  New ("unable to convert pull request to number: "
                       ++ nth 2 tokens ""))
      | None =>
          Next {| scanPullRequest := n;
                  scanOrganization := scanOrganization st;
                  scanRepository := scanRepository st |}
      end
  else if (title =? "commit")%string then
    let tokens := GoStrings.Split (Value field) "|" in
    let numOfTokens := Z.of_nat (List.length tokens) in
    if negb (numOfTokens =? 2) then
      Return (zeroGatewaySchemaChange,
              New ("invalid commit value format: " ++ Value field))
    else
      let tokens := GoStrings.Split (nth 0 tokens "") "/" in
      let numOfTokens := Z.of_nat (List.length tokens) in
      if numOfTokens <? 5 then
        Return (zeroGatewaySchemaChange,
                New ("not enough tokens in commit value to parse repository: "
                     ++ GoFmt.formatInt numOfTokens ++ " < 5"))
      else
        Next {| scanPullRequest := scanPullRequest st;
                scanOrganization := nth 3 tokens "";
                scanRepository := nth 4 tokens "" |}
  else Next st.

(** The loop: the fields in order, left as soon as one of them returns. *)
Fixpoint scanFields (fields : list AttachmentField) (st : scanState)
  : scanOutcome :=
  match fields with
  | [] => Next st
  | field :: rest =>
      match scanField st field with
      | Next st' => scanFields rest st'
      | Return r => Return r
      end
  end.

(** The checks after the loop, and the result. *)
Definition finishScan (st : scanState) : gatewaySchemaChange * error :=
  if scanPullRequest st =? GoStrconv.MinInt64 then
    (zeroGatewaySchemaChange,
     New "pull request number was not present in message event")
  else if GoStrings.len (scanOrganization st) =? 0 then
    (zeroGatewaySchemaChange,
     New "organization was not present in message event")
  else if GoStrings.len (scanRepository st) =? 0 then
    (zeroGatewaySchemaChange,
     New "repository was not present in message event")
  else
    ({| organization := scanOrganization st;
        pullRequest := GoStrconv.int arch (scanPullRequest st);
        repository := scanRepository st |}, None).

(** [handleGatewaySchemaChangeEvent]: the result and the error it returns.
    (Its first statement, a debug log, is recorded by the dispatcher
    below.)  [Attachments[0]] is read only when there is exactly one
    attachment. *)
Definition handleGatewaySchemaChangeEvent (messageEvent : MessageEvent)
  : gatewaySchemaChange * error :=
  if GoStrings.len (BotID messageEvent) =? 0 then
    (zeroGatewaySchemaChange, New "bot ID is missing from message event")
  else
    let numOfAttachments := Z.of_nat (List.length (Attachments messageEvent)) in
    if numOfAttachments =? 0 then
      (zeroGatewaySchemaChange,
       New "attachments are missing from message event")
    else if 1 <? numOfAttachments then
      (zeroGatewaySchemaChange,
       New ("too many attachments from message event: "
            ++ GoFmt.formatInt numOfAttachments ++ " > 1"))
    else
      let attachment := nth 0 (Attachments messageEvent) zeroAttachment in
      let author := AuthorName attachment in
      if GoStrings.len author =? 0 then
        (zeroGatewaySchemaChange,
         New "gateway change event is missing author")
      else
        match scanFields (Fields attachment) initialScan with
        | Return r => r
        | Next st => finishScan st
        end.

End Extractor.

(** ** Calls, logs and panics *)

(** The functions of the repository whose invocation the trace records. *)
Inductive Func :=
| FhandleBotMessage
| FhandleGatewaySchemaChangeEvent
| FPRDescription.

Inductive Level := LevelDebug | LevelError.

(** What a run does that can be seen from outside: a log line (its message,
    without the structured fields), a call of a collaborator, and the entry
    into one of the repository's own functions. *)
Inductive Effect :=
| Log (level : Level) (msg : string)
| Ack (envelopeID : string)
| GetConversationInfo (channelID : string)
| GetUserInfo (user : string)
| PullRequestsGet (owner repo : string) (number : Z)
| Enter (f : Func).

(** How a run ends: it returns a value, or it panics (Go's run-time error on
    the dereference of a nil pointer; nothing in the code recovers). *)
Inductive outcome (A : Type) :=
| Done (a : A)
| Panic.
Arguments Done {A} a.
Arguments Panic {A}.

(** A run: what it did, in order, and how it ended. *)
Definition Run (A : Type) : Type := list Effect * outcome A.

Definition ret {A} (a : A) : Run A := ([], Done a).

Definition bind {A B} (m : Run A) (k : A -> Run B) : Run B :=
  match m with
  | (t, Done a) => let (t', o) := k a in ((t ++ t')%list, o)
  | (t, Panic) => (t, Panic)
  end.

Definition emit (e : Effect) : Run unit := ([e], Done tt).

Definition panic {A} : Run A := ([], Panic).

Notation "x <- m ;; k" := (bind m (fun x => k))
  (at level 61, m at next level, right associativity).
Notation "m ;;; k" := (bind m (fun _ => k))
  (at level 61, right associativity).

Definition trace {A} (r : Run A) : list Effect := fst r.
Definition result {A} (r : Run A) : outcome A := snd r.

(** ** [internal/github]: the pull request description *)

Module GitHub.

(** [github.PullRequest], with the field the code reads: [Body *string]. *)
Record PullRequest := { Body : option string }.

Section Client.

(** What [c.client.PullRequests.Get] answers: the pull request, or the
    error of the transport. *)
Variable pullRequestsGet : string -> string -> Z -> PullRequest + string.

(** [PRDescription]: [*pr.Body] is read without a check. *)
Definition PRDescription (organization repository : string)
  (pullRequest : Z) : Run (string * error) :=
  emit (Enter FPRDescription) ;;;
  emit (PullRequestsGet organization repository pullRequest) ;;;
  match pullRequestsGet organization repository pullRequest with
  | inr err =>
      ret ("", New ("unable to retrieve pull request: " ++ err))
  | inl pr =>
      match Body pr with
      | Some body => ret (body, None)
      | None => panic
      end
  end.

End Client.

End GitHub.

(** ** [internal/slack]: the dispatcher *)

(** [slackevents.EventsAPIEvent], by the dynamic type of its inner event. *)
Inductive InnerEventData :=
| InnerMessageEvent (messageEvent : MessageEvent)
| InnerOther.

(** [socketmode.Event]: the dynamic type of [Data], and [Request], a
    pointer, by its envelope identifier. *)
Inductive EventData :=
| EventsAPIEvent (inner : InnerEventData)
| DataOther.

Record Event := {
  Data : EventData;
  Request : option string
}.

Section Dispatcher.

Variable arch : GoStrconv.IntSize.
Variable unicodeLower : string -> string.

(** [s.botID], set by [Run] from [AuthTest] before events are handled. *)
Variable botID : string.

(** The answers of the collaborators: the name of a channel, the name of a
    user and a pull request, or an error. *)
Variable conversationInfo : string -> string + string.
Variable userInfo : string -> string + string.
Variable pullRequestsGet : string -> string -> Z -> GitHub.PullRequest + string.

(** [handleBotMessage] *)
Definition handleBotMessage (messageEvent : MessageEvent)
  (channelName : string) : Run error :=
  emit (Enter FhandleBotMessage) ;;;
  if (channelName =? "gateway-schema-change-feed")%string then
    emit (Enter FhandleGatewaySchemaChangeEvent) ;;;
    emit (Log LevelDebug "gateway change event received") ;;;
    let (gsc, err) :=
      handleGatewaySchemaChangeEvent arch unicodeLower messageEvent in
    match err with
    | Some msg =>
        ret (New ("unable to handle gateway schema change event: " ++ msg))
    | None =>
        r <- GitHub.PRDescription pullRequestsGet (organization gsc)
               (repository gsc) (pullRequest gsc) ;;
        match snd r with
        | Some msg =>
            ret (New ("unable to get PR description for gateway schema change event: "
                      ++ msg))
        | None => ret None
        end
    end
  else
    emit (Log LevelDebug "bot message received") ;;;
    ret None.

(** [handleMessageEvent] *)
Definition handleMessageEvent (e : Event) : Run unit :=
  match Data e with
  | DataOther =>
      emit (Log LevelError "event ignored as it is not an API event")
  | EventsAPIEvent inner =>
      match Request e with
      | None => panic
      | Some envelopeID =>
          emit (Ack envelopeID) ;;;
          match inner with
          | InnerOther =>
              emit (Log LevelDebug "event ignored as it is not a message event")
          | InnerMessageEvent messageEvent =>
              if (0 <? GoStrings.len (SubType messageEvent))
                 && negb (SubType messageEvent =? "bot_message")%string then
                emit (Log LevelDebug
                        "event ignored as the sub-type is not a new message")
              else if (BotID messageEvent =? botID)%string then
                emit (Log LevelDebug
                        "event ignored as the message originated from our application")
              else
                emit (GetConversationInfo (Channel messageEvent)) ;;;
                match conversationInfo (Channel messageEvent) with
                | inr _ =>
                    emit (Log LevelError "unable to get channel information")
                | inl channelName =>
                    if (SubType messageEvent =? "bot_message")%string then
                      err <- handleBotMessage messageEvent channelName ;;
                      match err with
                      | Some _ =>
                          emit (Log LevelError "unable to handle bot message")
                      | None => ret tt
                      end
                    else
                      emit (GetUserInfo (User messageEvent)) ;;;
                      match userInfo (User messageEvent) with
                      | inr _ =>
                          emit (Log LevelError "unable to get user information")
                      | inl username =>
                          emit (Log LevelDebug "message received")
                      end
                end
          end
      end
  end.

End Dispatcher.

(** The calls the dispatcher makes only for a message it processes: the
    lookups of the channel, of the user and of the pull request, and the
    entry into a handler. *)
Definition isHandlerCall (e : Effect) : bool :=
  match e with
  | GetConversationInfo _ | GetUserInfo _ | PullRequestsGet _ _ _ | Enter _ => true
  | Log _ _ | Ack _ => false
  end.

(** ** Notions the properties are stated with *)

Section Observations.

Variable arch : GoStrconv.IntSize.
Variable unicodeLower : string -> string.

(** The field's title is ["ref"] (respectively ["commit"]) once lowered:
    the [case] of the [switch] the field takes. *)
Definition isRefField (f : AttachmentField) : bool :=
  (GoStrings.ToLower unicodeLower (Title f) =? "ref")%string.

Definition isCommitField (f : AttachmentField) : bool :=
  (GoStrings.ToLower unicodeLower (Title f) =? "commit")%string.

(** [tokens[2]] of a ref value and what [ParseInt] makes of it. *)
Definition refToken (f : AttachmentField) : string :=
  nth 2 (GoStrings.Split (Value f) "/") "".

Definition refNumber (f : AttachmentField) : Z :=
  fst (GoStrconv.ParseInt arch (refToken f) 10 0).

(** The tokens of a commit value before the ["|"], split on ["/"]. *)
Definition commitTokens (f : AttachmentField) : list string :=
  GoStrings.Split (nth 0 (GoStrings.Split (Value f) "|") "") "/".

Definition commitOrganization (f : AttachmentField) : string :=
  nth 3 (commitTokens f) "".

Definition commitRepository (f : AttachmentField) : string :=
  nth 4 (commitTokens f) "".

(** The field is well formed: its turn of the loop does not return.  A
    ref value has three tokens or more and the third parses; a commit
    value has two tokens around ["|"] and the first has five or more
    around ["/"]. *)
Definition wellFormedField (f : AttachmentField) : bool :=
  if isRefField f then
    (3 <=? Z.of_nat (List.length (GoStrings.Split (Value f) "/")))
    && match snd (GoStrconv.ParseInt arch (refToken f) 10 0) with
       | None => true
       | Some _ => false
       end
  else if isCommitField f then
    (Z.of_nat (List.length (GoStrings.Split (Value f) "|")) =? 2)
    && (5 <=? Z.of_nat (List.length (commitTokens f)))
  else true.

(** What the turn of a well-formed field assigns. *)
Definition applyField (st : scanState) (f : AttachmentField) : scanState :=
  if isRefField f then
    {| scanPullRequest := refNumber f;
       scanOrganization := scanOrganization st;
       scanRepository := scanRepository st |}
  else if isCommitField f then
    {| scanPullRequest := scanPullRequest st;
       scanOrganization := commitOrganization f;
       scanRepository := commitRepository f |}
  else st.

End Observations.

(** The last element of a list that satisfies [p]. *)
Definition findLast {A} (p : A -> bool) (l : list A) : option A :=
  find p (rev l).

(** The message passes the three checks made before the fields are read,
    with [a] its only attachment. *)
Definition passesChecks (m : MessageEvent) (a : Attachment) : Prop :=
  BotID m <> "" /\ Attachments m = [a] /\ AuthorName a <> "".

(** A message event with the given bot identifier and attachments, as the
    tests build them. *)
Definition botMessage (botID : string) (attachments : list Attachment)
  : MessageEvent :=
  {| BotID := botID; SubType := ""; Channel := ""; User := ""; Text := "";
     Attachments := attachments |}.

Definition field (title value : string) : AttachmentField :=
  {| Title := title; Value := value; Short := true |}.

(** The attachment and the message the tests build around a list of
    fields. *)
Definition attachmentOf (fields : list AttachmentField) : Attachment :=
  {| AuthorName := "team-koko-bot"; Fields := fields |}.

Definition messageOf (fields : list AttachmentField) : MessageEvent :=
  botMessage "id" [attachmentOf fields].

(** Unicode's lower-casing left undone: a stand-in for messages in plain
    ASCII, whose titles never reach it. *)
Definition noUnicode (s : string) : string := s.

(** An event that carries a message, and collaborators that answer every
    lookup the same way, to run the dispatcher on examples. *)
Definition messageEventOf (m : MessageEvent) : Event :=
  {| Data := EventsAPIEvent (InnerMessageEvent m); Request := Some "envelope" |}.

Definition feedChannel (channelID : string) : string + string :=
  inl "gateway-schema-change-feed".

Definition someUser (user : string) : string + string := inl "fero".

Definition pullRequestWithout (owner repo : string) (number : Z)
  : GitHub.PullRequest + string :=
  inl {| GitHub.Body := None |}.

Definition pullRequestWith (body : string) (owner repo : string) (number : Z)
  : GitHub.PullRequest + string :=
  inl {| GitHub.Body := Some body |}.

(** The attachment of the test "message contains valid attachments". *)
Definition validAttachment : Attachment :=
  {| AuthorName := "team-koko-bot";
     Fields :=
       [ field "Ref" "refs/pull/5291/merge";
         field "Event" "pull_request_target";
         field "Actions URL"
           "<https://github.com/kong/team-koko-bot/commit/180edcde77e59309c21acad4837b53d0c85fc908/checks|Labeler>";
         field "Commit"
           "<https://github.com/kong/team-koko-bot/commit/180edcde77e59309c21acad4837b53d0c85fc908|180edc>";
         field "Message" "null" ] |}.

(** Messages to run the dispatcher on: an edited message, a message that
    carries the bot's own identifier ["B0KOKO"], a schema change posted by
    another bot, and a message of a person. *)
Definition editedMessage : MessageEvent :=
  {| BotID := "B056LB75L5R"; SubType := "message_changed";
     Channel := "C1"; User := "U1"; Text := "edited";
     Attachments := [validAttachment] |}.

Definition ownMessage : MessageEvent :=
  {| BotID := "B0KOKO"; SubType := "";
     Channel := "C1"; User := "U1"; Text := "hello";
     Attachments := [] |}.

Definition schemaChangeMessage : MessageEvent :=
  {| BotID := "B056LB75L5R"; SubType := "bot_message";
     Channel := "C1"; User := ""; Text := "";
     Attachments := [validAttachment] |}.

Definition humanMessage : MessageEvent :=
  {| BotID := ""; SubType := "";
     Channel := "C1"; User := "U1"; Text := "hello";
     Attachments := [] |}.

(** Decimal numerals, to say what [ParseInt] accepts in base 10: the bytes
    ['0'] to ['9'], and the number a string of them spells after [acc]. *)
Definition isDigitByte (c : ascii) : bool :=
  ((48 <=? nat_of_ascii c) && (nat_of_ascii c <=? 57))%nat.

Fixpoint allDigits (s : string) : bool :=
  match s with
  | EmptyString => true
  | String c rest => isDigitByte c && allDigits rest
  end.

Fixpoint decimalValue (s : string) (acc : Z) : Z :=
  match s with
  | EmptyString => acc
  | String c rest =>
      decimalValue rest (acc * 10 + (Z.of_nat (nat_of_ascii c) - 48))
  end.

(** The number of bytes of [s] equal to [sep]. *)
Fixpoint countByte (sep : ascii) (s : string) : nat :=
  match s with
  | EmptyString => 0
  | String c rest => (if Ascii.eqb c sep then 1 else 0) + countByte sep rest
  end.

(** ** Further notions for the extractor *)

(** The field is one the [switch] has a [case] for. *)
Definition relevantField (unicodeLower : string -> string)
  (f : AttachmentField) : bool :=
  isRefField unicodeLower f || isCommitField unicodeLower f.

(** The message with the fields of other titles removed from every
    attachment. *)
Definition withoutOtherFields (unicodeLower : string -> string)
  (m : MessageEvent) : MessageEvent :=
  {| BotID := BotID m; SubType := SubType m; Channel := Channel m;
     User := User m; Text := Text m;
     Attachments :=
       map (fun a => {| AuthorName := AuthorName a;
                        Fields := filter (relevantField unicodeLower) (Fields a) |})
           (Attachments m) |}.

(** A bot message with one attachment. *)
Definition notification (botID author : string)
  (fields : list AttachmentField) : MessageEvent :=
  {| BotID := botID; SubType := "bot_message"; Channel := ""; User := "";
     Text := "";
     Attachments := [{| AuthorName := author; Fields := fields |}] |}.

(** The string holds no byte [c]. *)
Definition noByte (c : ascii) (s : string) : bool :=
  (countByte c s =? 0)%nat.

(** The string is empty or starts with the byte [c]. *)
Definition emptyOrStartsWith (c : ascii) (s : string) : bool :=
  match s with
  | EmptyString => true
  | String c0 _ => Ascii.eqb c0 c
  end.

(** ** Further notions for the dispatcher *)

(** Kinds of effects, to count them in a trace. *)
Definition isAck (e : Effect) : bool :=
  match e with Ack _ => true | _ => false end.

Definition isEnter (e : Effect) : bool :=
  match e with Enter _ => true | _ => false end.

Definition isPullRequestsGet (e : Effect) : bool :=
  match e with PullRequestsGet _ _ _ => true | _ => false end.

Definition isGetUserInfo (e : Effect) : bool :=
  match e with GetUserInfo _ => true | _ => false end.

(** How often an effect of a kind occurs in a trace. *)
Definition occurrences (kind : Effect -> bool) (t : list Effect) : nat :=
  List.length (filter kind t).

(** ** More of Go's [strings], for the validation of the options *)

Module GoStringsTrim.

(** [asciiSpace]: tab, line feed, vertical tab, form feed, carriage return
    and space. *)
Definition isASCIISpace (c : ascii) : bool :=
  let n := nat_of_ascii c in
  ((n =? 9) || (n =? 10) || (n =? 11) || (n =? 12) || (n =? 13) || (n =? 32))%nat.

(** The second loop of [strings.TrimSpace], over [s = s[start:]]: [stop]
    moves left past ASCII space; a byte that is not ASCII hands
    [s[start:stop]] over to [TrimRightFunc(_, unicode.IsSpace)], for which
    [unicodeTrimRight] stands. *)
Fixpoint trimStop (unicodeTrimRight : string -> string) (s : string)
  (stop : nat) : string :=
  match stop with
  | O => EmptyString
  | S k =>
      match String.get k s with
      | Some c =>
          if negb (GoStrings.isASCIIByte c) then
            unicodeTrimRight (substring 0 stop s)
          else if isASCIISpace c then trimStop unicodeTrimRight s k
          else substring 0 stop s
      | None => EmptyString
      end
  end.

(** [strings.TrimSpace]: the first loop moves [start] right past ASCII
    space; a byte that is not ASCII hands [s[start:]] over to
    [TrimFunc(_, unicode.IsSpace)], for which [unicodeTrim] stands.
    Nothing is assumed of the two Unicode functions. *)
Fixpoint TrimSpace (unicodeTrim unicodeTrimRight : string -> string)
  (s : string) : string :=
  match s with
  | EmptyString => EmptyString
  | String c rest =>
      if negb (GoStrings.isASCIIByte c) then unicodeTrim s
      else if isASCIISpace c then TrimSpace unicodeTrim unicodeTrimRight rest
      else trimStop unicodeTrimRight s (String.length s)
  end.

(** [strings.HasPrefix]:
    [len(s) >= len(prefix) && s[0:len(prefix)] == prefix]. *)
Definition HasPrefix (s prefix : string) : bool :=
  (String.length prefix <=? String.length s)%nat
  && (substring 0 (String.length prefix) s =? prefix)%string.

End GoStringsTrim.

(** Every byte of the string is ASCII space. *)
Fixpoint blank (s : string) : bool :=
  match s with
  | EmptyString => true
  | String c rest => GoStringsTrim.isASCIISpace c && blank rest
  end.

(** ** The start of the program *)

(** [zap.Logger], by the fields [With] has added to it. *)
Record ZapLogger := { loggerFields : list (string * string) }.

Definition With (l : ZapLogger) (key value : string) : ZapLogger :=
  {| loggerFields := (loggerFields l ++ [(key, value)])%list |}.

Module GitHubStartup.

(** [github.Options] *)
Record Options := {
  Token : string;
  Logger : option ZapLogger
}.

(** [github.Client]: the API client, by the access token of its token
    source, and the logger. *)
Record Client := {
  accessToken : string;
  logger : ZapLogger
}.

Section NewClient.

Variable unicodeTrim unicodeTrimRight : string -> string.

(** The error of [github_ratelimit.NewRateLimitWaiterClient], if any. *)
Variable rateLimiterError : error.

(** [NewClient] *)
Definition NewClient (opts : Options) : option Client * error :=
  if GoStrings.len
       (GoStringsTrim.TrimSpace unicodeTrim unicodeTrimRight (Token opts)) =? 0
  then (None, New "github token is not set")
  else
    match Logger opts with
    | None => (None, New "logger is not set")
    | Some base =>
        match rateLimiterError with
        | Some err =>
            (None, New ("unable to create GitHub rate limiter: " ++ err))
        | None =>
            (Some {| accessToken := Token opts;
                     logger := With base "component" "github" |}, None)
        end
    end.

End NewClient.

End GitHubStartup.

Module SlackStartup.

(** [slack.Options] *)
Record Options := {
  AppToken : string;
  BotToken : string;
  Debug : bool;
  GitHubClient : option GitHubStartup.Client;
  Logger : option ZapLogger
}.

(** What [slack.New] was given: the token, [OptionDebug], [OptionLog] and
    [OptionAppLevelToken]. *)
Record APIClient := {
  apiToken : string;
  apiDebug : bool;
  apiLogger : ZapLogger;
  apiAppLevelToken : string
}.

(** What [socketmode.New] was given, under [NewSocketmodeHandler]. *)
Record SocketHandler := {
  socketClient : APIClient;
  socketDebug : bool;
  socketLogger : ZapLogger
}.

(** [Slack] *)
Record Slack := {
  client : APIClient;
  botID : string;
  gitHubClient : GitHubStartup.Client;
  handler : SocketHandler;
  logger : ZapLogger
}.

Section NewSlack.

Variable unicodeTrim unicodeTrimRight : string -> string.

(** [NewSlack] *)
Definition NewSlack (opts : Options) : option Slack * error :=
  if GoStrings.len
       (GoStringsTrim.TrimSpace unicodeTrim unicodeTrimRight (AppToken opts)) =? 0
  then (None, New "slack application token is not set")
  else if negb (GoStringsTrim.HasPrefix (AppToken opts) "xapp-") then
    (None, New "slack application token must have the prefix 'xapp-'")
  else if GoStrings.len
            (GoStringsTrim.TrimSpace unicodeTrim unicodeTrimRight (BotToken opts))
          =? 0
  then (None, New "slack bot token is not set")
  else if negb (GoStringsTrim.HasPrefix (BotToken opts) "xoxb-") then
    (None, New "slack bot token must have the prefix 'xoxb-'")
  else
    match GitHubClient opts with
    | None => (None, New "client for GitHub is not set")
    | Some gitHub =>
        match Logger opts with
        | None => (None, New "logger is not set")
        | Some base =>
            let logger := With base "component" "slack" in
            let client :=
              {| apiToken := BotToken opts;
                 apiDebug := Debug opts;
                 apiLogger := With logger "component" "api";
                 apiAppLevelToken := AppToken opts |} in
            let socketClient :=
              {| socketClient := client;
                 socketDebug := Debug opts;
                 socketLogger := With logger "component" "scocketmode" |} in
            (Some {| client := client;
                     botID := "";
                     gitHubClient := gitHub;
                     handler := socketClient;
                     logger := logger |}, None)
        end
    end.

End NewSlack.

(** [Run]: [authTest] is what [s.client.AuthTest] answers (the bot
    identifier, or an error), and [runEventLoop] what
    [s.handler.RunEventLoop] returns once the handlers are registered on
    the instance.  The result is the instances the event loop was started
    on, and the error [Run] returns. *)
Definition Run (authTest : string + string) (runEventLoop : Slack -> error)
  (s : Slack) : list Slack * error :=
  match authTest with
  | inr err => ([], New ("unable to determine bot ID: " ++ err))
  | inl id =>
      let s' := {| client := client s; botID := id;
                   gitHubClient := gitHubClient s; handler := handler s;
                   logger := logger s |} in
      match runEventLoop s' with
      | Some err => ([s'], New ("error running handler event loop: " ++ err))
      | None => ([s'], None)
      end
  end.

End SlackStartup.

Module Main.

(** What [main] does that can be seen: a line on the standard error, an
    error line of the logger (the message and the error), and the start of
    the event loop on an instance. *)
Inductive Output :=
| Stderr (line : string)
| LogError (msg err : string)
| EventLoop (s : SlackStartup.Slack).

(** How the process ends: [main] returns (status 0), [os.Exit(1)], or a
    panic on a nil instance. *)
Inductive Exit := Returned | Exit1 | Panicked.

Section Program.

Variable unicodeTrim unicodeTrimRight : string -> string.

(** The environment, the result of [logConfig.Build], the error of the
    rate limiter, the answer of [AuthTest] and the result of the event
    loop. *)
Variable getenv : string -> string.
Variable buildLogger : ZapLogger + string.
Variable rateLimiterError : error.
Variable authTest : string + string.
Variable eventLoopError : error.

(** [main] *)
Definition main : list Output * Exit :=
  let appToken := getenv "SLACK_APP_TOKEN" in
  let botToken := getenv "SLACK_BOT_TOKEN" in
  let gitHubToken := getenv "GITHUB_TOKEN" in
  match buildLogger with
  | inr err => ([Stderr ("unable to create logger: " ++ err)], Exit1)
  | inl logger =>
      let (githubClient, err) :=
        GitHubStartup.NewClient unicodeTrim unicodeTrimRight rateLimiterError
          {| GitHubStartup.Token := gitHubToken;
             GitHubStartup.Logger := Some logger |} in
      match err with
      | Some err => ([LogError "unable to create GitHub client" err], Exit1)
      | None =>
          let (s, err) :=
            SlackStartup.NewSlack unicodeTrim unicodeTrimRight
              {| SlackStartup.AppToken := appToken;
                 SlackStartup.BotToken := botToken;
                 SlackStartup.Debug := true;
                 SlackStartup.GitHubClient := githubClient;
                 SlackStartup.Logger := Some logger |} in
          match err with
          | Some err => ([LogError "unable to create Slack instance" err], Exit1)
          | None =>
              match s with
              | None => ([], Panicked)
              | Some s =>
                  let (started, err) :=
                    SlackStartup.Run authTest (fun _ => eventLoopError) s in
                  match err with
                  | Some err =>
                      ((map EventLoop started
                        ++ [LogError "issue running Slack instance" err])%list,
                       Exit1)
                  | None => (map EventLoop started, Returned)
                  end
              end
          end
      end
  end.

End Program.

End Main.

(** Values to run the start of the program on: the logger and the client
    of the tests, their options, options with white space before the
    application token, and an environment with the three variables set. *)
Definition baseLogger : ZapLogger := {| loggerFields := [] |}.

Definition zeroClient : GitHubStartup.Client :=
  {| GitHubStartup.accessToken := ""; GitHubStartup.logger := baseLogger |}.

Definition validOptions : SlackStartup.Options :=
  {| SlackStartup.AppToken := "xapp-";
     SlackStartup.BotToken := "xoxb-";
     SlackStartup.Debug := false;
     SlackStartup.GitHubClient := Some zeroClient;
     SlackStartup.Logger := Some baseLogger |}.


Definition tokenOptions : GitHubStartup.Options :=
  {| GitHubStartup.Token := "token";
     GitHubStartup.Logger := Some baseLogger |}.

Definition exampleEnv (name : string) : string :=
  if (name =? "SLACK_APP_TOKEN")%string then "xapp-1"
  else if (name =? "SLACK_BOT_TOKEN")%string then "xoxb-1"
  else if (name =? "GITHUB_TOKEN")%string then "ghp_1"
  else "".

(** ** The library functions on examples *)

Example ToLower_Ref : forall u, GoStrings.ToLower u "Ref" = "ref".
Proof. reflexivity. Qed.

Example Split_ref :
  GoStrings.Split "refs/pull/5291/merge" "/" = ["refs"; "pull"; "5291"; "merge"].
Proof. reflexivity. Qed.

Example Split_empty : GoStrings.Split "" "/" = [""].
Proof. reflexivity. Qed.

Example ParseInt_5291 :
  GoStrconv.ParseInt GoStrconv.Int64 "5291" 10 0 = (5291, None).
Proof. vm_compute. reflexivity. Qed.

Example ParseInt_min64 :
  GoStrconv.ParseInt GoStrconv.Int64 "-9223372036854775808" 10 0
  = (GoStrconv.MinInt64, None).
Proof. vm_compute. reflexivity. Qed.

Example ParseInt_min64_on_32 :
  snd (GoStrconv.ParseInt GoStrconv.Int32 "-9223372036854775808" 10 0)
  = Some GoStrconv.ErrRange.
Proof. vm_compute. reflexivity. Qed.

Example ParseInt_nan :
  GoStrconv.ParseInt GoStrconv.Int64 "not-a-number" 10 0
  = (0, Some GoStrconv.ErrSyntax).
Proof. vm_compute. reflexivity. Qed.

Example formatInt_2 : GoFmt.formatInt 2 = "2".
Proof. reflexivity. Qed.

(** ** Facts about the library functions *)

Lemma len_zero_iff (s : string) : (GoStrings.len s =? 0) = true <-> s = "".
Proof.
  unfold GoStrings.len. destruct s as [|c s]; simpl.
  - split; reflexivity.
  - split; discriminate.
Qed.

Lemma len_nonzero (s : string) : s <> "" -> (GoStrings.len s =? 0) = false.
Proof.
  intros H. destruct (GoStrings.len s =? 0) eqn:E; [|reflexivity].
  apply len_zero_iff in E. contradiction.
Qed.

Lemma Split_not_nil (s : string) (sep : ascii) : GoStrings.Split s sep <> [].
Proof.
  destruct s as [|c s]; simpl; [discriminate|].
  destruct (Ascii.eqb c sep); [discriminate|].
  destruct (GoStrings.Split s sep); discriminate.
Qed.

(** [Split] returns one token more than there are separators. *)
Lemma Split_length (s : string) (sep : ascii) :
  List.length (GoStrings.Split s sep) = S (countByte sep s).
Proof.
  induction s as [|c s IH]; simpl; [reflexivity|].
  destruct (Ascii.eqb c sep); simpl.
  - now rewrite IH.
  - destruct (GoStrings.Split s sep) as [|tok toks] eqn:E; simpl in *; lia.
Qed.

(** *** [strconv.ParseInt] stays within the range of [int] *)

Lemma parseUintLoop_range_error base cutoff maxVal s n r :
  GoStrconv.parseUintLoop base cutoff maxVal s n = (r, Some GoStrconv.ErrRange) ->
  r = maxVal.
Proof.
  revert n. induction s as [|c s IH]; intros n; simpl.
  - discriminate.
  - destruct (GoStrconv.digitOfByte c) as [d|]; [|discriminate].
    destruct (base <=? d); [discriminate|].
    destruct (cutoff <=? n); [intros [= <-]; reflexivity|].
    destruct (_ || _); [intros [= <-]; reflexivity|].
    apply IH.
Qed.

Lemma parseUintLoop_bound base cutoff maxVal s n r :
  0 <= n <= maxVal ->
  GoStrconv.parseUintLoop base cutoff maxVal s n = (r, None) ->
  0 <= r <= maxVal.
Proof.
  revert n. induction s as [|c s IH]; intros n Hn; simpl.
  - intros [= <-]. exact Hn.
  - destruct (GoStrconv.digitOfByte c) as [d|]; [|discriminate].
    destruct (base <=? d); [discriminate|].
    destruct (cutoff <=? n); [discriminate|].
    destruct (_ <? _) eqn:E1; [discriminate|].
    destruct (maxVal <? _) eqn:E2; [discriminate|]. simpl.
    apply IH. apply Z.ltb_ge in E2. split; [|exact E2].
    unfold GoStrconv.uint64. apply Z.mod_pos_bound. reflexivity.
Qed.

Lemma ParseUint_cases arch s base r err :
  GoStrconv.ParseUint arch s base 0 = (r, err) ->
  match err with
  | None => 0 <= r <= 2 ^ GoStrconv.bitsOf arch - 1
  | Some GoStrconv.ErrRange => r = 2 ^ GoStrconv.bitsOf arch - 1
  | Some GoStrconv.ErrSyntax => True
  end.
Proof.
  unfold GoStrconv.ParseUint. destruct (s =? "")%string.
  - intros [= <- <-]. exact I.
  - change (0 =? 0) with true. cbv iota. cbv zeta.
    destruct err as [[|]|]; intros H.
    + exact I.
    + eapply parseUintLoop_range_error. exact H.
    + eapply parseUintLoop_bound; [|exact H]. destruct arch; cbv; split; discriminate.
Qed.

(** A number [ParseInt] returns without an error fits the platform's
    [int]. *)
Lemma ParseInt_range arch s base n :
  GoStrconv.ParseInt arch s base 0 = (n, None) ->
  - 2 ^ (GoStrconv.bitsOf arch - 1) <= n < 2 ^ (GoStrconv.bitsOf arch - 1).
Proof.
  unfold GoStrconv.ParseInt. destruct s as [|c0 rest]; [discriminate|].
  cbv zeta.
  destruct (GoStrconv.ParseUint arch _ base 0) as [un err] eqn:E.
  apply ParseUint_cases in E.
  change (0 =? 0) with true. cbv iota.
  destruct err as [[|]|]; [discriminate| |].
  - (* the unsigned number was out of range: so is the signed one *)
    subst un. destruct (Ascii.eqb c0 "-"); destruct arch; discriminate.
  - destruct (Ascii.eqb c0 "-"); simpl negb; cbv iota; simpl andb.
    + destruct (_ <? un) eqn:Hc; [discriminate|]. apply Z.ltb_ge in Hc.
      intros [= <-]. unfold GoStrconv.int64.
      destruct arch; simpl GoStrconv.bitsOf in *;
        change (2 ^ (32 - 1)) with 2147483648 in *;
        change (2 ^ (64 - 1)) with 9223372036854775808 in *;
        change (2 ^ 63) with 9223372036854775808;
        change (2 ^ 64) with 18446744073709551616;
        Z.div_mod_to_equations; lia.
    + destruct (_ <=? un) eqn:Hc; [discriminate|]. apply Z.leb_gt in Hc.
      intros [= <-]. unfold GoStrconv.int64.
      destruct arch; simpl GoStrconv.bitsOf in *;
        change (2 ^ (32 - 1)) with 2147483648 in *;
        change (2 ^ (64 - 1)) with 9223372036854775808 in *;
        change (2 ^ 63) with 9223372036854775808;
        change (2 ^ 64) with 18446744073709551616;
        Z.div_mod_to_equations; lia.
Qed.

(** So the conversion [int(pullRequest)] changes nothing. *)
Lemma int_of_parsed arch s base n :
  GoStrconv.ParseInt arch s base 0 = (n, None) -> GoStrconv.int arch n = n.
Proof.
  intros H. apply ParseInt_range in H. unfold GoStrconv.int.
  destruct arch; simpl GoStrconv.bitsOf in *;
    change (2 ^ (32 - 1)) with 2147483648 in *;
    change (2 ^ (64 - 1)) with 9223372036854775808 in *;
    change (2 ^ 32) with 4294967296;
    change (2 ^ 64) with 18446744073709551616;
    Z.div_mod_to_equations; lia.
Qed.

(** Where [int] has 32 bits the sentinel [math.MinInt64] is never parsed. *)
Lemma ParseInt_32_not_sentinel s base n :
  GoStrconv.ParseInt GoStrconv.Int32 s base 0 = (n, None) ->
  n <> GoStrconv.MinInt64.
Proof.
  intros H. apply ParseInt_range in H. simpl GoStrconv.bitsOf in H.
  change (2 ^ (32 - 1)) with 2147483648 in H.
  unfold GoStrconv.MinInt64. change (2 ^ 63) with 9223372036854775808. lia.
Qed.

(** *** What [strconv.ParseInt] accepts in base 10 *)

Lemma digit_of_digitByte c :
  isDigitByte c = true ->
  GoStrconv.digitOfByte c = Some (Z.of_nat (nat_of_ascii c) - 48)
  /\ 0 <= Z.of_nat (nat_of_ascii c) - 48 <= 9.
Proof.
  unfold isDigitByte, GoStrconv.digitOfByte. intros H. cbv zeta. rewrite H.
  split; [reflexivity|].
  apply andb_true_iff in H. destruct H as [H1 H2].
  apply Nat.leb_le in H1, H2. lia.
Qed.

(** In base 10 a byte is accepted only when it is a decimal digit. *)
Lemma digitByte_of_digit c d :
  GoStrconv.digitOfByte c = Some d -> (10 <=? d) = false ->
  isDigitByte c = true /\ d = Z.of_nat (nat_of_ascii c) - 48.
Proof.
  unfold isDigitByte, GoStrconv.digitOfByte. cbv zeta.
  destruct (_ && _)%nat.
  - intros [= <-] _. split; reflexivity.
  - destruct (_ && _)%nat eqn:E; [|discriminate].
    intros [= <-] Hd. apply Z.leb_gt in Hd.
    apply andb_true_iff in E. destruct E as [E _]. apply Nat.leb_le in E. lia.
Qed.

Lemma decimalValue_ge s acc :
  allDigits s = true -> 0 <= acc -> acc <= decimalValue s acc.
Proof.
  revert acc. induction s as [|c s IH]; intros acc Hd Hacc; simpl in *.
  - lia.
  - apply andb_true_iff in Hd. destruct Hd as [Hc Hs].
    destruct (digit_of_digitByte c Hc) as [_ Hr].
    specialize (IH (acc * 10 + (Z.of_nat (nat_of_ascii c) - 48)) Hs). lia.
Qed.

(** On decimal digits whose number fits, the loop of [ParseUint] returns
    the number. *)
Lemma parseUintLoop_decimal maxVal s acc :
  allDigits s = true -> 0 <= acc ->
  decimalValue s acc <= maxVal -> maxVal <= GoStrconv.maxUint64 ->
  GoStrconv.parseUintLoop 10 (GoStrconv.maxUint64 / 10 + 1) maxVal s acc
  = (decimalValue s acc, None).
Proof.
  revert acc. induction s as [|c s IH]; intros acc Hd Hacc Hv Hmax; simpl in *.
  - reflexivity.
  - apply andb_true_iff in Hd. destruct Hd as [Hc Hs].
    destruct (digit_of_digitByte c Hc) as [-> Hr].
    set (d := Z.of_nat (nat_of_ascii c) - 48) in *.
    assert (Hge : acc * 10 + d <= decimalValue s (acc * 10 + d))
      by (apply decimalValue_ge; [exact Hs|lia]).
    unfold GoStrconv.maxUint64 in *.
    change (2 ^ 64 - 1) with 18446744073709551615 in *.
    change (18446744073709551615 / 10 + 1) with 1844674407370955162.
    destruct (10 <=? d) eqn:E10; [apply Z.leb_le in E10; lia|].
    destruct (1844674407370955162 <=? acc) eqn:Ec; [apply Z.leb_le in Ec; lia|].
    unfold GoStrconv.uint64. change (2 ^ 64) with 18446744073709551616.
    rewrite (Z.mod_small (acc * 10)) by lia.
    rewrite (Z.mod_small (acc * 10 + d)) by lia.
    destruct (acc * 10 + d <? acc * 10) eqn:E1; [apply Z.ltb_lt in E1; lia|].
    destruct (maxVal <? acc * 10 + d) eqn:E2; [apply Z.ltb_lt in E2; lia|].
    simpl. apply IH; [exact Hs|lia|exact Hv|exact Hmax].
Qed.

(** And the loop returns without an error only on decimal digits, with the
    number they spell. *)
Lemma parseUintLoop_digits maxVal s acc r :
  0 <= acc <= maxVal -> maxVal <= GoStrconv.maxUint64 ->
  GoStrconv.parseUintLoop 10 (GoStrconv.maxUint64 / 10 + 1) maxVal s acc
  = (r, None) ->
  allDigits s = true /\ r = decimalValue s acc.
Proof.
  revert acc. induction s as [|c s IH]; intros acc Hacc Hmax; simpl.
  - intros [= <-]. split; reflexivity.
  - destruct (GoStrconv.digitOfByte c) as [d|] eqn:Ed; [|discriminate].
    destruct (10 <=? d) eqn:E10; [discriminate|].
    destruct (digitByte_of_digit c d Ed E10) as [Hc ->].
    destruct (digit_of_digitByte c Hc) as [_ Hr].
    set (d := Z.of_nat (nat_of_ascii c) - 48) in *.
    unfold GoStrconv.maxUint64 in *.
    change (2 ^ 64 - 1) with 18446744073709551615 in *.
    change (18446744073709551615 / 10 + 1) with 1844674407370955162.
    destruct (1844674407370955162 <=? acc) eqn:Ec; [discriminate|].
    apply Z.leb_gt in Ec.
    unfold GoStrconv.uint64. change (2 ^ 64) with 18446744073709551616.
    rewrite (Z.mod_small (acc * 10)) by lia.
    destruct (_ <? acc * 10) eqn:E1; [discriminate|].
    destruct (maxVal <? _) eqn:E2; [discriminate|]. simpl.
    apply Z.ltb_ge in E1, E2.
    assert (Hsmall : (acc * 10 + d) mod 18446744073709551616 = acc * 10 + d).
    { apply Z.mod_small. split; [lia|].
      destruct (Z_lt_ge_dec (acc * 10 + d) 18446744073709551616) as [L|G]; [exact L|].
      exfalso.
      assert ((acc * 10 + d) mod 18446744073709551616
              = acc * 10 + d - 18446744073709551616).
      { symmetry. apply (Z.mod_unique _ _ 1); lia. }
      lia. }
    rewrite Hsmall in *. intros H.
    destruct (IH (acc * 10 + d) ltac:(lia) Hmax H) as [Hs Hv].
    rewrite Hc, Hs. split; [reflexivity|exact Hv].
Qed.

Lemma digit_not_sign c :
  isDigitByte c = true -> Ascii.eqb c "+" = false /\ Ascii.eqb c "-" = false.
Proof.
  destruct c as [[] [] [] [] [] [] [] []]; (discriminate || (split; reflexivity)).
Qed.

(** [ParseInt] in base 10 on an unsigned decimal numeral that fits
    [int]. *)
Lemma ParseInt_decimal arch s :
  s <> "" -> allDigits s = true ->
  decimalValue s 0 < 2 ^ (GoStrconv.bitsOf arch - 1) ->
  GoStrconv.ParseInt arch s 10 0 = (decimalValue s 0, None).
Proof.
  intros Hne Hd Hv. destruct s as [|c0 rest]; [contradiction|].
  pose proof Hd as Hd'. simpl in Hd'. apply andb_true_iff in Hd'.
  destruct Hd' as [Hc _]. destruct (digit_not_sign c0 Hc) as [Hp Hm].
  unfold GoStrconv.ParseInt. rewrite Hp, Hm. cbv zeta. cbn [orb]. cbv iota.
  unfold GoStrconv.ParseUint. simpl String.eqb. cbv iota.
  change (0 =? 0) with true. cbv iota. cbv zeta.
  assert (H0 : 0 <= decimalValue (String c0 rest) 0)
    by (apply decimalValue_ge; [exact Hd|lia]).
  rewrite parseUintLoop_decimal.
  - cbn [negb andb].
    destruct (_ <=? _) eqn:E; [apply Z.leb_le in E; lia|].
    unfold GoStrconv.int64. f_equal.
    destruct arch; simpl GoStrconv.bitsOf in *;
      change (2 ^ (32 - 1)) with 2147483648 in *;
      change (2 ^ (64 - 1)) with 9223372036854775808 in *;
      change (2 ^ 63) with 9223372036854775808;
      change (2 ^ 64) with 18446744073709551616;
      Z.div_mod_to_equations; lia.
  - exact Hd.
  - lia.
  - destruct arch; simpl GoStrconv.bitsOf in *;
      change (2 ^ (32 - 1)) with 2147483648 in *;
      change (2 ^ (64 - 1)) with 9223372036854775808 in *;
      [change (2 ^ 32 - 1) with 4294967295
      |change (2 ^ 64 - 1) with 18446744073709551615]; lia.
  - unfold GoStrconv.maxUint64. destruct arch; cbv; discriminate.
Qed.

(** [ParseInt] returns without an error only on a decimal numeral with an
    optional sign, and returns the number it spells. *)
Lemma ParseInt_success arch s n :
  GoStrconv.ParseInt arch s 10 0 = (n, None) ->
  exists sign digits,
    s = (sign ++ digits)%string
    /\ (sign = "" \/ sign = "+" \/ sign = "-")
    /\ digits <> "" /\ allDigits digits = true
    /\ n = (if (sign =? "-")%string then - decimalValue digits 0
            else decimalValue digits 0).
Proof.
  intros H. pose proof (ParseInt_range arch s 10 n H) as Hrange.
  unfold GoStrconv.ParseInt in H. destruct s as [|c0 rest]; [discriminate|].
  cbv zeta in H.
  destruct (GoStrconv.ParseUint arch _ 10 0) as [un err] eqn:E.
  pose proof (ParseUint_cases _ _ _ _ _ E) as Hcase.
  change (0 =? 0) with true in H. cbv iota in H.
  assert (Hmax : 2 ^ GoStrconv.bitsOf arch - 1 <= GoStrconv.maxUint64)
    by (destruct arch; cbv; discriminate).
  assert (Hpos : 0 <= 0 <= 2 ^ GoStrconv.bitsOf arch - 1)
    by (destruct arch; cbv; split; discriminate).
  assert (Herr : err = None).
  { destruct err as [[|]|]; [discriminate| |reflexivity].
    subst un. destruct (Ascii.eqb c0 "-"); destruct arch; discriminate. }
  subst err. unfold GoStrconv.ParseUint in E.
  change (0 =? 0) with true in E. cbv iota in E. cbv zeta in E.
  destruct (Ascii.eqb c0 "-") eqn:Em; [|destruct (Ascii.eqb c0 "+") eqn:Ep];
    rewrite ?Bool.orb_true_r in E; cbn [orb] in E; cbv iota in E.
  - apply Ascii.eqb_eq in Em. subst c0.
    destruct (rest =? "")%string eqn:Er; [discriminate|].
    destruct (parseUintLoop_digits _ _ _ _ Hpos Hmax E) as [Hd ->].
    exists "-", rest. split; [reflexivity|]. split; [auto|].
    split; [apply String.eqb_neq; exact Er|]. split; [exact Hd|].
    cbn [negb andb] in H. cbv iota in H.
    destruct (_ <? _) eqn:Hc in H; [discriminate|]. apply Z.ltb_ge in Hc.
    injection H as <-. simpl String.eqb. cbv iota.
    assert (0 <= decimalValue rest 0) by (apply decimalValue_ge; [exact Hd|lia]).
    unfold GoStrconv.int64.
    destruct arch; simpl GoStrconv.bitsOf in *;
      change (2 ^ (32 - 1)) with 2147483648 in *;
      change (2 ^ (64 - 1)) with 9223372036854775808 in *;
      change (2 ^ 63) with 9223372036854775808;
      change (2 ^ 64) with 18446744073709551616;
      Z.div_mod_to_equations; lia.
  - apply Ascii.eqb_eq in Ep. subst c0.
    destruct (rest =? "")%string eqn:Er; [discriminate|].
    destruct (parseUintLoop_digits _ _ _ _ Hpos Hmax E) as [Hd ->].
    exists "+", rest. split; [reflexivity|]. split; [auto|].
    split; [apply String.eqb_neq; exact Er|]. split; [exact Hd|].
    cbn [negb andb] in H.
    destruct (_ <=? _) eqn:Hc in H; [discriminate|]. apply Z.leb_gt in Hc.
    injection H as <-. simpl String.eqb. cbv iota.
    assert (0 <= decimalValue rest 0) by (apply decimalValue_ge; [exact Hd|lia]).
    unfold GoStrconv.int64.
    destruct arch; simpl GoStrconv.bitsOf in *;
      change (2 ^ (32 - 1)) with 2147483648 in *;
      change (2 ^ (64 - 1)) with 9223372036854775808 in *;
      change (2 ^ 63) with 9223372036854775808;
      change (2 ^ 64) with 18446744073709551616;
      Z.div_mod_to_equations; lia.
  - simpl String.eqb in E. cbv iota in E.
    destruct (parseUintLoop_digits _ _ _ _ Hpos Hmax E) as [Hd ->].
    exists "", (String c0 rest). split; [reflexivity|]. split; [auto|].
    split; [discriminate|]. split; [exact Hd|].
    cbn [negb andb] in H.
    destruct (_ <=? _) eqn:Hc in H; [discriminate|]. apply Z.leb_gt in Hc.
    injection H as <-. simpl String.eqb. cbv iota.
    assert (0 <= decimalValue (String c0 rest) 0)
      by (apply decimalValue_ge; [exact Hd|lia]).
    change (decimalValue rest (Z.of_nat (nat_of_ascii c0) - 48))
      with (decimalValue (String c0 rest) 0) in *.
    unfold GoStrconv.int64.
    destruct arch; simpl GoStrconv.bitsOf in *;
      change (2 ^ (32 - 1)) with 2147483648 in *;
      change (2 ^ (64 - 1)) with 9223372036854775808 in *;
      change (2 ^ 63) with 9223372036854775808;
      change (2 ^ 64) with 18446744073709551616;
      Z.div_mod_to_equations; lia.
Qed.

(** ** The extractor *)

Section ExtractorFacts.

Variable arch : GoStrconv.IntSize.
Variable unicodeLower : string -> string.

Local Abbreviation handle := (handleGatewaySchemaChangeEvent arch unicodeLower).
Local Abbreviation scan := (scanFields arch unicodeLower).
Local Abbreviation step := (scanField arch unicodeLower).
Local Abbreviation finish := (finishScan arch).
Local Abbreviation isRef := (isRefField unicodeLower).
Local Abbreviation isCommit := (isCommitField unicodeLower).

(** A field is taken by one [case] at most. *)
Lemma ref_not_commit f : isRef f = true -> isCommit f = false.
Proof.
  unfold isRefField, isCommitField. intros H.
  apply String.eqb_eq in H. rewrite H. reflexivity.
Qed.

(** *** One turn of the loop *)

(** What a ref field does, by the number of tokens and the parse. *)
Lemma step_ref st f :
  isRef f = true ->
  step st f =
    let tokens := GoStrings.Split (Value f) "/" in
    if Z.of_nat (List.length tokens) <? 3 then
      Return (zeroGatewaySchemaChange,
              Some ("not enough tokens in ref value to parse pull request: "
                    ++ GoFmt.formatInt (Z.of_nat (List.length tokens)) ++ " < 3"))
    else
      match snd (GoStrconv.ParseInt arch (refToken f) 10 0) with
      | Some _ =>
          Return (zeroGatewaySchemaChange,
                  Some ("unable to convert pull request to number: " ++ refToken f))
      | None =>
          Next {| scanPullRequest := refNumber arch f;
                  scanOrganization := scanOrganization st;
                  scanRepository := scanRepository st |}
      end.
Proof.
  unfold isRefField, scanField, refNumber, refToken. intros ->. cbv zeta.
  destruct (_ <? 3); [reflexivity|].
  destruct (GoStrconv.ParseInt _ _ _ _) as [n [e|]]; reflexivity.
Qed.

(** What a commit field does, by the two token counts. *)
Lemma step_commit st f :
  isCommit f = true ->
  step st f =
    if negb (Z.of_nat (List.length (GoStrings.Split (Value f) "|")) =? 2) then
      Return (zeroGatewaySchemaChange,
              Some ("invalid commit value format: " ++ Value f))
    else if Z.of_nat (List.length (commitTokens f)) <? 5 then
      Return (zeroGatewaySchemaChange,
              Some ("not enough tokens in commit value to parse repository: "
                    ++ GoFmt.formatInt (Z.of_nat (List.length (commitTokens f)))
                    ++ " < 5"))
    else
      Next {| scanPullRequest := scanPullRequest st;
              scanOrganization := commitOrganization f;
              scanRepository := commitRepository f |}.
Proof.
  unfold isCommitField, scanField, commitOrganization, commitRepository,
    commitTokens.
  intros H. apply String.eqb_eq in H. rewrite H. reflexivity.
Qed.

(** A field with any other title changes nothing. *)
Lemma step_other st f :
  isRef f = false -> isCommit f = false -> step st f = Next st.
Proof.
  unfold isRefField, isCommitField, scanField. intros -> ->. reflexivity.
Qed.

(** Whatever a turn returns from inside the loop is the zero value with an
    error. *)
Lemma step_Return st f r :
  step st f = Return r -> fst r = zeroGatewaySchemaChange /\ snd r <> None.
Proof.
  destruct (isRef f) eqn:Hr.
  - rewrite (step_ref st f Hr). cbv zeta.
    destruct (_ <? 3); [intros [= <-]; split; [reflexivity|discriminate]|].
    destruct (snd _); [|discriminate].
    intros [= <-]; split; [reflexivity|discriminate].
  - destruct (isCommit f) eqn:Hc.
    + rewrite (step_commit st f Hc).
      destruct (negb _); [intros [= <-]; split; [reflexivity|discriminate]|].
      destruct (_ <? 5); [|discriminate].
      intros [= <-]; split; [reflexivity|discriminate].
    + rewrite (step_other st f Hr Hc). discriminate.
Qed.

(** *** The loop *)

Lemma scan_app pre post st :
  scan (pre ++ post)%list st =
    match scan pre st with
    | Next st' => scan post st'
    | Return r => Return r
    end.
Proof.
  revert st. induction pre as [|f pre IH]; intros st; simpl; [reflexivity|].
  destruct (step st f); [apply IH|reflexivity].
Qed.

Lemma scan_Return fields st r :
  scan fields st = Return r ->
  fst r = zeroGatewaySchemaChange /\ snd r <> None.
Proof.
  revert st. induction fields as [|f fields IH]; intros st; simpl.
  - discriminate.
  - destruct (step st f) as [st'|r'] eqn:E.
    + apply IH.
    + intros [= <-]. eapply step_Return. exact E.
Qed.

(** A scan that reaches the end ran every turn without a return. *)
Lemma scan_Next_inv f fields st st' :
  scan (f :: fields) st = Next st' ->
  exists st1, step st f = Next st1 /\ scan fields st1 = Next st'.
Proof.
  simpl. destruct (step st f) as [st1|r]; [|discriminate].
  intros H. exists st1. split; [reflexivity|exact H].
Qed.

(** *** The function *)

(** Past the three checks the function is the loop and the final checks. *)
Lemma handle_passes m a :
  passesChecks m a ->
  handle m =
    match scan (Fields a) (initialScan) with
    | Return r => r
    | Next st => finish st
    end.
Proof.
  intros (Hb & Ha & Hn). unfold handleGatewaySchemaChangeEvent.
  rewrite (len_nonzero _ Hb), Ha. simpl.
  rewrite (len_nonzero _ Hn). reflexivity.
Qed.

(** The function returns from inside the loop at the first field whose
    turn returns. *)
Lemma handle_returns_at m a pre f post st r :
  passesChecks m a ->
  Fields a = (pre ++ f :: post)%list ->
  scan pre initialScan = Next st ->
  step st f = Return r ->
  handle m = r.
Proof.
  intros Hp Hf Hpre Hstep. rewrite (handle_passes m a Hp), Hf, scan_app, Hpre.
  simpl. rewrite Hstep. reflexivity.
Qed.

Lemma finish_error st :
  snd (finish st) <> None -> fst (finish st) = zeroGatewaySchemaChange.
Proof.
  unfold finishScan.
  destruct (_ =? GoStrconv.MinInt64); [reflexivity|].
  destruct (GoStrings.len (scanOrganization st) =? 0); [reflexivity|].
  destruct (GoStrings.len (scanRepository st) =? 0); [reflexivity|].
  simpl. congruence.
Qed.

End ExtractorFacts.

(** ** The last element that satisfies a predicate *)

Lemma findLast_snoc {A} (p : A -> bool) (l : list A) (x : A) :
  findLast p (l ++ [x])%list = if p x then Some x else findLast p l.
Proof.
  unfold findLast. rewrite rev_app_distr. reflexivity.
Qed.

Lemma findLast_none {A} (p : A -> bool) (l : list A) :
  findLast p l = None <-> forall x, In x l -> p x = false.
Proof.
  unfold findLast. split.
  - intros H x Hx. apply (find_none _ _ H). apply in_rev in Hx. exact Hx.
  - intros H. destruct (find p (rev l)) as [y|] eqn:E; [|reflexivity].
    apply find_some in E. destruct E as [Hy Hp].
    apply in_rev in Hy. rewrite (H y Hy) in Hp. discriminate.
Qed.

(** The element [findLast] returns is the one after which no element
    satisfies [p]. *)
Lemma findLast_last {A} (p : A -> bool) (pre post : list A) (x : A) :
  p x = true -> (forall y, In y post -> p y = false) ->
  findLast p (pre ++ x :: post)%list = Some x.
Proof.
  intros Hx. revert pre.
  induction post as [|y post IH] using rev_ind; intros pre Hpost.
  - rewrite findLast_snoc, Hx. reflexivity.
  - replace (pre ++ x :: post ++ [y])%list with ((pre ++ x :: post) ++ [y])%list
      by (rewrite <- app_assoc; reflexivity).
    rewrite findLast_snoc, (Hpost y) by (apply in_or_app; right; left; reflexivity).
    apply IH. intros z Hz. apply Hpost. apply in_or_app. left. exact Hz.
Qed.

Lemma findLast_In_true {A} (p : A -> bool) (l : list A) (x : A) :
  findLast p l = Some x -> In x l /\ p x = true.
Proof.
  unfold findLast. intros H. apply find_some in H. destruct H as [Hin Hp].
  split; [apply in_rev; exact Hin|exact Hp].
Qed.

(** ** The loop as a fold over well-formed fields *)

Section ScanFacts.

Variable arch : GoStrconv.IntSize.
Variable unicodeLower : string -> string.

Local Abbreviation scan := (scanFields arch unicodeLower).
Local Abbreviation step := (scanField arch unicodeLower).
Local Abbreviation isRef := (isRefField unicodeLower).
Local Abbreviation isCommit := (isCommitField unicodeLower).
Local Abbreviation wellFormed := (wellFormedField arch unicodeLower).
Local Abbreviation apply1 := (applyField arch unicodeLower).

Lemma step_wellFormed st f :
  wellFormed f = true -> step st f = Next (apply1 st f).
Proof.
  unfold wellFormedField, applyField. destruct (isRef f) eqn:Hr.
  - intros H. apply andb_true_iff in H. destruct H as [Hn Hp].
    rewrite (step_ref arch unicodeLower st f Hr). cbv zeta.
    apply Z.leb_le in Hn.
    destruct (_ <? 3) eqn:E; [apply Z.ltb_lt in E; lia|].
    destruct (snd _); [discriminate|reflexivity].
  - destruct (isCommit f) eqn:Hc.
    + intros H. apply andb_true_iff in H. destruct H as [Hn Hp].
      rewrite (step_commit arch unicodeLower st f Hc), Hn. simpl.
      apply Z.leb_le in Hp.
      destruct (_ <? 5) eqn:E; [apply Z.ltb_lt in E; lia|reflexivity].
    + intros _. apply step_other; assumption.
Qed.

Lemma step_illFormed st f :
  wellFormed f = false -> exists r, step st f = Return r.
Proof.
  unfold wellFormedField. destruct (isRef f) eqn:Hr.
  - intros H. rewrite (step_ref arch unicodeLower st f Hr). cbv zeta.
    destruct (_ <? 3) eqn:E; [eexists; reflexivity|].
    apply Z.ltb_ge in E. apply Z.leb_le in E. rewrite E in H. simpl in H.
    destruct (snd _); [eexists; reflexivity|discriminate].
  - destruct (isCommit f) eqn:Hc; [|discriminate].
    intros H. rewrite (step_commit arch unicodeLower st f Hc).
    destruct (_ =? 2); simpl in *; [|eexists; reflexivity].
    destruct (_ <? 5) eqn:E; [eexists; reflexivity|].
    apply Z.ltb_ge in E. apply Z.leb_le in E. congruence.
Qed.

(** With every field well formed the loop has no early exit: it is the
    fold of the assignments over all the fields, in order. *)
Lemma scan_wellFormed fields st :
  forallb wellFormed fields = true ->
  scan fields st = Next (fold_left apply1 fields st).
Proof.
  revert st. induction fields as [|f fields IH]; intros st; simpl.
  - reflexivity.
  - intros H. apply andb_true_iff in H. destruct H as [Hf Hrest].
    rewrite (step_wellFormed st f Hf). apply IH. exact Hrest.
Qed.

(** And the loop reaches its end only then. *)
Lemma scan_Next_wellFormed fields st st' :
  scan fields st = Next st' -> forallb wellFormed fields = true.
Proof.
  revert st. induction fields as [|f fields IH]; intros st; simpl.
  - reflexivity.
  - destruct (wellFormed f) eqn:Hf.
    + rewrite (step_wellFormed st f Hf). apply IH.
    + destruct (step_illFormed st f Hf) as [r ->]. discriminate.
Qed.

(** The three variables after the fold: each holds what the last field of
    its title assigned, or its initial value when there is none. *)
Lemma fold_summary fields st :
  let st' := fold_left apply1 fields st in
  scanPullRequest st' =
    match findLast isRef fields with
    | Some f => refNumber arch f
    | None => scanPullRequest st
    end
  /\ scanOrganization st' =
    match findLast isCommit fields with
    | Some f => commitOrganization f
    | None => scanOrganization st
    end
  /\ scanRepository st' =
    match findLast isCommit fields with
    | Some f => commitRepository f
    | None => scanRepository st
    end.
Proof.
  cbv zeta. induction fields as [|f fields IH] using rev_ind.
  - simpl. auto.
  - rewrite fold_left_app, !findLast_snoc. simpl.
    destruct IH as (Hp & Ho & Hr). unfold applyField at 1 3 5.
    destruct (isRef f) eqn:Er.
    + rewrite (ref_not_commit unicodeLower f Er). simpl. auto.
    + destruct (isCommit f); simpl; auto.
Qed.

(** The same for a loop that reached its end. *)
Lemma scan_summary fields st st' :
  scan fields st = Next st' ->
  scanPullRequest st' =
    match findLast isRef fields with
    | Some f => refNumber arch f
    | None => scanPullRequest st
    end
  /\ scanOrganization st' =
    match findLast isCommit fields with
    | Some f => commitOrganization f
    | None => scanOrganization st
    end
  /\ scanRepository st' =
    match findLast isCommit fields with
    | Some f => commitRepository f
    | None => scanRepository st
    end.
Proof.
  intros H. pose proof (scan_Next_wellFormed _ _ _ H) as Hwf.
  rewrite (scan_wellFormed fields st Hwf) in H. injection H as <-.
  apply fold_summary.
Qed.

(** A well-formed ref field parsed: its number is what [ParseInt]
    returned without an error. *)
Lemma wellFormed_ref_parsed f :
  wellFormed f = true -> isRef f = true ->
  GoStrconv.ParseInt arch (refToken f) 10 0 = (refNumber arch f, None).
Proof.
  unfold wellFormedField, refNumber. intros H Hr. rewrite Hr in H.
  apply andb_true_iff in H. destruct H as [_ H].
  destruct (GoStrconv.ParseInt arch (refToken f) 10 0) as [n [e|]];
    simpl in *; [discriminate|reflexivity].
Qed.

End ScanFacts.

(** ** The checks before the loop *)

Section Checks.

Variable arch : GoStrconv.IntSize.
Variable unicodeLower : string -> string.

Local Abbreviation handle := (handleGatewaySchemaChangeEvent arch unicodeLower).

Lemma handle_no_botID m :
  BotID m = "" ->
  handle m = (zeroGatewaySchemaChange,
              Some "bot ID is missing from message event").
Proof.
  intros H. unfold handleGatewaySchemaChangeEvent. rewrite H. reflexivity.
Qed.

Lemma handle_no_attachments m :
  BotID m <> "" -> Attachments m = [] ->
  handle m = (zeroGatewaySchemaChange,
              Some "attachments are missing from message event").
Proof.
  intros Hb Ha. unfold handleGatewaySchemaChangeEvent.
  rewrite (len_nonzero _ Hb), Ha. reflexivity.
Qed.

Lemma handle_too_many m :
  BotID m <> "" -> (1 < List.length (Attachments m))%nat ->
  handle m = (zeroGatewaySchemaChange,
              Some ("too many attachments from message event: "
                    ++ GoFmt.formatInt (Z.of_nat (List.length (Attachments m)))
                    ++ " > 1")).
Proof.
  intros Hb Hn. unfold handleGatewaySchemaChangeEvent.
  rewrite (len_nonzero _ Hb). cbv zeta.
  destruct (_ =? 0) eqn:E0; [apply Z.eqb_eq in E0; lia|].
  destruct (1 <? _) eqn:E1; [reflexivity|]. apply Z.ltb_ge in E1. lia.
Qed.

Lemma handle_no_author m a :
  BotID m <> "" -> Attachments m = [a] -> AuthorName a = "" ->
  handle m = (zeroGatewaySchemaChange,
              Some "gateway change event is missing author").
Proof.
  intros Hb Ha Hn. unfold handleGatewaySchemaChangeEvent.
  rewrite (len_nonzero _ Hb), Ha. simpl. rewrite Hn. reflexivity.
Qed.

(** Every message fails one of the checks or passes the three. *)
Lemma checks_cases m :
  BotID m = ""
  \/ (BotID m <> "" /\ Attachments m = [])
  \/ (BotID m <> "" /\ (1 < List.length (Attachments m))%nat)
  \/ (exists a, BotID m <> "" /\ Attachments m = [a] /\ AuthorName a = "")
  \/ (exists a, passesChecks m a).
Proof.
  destruct (string_dec (BotID m) "") as [Hb|Hb]; [left; exact Hb|right].
  destruct (Attachments m) as [|a [|b rest]] eqn:Ha.
  - left. split; [exact Hb|reflexivity].
  - right. right.
    destruct (string_dec (AuthorName a) "") as [Hn|Hn].
    + left. exists a. repeat split; assumption.
    + right. exists a. repeat split; assumption.
  - right. left. split; [exact Hb|simpl; lia].
Qed.

End Checks.

(** ** The properties of the extractor *)

Section ExtractorClaims.

Variable arch : GoStrconv.IntSize.
Variable unicodeLower : string -> string.

Local Abbreviation handle := (handleGatewaySchemaChangeEvent arch unicodeLower).
Local Abbreviation scan := (scanFields arch unicodeLower).
Local Abbreviation step := (scanField arch unicodeLower).
Local Abbreviation finish := (finishScan arch).
Local Abbreviation isRef := (isRefField unicodeLower).
Local Abbreviation isCommit := (isCommitField unicodeLower).
Local Abbreviation wellFormed := (wellFormedField arch unicodeLower).

(** C3. The checks of [handleGatewaySchemaChangeEvent] run in a fixed
    order and each returns its own error: an empty bot identifier gives
    the missing-bot-ID error whatever the attachments are; then no
    attachment gives the missing-attachments error and more than one the
    too-many-attachments error, whose message carries the count; then an
    empty author name on the only attachment gives the missing-author
    error.  The four errors differ from one another. *)
Theorem validation_order (m : MessageEvent) :
  let missingBotID := "bot ID is missing from message event" in
  let missingAttachments := "attachments are missing from message event" in
  let tooMany :=
    "too many attachments from message event: "
    ++ GoFmt.formatInt (Z.of_nat (List.length (Attachments m))) ++ " > 1" in
  let missingAuthor := "gateway change event is missing author" in
  (BotID m = "" ->
     handle m = (zeroGatewaySchemaChange, Some missingBotID))
  /\ (BotID m <> "" -> List.length (Attachments m) = 0%nat ->
        handle m = (zeroGatewaySchemaChange, Some missingAttachments))
  /\ (BotID m <> "" -> (1 < List.length (Attachments m))%nat ->
        handle m = (zeroGatewaySchemaChange, Some tooMany))
  /\ (forall a, BotID m <> "" -> Attachments m = [a] -> AuthorName a = "" ->
        handle m = (zeroGatewaySchemaChange, Some missingAuthor))
  /\ (missingBotID <> missingAttachments /\ missingBotID <> tooMany
      /\ missingBotID <> missingAuthor /\ missingAttachments <> tooMany
      /\ missingAttachments <> missingAuthor /\ tooMany <> missingAuthor).
Proof.
  cbv zeta. split; [|split; [|split; [|split]]].
  - apply handle_no_botID.
  - intros Hb Hn. apply handle_no_attachments; [exact Hb|].
    destruct (Attachments m); [reflexivity|discriminate].
  - apply handle_too_many.
  - intros a. apply handle_no_author.
  - repeat split; discriminate.
Qed.

(** C5. A field whose lowered title is ["ref"], reached by the loop, has
    its value split on ["/"].  With fewer than three tokens the function
    fails with an error that gives the count against 3; otherwise the
    token at index 2 is parsed in base 10, and when the parse fails the
    function fails with an error that names the token; when it succeeds
    the loop goes on with the number as the pull request. *)
Theorem ref_field_errors (m : MessageEvent) (a : Attachment)
  (pre post : list AttachmentField) (f : AttachmentField) (st : scanState) :
  passesChecks m a ->
  Fields a = (pre ++ f :: post)%list ->
  scan pre initialScan = Next st ->
  GoStrings.ToLower unicodeLower (Title f) = "ref" ->
  let tokens := GoStrings.Split (Value f) "/" in
  let count := Z.of_nat (List.length tokens) in
  (count < 3 ->
     handle m =
       (zeroGatewaySchemaChange,
        Some ("not enough tokens in ref value to parse pull request: "
              ++ GoFmt.formatInt count ++ " < 3")))
  /\ (3 <= count ->
      forall e, snd (GoStrconv.ParseInt arch (nth 2 tokens "") 10 0) = Some e ->
      handle m =
        (zeroGatewaySchemaChange,
         Some ("unable to convert pull request to number: " ++ nth 2 tokens "")))
  /\ (3 <= count ->
      forall n, GoStrconv.ParseInt arch (nth 2 tokens "") 10 0 = (n, None) ->
      scan (pre ++ [f])%list initialScan =
        Next {| scanPullRequest := n;
                scanOrganization := scanOrganization st;
                scanRepository := scanRepository st |}
      /\ exists sign digits,
           nth 2 tokens "" = (sign ++ digits)%string
           /\ (sign = "" \/ sign = "+" \/ sign = "-")
           /\ digits <> "" /\ allDigits digits = true
           /\ n = (if (sign =? "-")%string then - decimalValue digits 0
                   else decimalValue digits 0)).
Proof.
  intros Hp Hf Hpre Ht. cbv zeta.
  assert (Hr : isRef f = true).
  { unfold isRefField. rewrite Ht. reflexivity. }
  pose proof (step_ref arch unicodeLower st f Hr) as Hstep. cbv zeta in Hstep.
  unfold refToken, refNumber, refToken in Hstep.
  split; [|split].
  - intros Hc. apply Z.ltb_lt in Hc. rewrite Hc in Hstep.
    apply (handle_returns_at arch unicodeLower m a pre f post st _ Hp Hf Hpre Hstep).
  - intros Hc e He. apply Z.ltb_ge in Hc. rewrite Hc, He in Hstep.
    apply (handle_returns_at arch unicodeLower m a pre f post st _ Hp Hf Hpre Hstep).
  - intros Hc n Hn. split; [|apply (ParseInt_success arch _ n Hn)].
    apply Z.ltb_ge in Hc. rewrite Hc, Hn in Hstep. simpl in Hstep.
    rewrite scan_app, Hpre. simpl. rewrite Hstep. reflexivity.
Qed.

(** C6. A field whose lowered title is ["commit"], reached by the loop,
    has its value split on ["|"]: unless there are exactly two tokens the
    function fails with a format error that quotes the value.  The first
    token is then split on ["/"]: with fewer than five tokens the function
    fails with an error that gives the count against 5; otherwise the
    token at index 3 becomes the organization and the token at index 4
    the repository. *)
Theorem commit_field_errors (m : MessageEvent) (a : Attachment)
  (pre post : list AttachmentField) (f : AttachmentField) (st : scanState) :
  passesChecks m a ->
  Fields a = (pre ++ f :: post)%list ->
  scan pre initialScan = Next st ->
  GoStrings.ToLower unicodeLower (Title f) = "commit" ->
  let parts := GoStrings.Split (Value f) "|" in
  let tokens := GoStrings.Split (nth 0 parts "") "/" in
  let count := Z.of_nat (List.length tokens) in
  (List.length parts <> 2%nat ->
     handle m =
       (zeroGatewaySchemaChange,
        Some ("invalid commit value format: " ++ Value f)))
  /\ (List.length parts = 2%nat -> count < 5 ->
      handle m =
        (zeroGatewaySchemaChange,
         Some ("not enough tokens in commit value to parse repository: "
               ++ GoFmt.formatInt count ++ " < 5")))
  /\ (List.length parts = 2%nat -> 5 <= count ->
      scan (pre ++ [f])%list initialScan =
        Next {| scanPullRequest := scanPullRequest st;
                scanOrganization := nth 3 tokens "";
                scanRepository := nth 4 tokens "" |}).
Proof.
  intros Hp Hf Hpre Ht. cbv zeta.
  assert (Hc : isCommit f = true).
  { unfold isCommitField. rewrite Ht. reflexivity. }
  pose proof (step_commit arch unicodeLower st f Hc) as Hstep.
  unfold commitOrganization, commitRepository, commitTokens in Hstep.
  split; [|split].
  - intros Hn.
    assert (E : (Z.of_nat (List.length (GoStrings.Split (Value f) "|")) =? 2) = false)
      by (apply Z.eqb_neq; lia).
    rewrite E in Hstep. simpl in Hstep.
    apply (handle_returns_at arch unicodeLower m a pre f post st _ Hp Hf Hpre Hstep).
  - intros Hn H5. rewrite Hn in Hstep. simpl in Hstep.
    apply Z.ltb_lt in H5. rewrite H5 in Hstep.
    apply (handle_returns_at arch unicodeLower m a pre f post st _ Hp Hf Hpre Hstep).
  - intros Hn H5. rewrite Hn in Hstep. simpl in Hstep.
    apply Z.ltb_ge in H5. rewrite H5 in Hstep.
    rewrite scan_app, Hpre. simpl. rewrite Hstep. reflexivity.
Qed.

(** What the function returns past the checks when every field is well
    formed: the final checks on the fold of the assignments. *)
Lemma handle_wellFormed m a :
  passesChecks m a ->
  forallb wellFormed (Fields a) = true ->
  handle m = finish (fold_left (applyField arch unicodeLower) (Fields a) initialScan).
Proof.
  intros Hp Hwf.
  rewrite (handle_passes arch unicodeLower m a Hp).
  rewrite (scan_wellFormed arch unicodeLower _ _ Hwf). reflexivity.
Qed.

(** C7. Whenever the function returns an error the record beside it is
    the zero value; whenever it returns no error the three fields are
    populated: the organization and the repository are not empty and are
    the tokens of a commit field of the only attachment, and the pull
    request is the number parsed from a ref field of it. *)
Theorem failure_returns_zero_value (m : MessageEvent) :
  match handle m with
  | (g, Some _) => g = zeroGatewaySchemaChange
  | (g, None) =>
      organization g <> "" /\ repository g <> ""
      /\ exists a fr fc,
           Attachments m = [a]
           /\ In fr (Fields a) /\ isRef fr = true
           /\ GoStrconv.ParseInt arch (refToken fr) 10 0 = (pullRequest g, None)
           /\ In fc (Fields a) /\ isCommit fc = true
           /\ organization g = commitOrganization fc
           /\ repository g = commitRepository fc
  end.
Proof.
  destruct (checks_cases m) as [H|[[Hb H]|[[Hb H]|[[a (Hb & Ha & Hn)]|[a Hp]]]]].
  - rewrite (handle_no_botID arch unicodeLower m H). reflexivity.
  - rewrite (handle_no_attachments arch unicodeLower m Hb H). reflexivity.
  - rewrite (handle_too_many arch unicodeLower m Hb H). reflexivity.
  - rewrite (handle_no_author arch unicodeLower m a Hb Ha Hn). reflexivity.
  - rewrite (handle_passes arch unicodeLower m a Hp).
    destruct (scan (Fields a) initialScan) as [st|r] eqn:Hs.
    + pose proof (scan_Next_wellFormed arch unicodeLower _ _ _ Hs) as Hwf.
      destruct (scan_summary arch unicodeLower _ _ _ Hs) as (Hpr & Ho & Hr).
      unfold finishScan.
      destruct (_ =? GoStrconv.MinInt64) eqn:E1; [reflexivity|].
      destruct (GoStrings.len (scanOrganization st) =? 0) eqn:E2; [reflexivity|].
      destruct (GoStrings.len (scanRepository st) =? 0) eqn:E3; [reflexivity|].
      simpl. apply Z.eqb_neq in E1.
      assert (Ho' : scanOrganization st <> "").
      { intros E. apply len_zero_iff in E. congruence. }
      assert (Hr' : scanRepository st <> "").
      { intros E. apply len_zero_iff in E. congruence. }
      split; [exact Ho'|]. split; [exact Hr'|].
      destruct (findLast isRef (Fields a)) as [fr|] eqn:Er;
        [|simpl in Hpr; congruence].
      destruct (findLast isCommit (Fields a)) as [fc|] eqn:Ec;
        [|simpl in Ho; congruence].
      apply findLast_In_true in Er. destruct Er as [Hin Hfr].
      apply findLast_In_true in Ec. destruct Ec as [Hinc Hfc].
      assert (Hparse : GoStrconv.ParseInt arch (refToken fr) 10 0
                       = (refNumber arch fr, None)).
      { apply (wellFormed_ref_parsed arch unicodeLower); [|exact Hfr].
        rewrite forallb_forall in Hwf. apply Hwf. exact Hin. }
      exists a, fr, fc. destruct Hp as (_ & Ha & _).
      repeat split; try assumption.
      rewrite Hpr, (int_of_parsed _ _ _ _ Hparse). exact Hparse.
    + destruct (scan_Return arch unicodeLower _ _ _ Hs) as [Hz He].
      destruct r as [g [e|]]; simpl in *; [exact Hz|congruence].
Qed.

(** C4. In a sequence of well-formed fields the loop has no early exit
    and later matches overwrite earlier ones: the pull request comes from
    the last field whose lowered title is ["ref"], the organization and
    the repository from the last one whose lowered title is ["commit"],
    in the state the loop ends in and in the record the function
    returns. *)
Theorem last_field_wins (m : MessageEvent) (a : Attachment) :
  passesChecks m a ->
  forallb wellFormed (Fields a) = true ->
  exists st,
    scan (Fields a) initialScan = Next st
    /\ handle m = finish st
    /\ (forall pre f post,
          Fields a = (pre ++ f :: post)%list -> isRef f = true ->
          (forall g, In g post -> isRef g = false) ->
          scanPullRequest st = refNumber arch f
          /\ GoStrconv.ParseInt arch (refToken f) 10 0 = (refNumber arch f, None)
          /\ forall r, handle m = (r, None) -> pullRequest r = refNumber arch f)
    /\ (forall pre f post,
          Fields a = (pre ++ f :: post)%list -> isCommit f = true ->
          (forall g, In g post -> isCommit g = false) ->
          scanOrganization st = commitOrganization f
          /\ scanRepository st = commitRepository f
          /\ forall r, handle m = (r, None) ->
               organization r = commitOrganization f
               /\ repository r = commitRepository f).
Proof.
  intros Hp Hwf.
  pose proof (scan_wellFormed arch unicodeLower (Fields a) initialScan Hwf) as Hs.
  set (st := fold_left (applyField arch unicodeLower) (Fields a) initialScan) in *.
  pose proof (handle_passes arch unicodeLower m a Hp) as Hh. rewrite Hs in Hh.
  destruct (scan_summary arch unicodeLower _ _ _ Hs) as (Hpr & Ho & Hr).
  assert (Hfin : forall r, finish st = (r, None) ->
            pullRequest r = GoStrconv.int arch (scanPullRequest st)
            /\ organization r = scanOrganization st
            /\ repository r = scanRepository st).
  { unfold finishScan. intros r.
    destruct (_ =? GoStrconv.MinInt64); [discriminate|].
    destruct (GoStrings.len (scanOrganization st) =? 0); [discriminate|].
    destruct (GoStrings.len (scanRepository st) =? 0); [discriminate|].
    intros [= <-]. simpl. auto. }
  exists st. split; [exact Hs|]. split; [exact Hh|]. split.
  - intros pre f post Hf Hrf Hpost.
    rewrite Hf, (findLast_last isRef pre post f Hrf Hpost) in Hpr.
    assert (Hparse : GoStrconv.ParseInt arch (refToken f) 10 0
                     = (refNumber arch f, None)).
    { apply (wellFormed_ref_parsed arch unicodeLower); [|exact Hrf].
      rewrite forallb_forall in Hwf. apply Hwf. rewrite Hf.
      apply in_or_app. right. left. reflexivity. }
    split; [exact Hpr|]. split; [exact Hparse|].
    intros r Hr'. rewrite Hh in Hr'. destruct (Hfin r Hr') as (-> & _).
    rewrite Hpr. apply (int_of_parsed _ _ _ _ Hparse).
  - intros pre f post Hf Hcf Hpost.
    rewrite Hf, (findLast_last isCommit pre post f Hcf Hpost) in Ho, Hr.
    split; [exact Ho|]. split; [exact Hr|].
    intros r Hr'. rewrite Hh in Hr'. destruct (Hfin r Hr') as (_ & -> & ->).
    split; assumption.
Qed.

(** C1, amended.  A message with a bot identifier and one attachment with
    an author, whose fields are all well formed and in which the last field
    whose lowered title is ["ref"] has the value ["refs/pull/5291/merge"]
    and the last field whose lowered title is ["commit"] has the value
    ["https://github.com/kong/team-koko-bot/commit/180edc|sha"], extracts
    to kong, team-koko-bot, 5291. *)
Theorem extracts_koko_pull_request (m : MessageEvent) (a : Attachment)
  (fr fc : AttachmentField) :
  passesChecks m a ->
  forallb wellFormed (Fields a) = true ->
  findLast isRef (Fields a) = Some fr ->
  Value fr = "refs/pull/5291/merge" ->
  findLast isCommit (Fields a) = Some fc ->
  Value fc = "https://github.com/kong/team-koko-bot/commit/180edc|sha" ->
  handle m =
    ({| organization := "kong";
        pullRequest := 5291;
        repository := "team-koko-bot" |}, None).
Proof.
  intros Hp Hwf Er HR Ec HC.
  rewrite (handle_wellFormed m a Hp Hwf).
  destruct (fold_summary arch unicodeLower (Fields a) initialScan)
    as (Hpr & Ho & Hrp).
  rewrite Er in Hpr. rewrite Ec in Ho, Hrp.
  unfold refNumber, refToken in Hpr. rewrite HR in Hpr.
  unfold commitOrganization, commitTokens in Ho. rewrite HC in Ho.
  unfold commitRepository, commitTokens in Hrp. rewrite HC in Hrp.
  unfold finishScan. rewrite Hpr, Ho, Hrp. destruct arch; reflexivity.
Qed.

(** The checks after the loop, as the code makes them.  For a message
    that passes the three checks and whose loop reaches its end, the
    function fails with the error "pull request number was not present"
    exactly when the pull request variable holds [math.MinInt64]: that is
    when no field has the lowered title ["ref"], or when the last such
    field parsed to [math.MinInt64] itself, which can happen only where
    [int] has 64 bits (with 32 bits the error is returned exactly when
    there is no ref field).  Otherwise it fails with "organization was not
    present" exactly when the organization is empty, then with "repository
    was not present" exactly when the repository is empty, and else
    returns the three values. *)
Theorem final_checks (m : MessageEvent) (a : Attachment) (st : scanState) :
  passesChecks m a ->
  scan (Fields a) initialScan = Next st ->
  let noRef := forall f, In f (Fields a) -> isRef f = false in
  let sentinelParsed :=
    exists f, findLast isRef (Fields a) = Some f
              /\ GoStrconv.ParseInt arch (refToken f) 10 0
                 = (GoStrconv.MinInt64, None) in
  (snd (handle m) = Some "pull request number was not present in message event"
     <-> scanPullRequest st = GoStrconv.MinInt64)
  /\ (scanPullRequest st = GoStrconv.MinInt64 <-> noRef \/ sentinelParsed)
  /\ (arch = GoStrconv.Int32 ->
      (snd (handle m) = Some "pull request number was not present in message event"
         <-> noRef))
  /\ (scanPullRequest st <> GoStrconv.MinInt64 ->
      (snd (handle m) = Some "organization was not present in message event"
         <-> scanOrganization st = ""))
  /\ (scanPullRequest st <> GoStrconv.MinInt64 -> scanOrganization st <> "" ->
      (snd (handle m) = Some "repository was not present in message event"
         <-> scanRepository st = ""))
  /\ (scanPullRequest st <> GoStrconv.MinInt64 -> scanOrganization st <> "" ->
      scanRepository st <> "" ->
      handle m = ({| organization := scanOrganization st;
                     pullRequest := scanPullRequest st;
                     repository := scanRepository st |}, None)).
Proof.
  intros Hp Hs. cbv zeta.
  pose proof (handle_passes arch unicodeLower m a Hp) as Hh. rewrite Hs in Hh.
  pose proof (scan_Next_wellFormed arch unicodeLower _ _ _ Hs) as Hwf.
  destruct (scan_summary arch unicodeLower _ _ _ Hs) as (Hpr & _ & _).
  assert (Hparsed : forall fr, findLast isRef (Fields a) = Some fr ->
            GoStrconv.ParseInt arch (refToken fr) 10 0 = (refNumber arch fr, None)).
  { intros fr Er. pose proof (findLast_In_true _ _ _ Er) as [Hin Hfr].
    apply (wellFormed_ref_parsed arch unicodeLower); [|exact Hfr].
    rewrite forallb_forall in Hwf. apply Hwf. exact Hin. }
  assert (Hsent : scanPullRequest st = GoStrconv.MinInt64 <->
            (forall f, In f (Fields a) -> isRef f = false)
            \/ exists f, findLast isRef (Fields a) = Some f
                         /\ GoStrconv.ParseInt arch (refToken f) 10 0
                            = (GoStrconv.MinInt64, None)).
  { destruct (findLast isRef (Fields a)) as [fr|] eqn:Er.
    - pose proof (findLast_In_true _ _ _ Er) as [Hin Hfr].
      pose proof (Hparsed fr eq_refl) as Hparse.
      split.
      + intros E. right. exists fr. split; [reflexivity|]. congruence.
      + intros [Hno|[f [[= <-] Hf]]].
        * rewrite (Hno fr Hin) in Hfr. discriminate.
        * rewrite Hpr. congruence.
    - split.
      + intros _. left. apply findLast_none. exact Er.
      + intros _. exact Hpr. }
  assert (Hmiss : snd (finish st)
                  = Some "pull request number was not present in message event"
                  <-> scanPullRequest st = GoStrconv.MinInt64).
  { unfold finishScan, New. destruct (_ =? GoStrconv.MinInt64) eqn:E1.
    - apply Z.eqb_eq in E1. split; [intros _; exact E1|reflexivity].
    - apply Z.eqb_neq in E1.
      destruct (GoStrings.len (scanOrganization st) =? 0);
        [|destruct (GoStrings.len (scanRepository st) =? 0)];
        simpl; split; congruence. }
  rewrite Hh.
  split; [exact Hmiss|]. split; [exact Hsent|]. split; [|unfold finishScan, New].
  - intros ->. rewrite Hmiss, Hsent. split; [|intros H; left; exact H].
    intros [Hno|[f [Ef Hf]]]; [exact Hno|].
    apply ParseInt_32_not_sentinel in Hf. contradiction.
  - split; [|split].
    + intros Hne. apply Z.eqb_neq in Hne. rewrite Hne.
      destruct (GoStrings.len (scanOrganization st) =? 0) eqn:E2.
      * apply len_zero_iff in E2. split; [intros _; exact E2|reflexivity].
      * assert (scanOrganization st <> "")
          by (intros E; apply len_zero_iff in E; congruence).
        destruct (GoStrings.len (scanRepository st) =? 0);
          simpl; split; congruence.
    + intros Hne Ho. apply Z.eqb_neq in Hne. rewrite Hne, (len_nonzero _ Ho).
      destruct (GoStrings.len (scanRepository st) =? 0) eqn:E3.
      * apply len_zero_iff in E3. split; [intros _; exact E3|reflexivity].
      * assert (scanRepository st <> "")
          by (intros E; apply len_zero_iff in E; congruence).
        simpl; split; congruence.
    + intros Hne Ho Hr.
      assert (Hint : GoStrconv.int arch (scanPullRequest st) = scanPullRequest st).
      { destruct (findLast isRef (Fields a)) as [fr|] eqn:Er.
        - rewrite Hpr. apply (int_of_parsed _ _ _ _ (Hparsed fr eq_refl)).
        - simpl in Hpr. contradiction. }
      apply Z.eqb_neq in Hne.
      rewrite Hne, (len_nonzero _ Ho), (len_nonzero _ Hr), Hint. reflexivity.
Qed.

End ExtractorClaims.

(** ** The extractor on the inputs of the tests *)

Example test_valid_attachments :
  forall arch u,
    handleGatewaySchemaChangeEvent arch u (botMessage "B056LB75L5R" [validAttachment])
    = ({| organization := "kong"; pullRequest := 5291;
          repository := "team-koko-bot" |}, None).
Proof. intros [] u; reflexivity. Qed.

Example test_too_many_attachments :
  forall arch u,
    handleGatewaySchemaChangeEvent arch u
      (botMessage "id" [zeroAttachment; zeroAttachment])
    = (zeroGatewaySchemaChange,
       Some "too many attachments from message event: 2 > 1").
Proof. reflexivity. Qed.

Example test_missing_repository :
  forall arch u,
    handleGatewaySchemaChangeEvent arch u
      (messageOf [field "Ref" "refs/pull/1";
                  field "Commit" "https://github.com/kong/|sha"])
    = (zeroGatewaySchemaChange,
       Some "repository was not present in message event").
Proof. intros [] u; reflexivity. Qed.

Lemma passesChecks_messageOf fields :
  passesChecks (messageOf fields) (attachmentOf fields).
Proof.
  unfold passesChecks. split; [discriminate|]. split; [reflexivity|discriminate].
Defined.

(** ** Witnesses and counterexamples for the extractor *)

(** C5 on the inputs of the tests: ["refs/pull"] gives "2 < 3",
    ["refs/pull/not-a-number"] names the token, and ["refs/pull/1"] sets the
    pull request to 1. *)
Lemma ref_field_errors_witness :
  handleGatewaySchemaChangeEvent GoStrconv.Int64 noUnicode
    (messageOf [field "Ref" "refs/pull"])
  = (zeroGatewaySchemaChange,
     Some "not enough tokens in ref value to parse pull request: 2 < 3")
  /\ handleGatewaySchemaChangeEvent GoStrconv.Int64 noUnicode
       (messageOf [field "Ref" "refs/pull/not-a-number"])
     = (zeroGatewaySchemaChange,
        Some "unable to convert pull request to number: not-a-number")
  /\ scanFields GoStrconv.Int64 noUnicode [field "Ref" "refs/pull/1"] initialScan
     = Next {| scanPullRequest := 1; scanOrganization := "";
               scanRepository := "" |}.
Proof.
  split; [|split].
  - apply (proj1 (ref_field_errors GoStrconv.Int64 noUnicode
                    (messageOf [field "Ref" "refs/pull"]) _ [] []
                    (field "Ref" "refs/pull") initialScan
                    (passesChecks_messageOf _) eq_refl eq_refl eq_refl)).
    reflexivity.
  - apply (proj1 (proj2 (ref_field_errors GoStrconv.Int64 noUnicode
                    (messageOf [field "Ref" "refs/pull/not-a-number"]) _ [] []
                    (field "Ref" "refs/pull/not-a-number") initialScan
                    (passesChecks_messageOf _) eq_refl eq_refl eq_refl))
             ltac:(discriminate) GoStrconv.ErrSyntax).
    reflexivity.
  - apply (proj1 (proj2 (proj2 (ref_field_errors GoStrconv.Int64 noUnicode
                    (messageOf [field "Ref" "refs/pull/1"]) _ [] []
                    (field "Ref" "refs/pull/1") initialScan
                    (passesChecks_messageOf _) eq_refl eq_refl eq_refl))
             ltac:(discriminate) 1 eq_refl)).
Defined.

(** C6 on the inputs of the tests: a value without ["|"] is a format
    error, ["https://github.com/kong|sha"] gives "4 < 5", and a full value
    sets the organization and the repository. *)
Lemma commit_field_errors_witness :
  handleGatewaySchemaChangeEvent GoStrconv.Int64 noUnicode
    (messageOf [field "Ref" "refs/pull/1"; field "Commit" "https://github.com/kong"])
  = (zeroGatewaySchemaChange,
     Some "invalid commit value format: https://github.com/kong")
  /\ handleGatewaySchemaChangeEvent GoStrconv.Int64 noUnicode
       (messageOf [field "Ref" "refs/pull/1";
                   field "Commit" "https://github.com/kong|sha"])
     = (zeroGatewaySchemaChange,
        Some "not enough tokens in commit value to parse repository: 4 < 5")
  /\ scanFields GoStrconv.Int64 noUnicode
       [field "Ref" "refs/pull/1";
        field "Commit" "https://github.com/kong/team-koko-bot/commit/180edc|sha"]
       initialScan
     = Next {| scanPullRequest := 1; scanOrganization := "kong";
               scanRepository := "team-koko-bot" |}.
Proof.
  split; [|split].
  - apply (proj1 (commit_field_errors GoStrconv.Int64 noUnicode
                    (messageOf [field "Ref" "refs/pull/1";
                                field "Commit" "https://github.com/kong"]) _
                    [field "Ref" "refs/pull/1"] []
                    (field "Commit" "https://github.com/kong") _
                    (passesChecks_messageOf _) eq_refl eq_refl eq_refl)).
    discriminate.
  - apply (proj1 (proj2 (commit_field_errors GoStrconv.Int64 noUnicode
                    (messageOf [field "Ref" "refs/pull/1";
                                field "Commit" "https://github.com/kong|sha"]) _
                    [field "Ref" "refs/pull/1"] []
                    (field "Commit" "https://github.com/kong|sha") _
                    (passesChecks_messageOf _) eq_refl eq_refl eq_refl))
             eq_refl).
    reflexivity.
  - apply (proj2 (proj2 (commit_field_errors GoStrconv.Int64 noUnicode
                    (messageOf
                       [field "Ref" "refs/pull/1";
                        field "Commit"
                          "https://github.com/kong/team-koko-bot/commit/180edc|sha"]) _
                    [field "Ref" "refs/pull/1"] []
                    (field "Commit"
                       "https://github.com/kong/team-koko-bot/commit/180edc|sha") _
                    (passesChecks_messageOf _) eq_refl eq_refl eq_refl))
             eq_refl ltac:(discriminate)).
Defined.

(** C4 on a sequence with two ref fields and two commit fields: the second
    of each is the one extracted. *)
Lemma last_field_wins_witness :
  exists st,
    scanFields GoStrconv.Int64 noUnicode
      [field "Ref" "refs/pull/1/merge";
       field "Commit" "https://github.com/kong/first/commit/aa|sha";
       field "REF" "refs/pull/2/merge";
       field "commit" "https://github.com/konghq/second/commit/bb|sha"]
      initialScan = Next st
    /\ scanPullRequest st = 2
    /\ scanOrganization st = "konghq"
    /\ scanRepository st = "second".
Proof.
  pose (fields :=
          [field "Ref" "refs/pull/1/merge";
           field "Commit" "https://github.com/kong/first/commit/aa|sha";
           field "REF" "refs/pull/2/merge";
           field "commit" "https://github.com/konghq/second/commit/bb|sha"]).
  destruct (last_field_wins GoStrconv.Int64 noUnicode
              (messageOf fields) (attachmentOf fields)
              (passesChecks_messageOf fields) eq_refl)
    as (st & Hs & _ & Href & Hcommit).
  exists st. split; [exact Hs|].
  destruct (Href [field "Ref" "refs/pull/1/merge";
                  field "Commit" "https://github.com/kong/first/commit/aa|sha"]
              (field "REF" "refs/pull/2/merge")
              [field "commit" "https://github.com/konghq/second/commit/bb|sha"]
              eq_refl eq_refl) as (Hpr & _).
  { intros g [<-|[]]. reflexivity. }
  destruct (Hcommit [field "Ref" "refs/pull/1/merge";
                     field "Commit" "https://github.com/kong/first/commit/aa|sha";
                     field "REF" "refs/pull/2/merge"]
              (field "commit" "https://github.com/konghq/second/commit/bb|sha")
              [] eq_refl eq_refl) as (Ho & Hr & _).
  { intros g []. }
  split; [exact Hpr|]. split; [exact Ho|exact Hr].
Defined.

(** C1 as stated fails: a message that contains the two fields and a later
    ref field extracts the pull request of the later one. *)
Lemma extracts_koko_pull_request_counterexample :
  ~ (forall (arch : GoStrconv.IntSize) (unicodeLower : string -> string)
            (m : MessageEvent) (a : Attachment),
        BotID m <> "" -> Attachments m = [a] -> AuthorName a <> "" ->
        (exists f, In f (Fields a)
                   /\ GoStrings.ToLower unicodeLower (Title f) = "ref"
                   /\ Value f = "refs/pull/5291/merge") ->
        (exists f, In f (Fields a)
                   /\ GoStrings.ToLower unicodeLower (Title f) = "commit"
                   /\ Value f
                      = "https://github.com/kong/team-koko-bot/commit/180edc|sha") ->
        handleGatewaySchemaChangeEvent arch unicodeLower m
        = ({| organization := "kong"; pullRequest := 5291;
              repository := "team-koko-bot" |}, None)).
Proof.
  intros H.
  pose (fields :=
          [field "Ref" "refs/pull/5291/merge";
           field "Commit" "https://github.com/kong/team-koko-bot/commit/180edc|sha";
           field "Ref" "refs/pull/7/merge"]).
  specialize (H GoStrconv.Int64 noUnicode (messageOf fields) (attachmentOf fields)).
  assert (E : handleGatewaySchemaChangeEvent GoStrconv.Int64 noUnicode
                (messageOf fields)
              = ({| organization := "kong"; pullRequest := 7;
                    repository := "team-koko-bot" |}, None)) by reflexivity.
  rewrite E in H.
  assert (C : ({| organization := "kong"; pullRequest := 7;
                  repository := "team-koko-bot" |}, @None string)
              = ({| organization := "kong"; pullRequest := 5291;
                    repository := "team-koko-bot" |}, None)).
  { apply H.
    - discriminate.
    - reflexivity.
    - discriminate.
    - exists (field "Ref" "refs/pull/5291/merge").
      split; [left; reflexivity|split; reflexivity].
    - exists (field "Commit"
                "https://github.com/kong/team-koko-bot/commit/180edc|sha").
      split; [right; left; reflexivity|split; reflexivity]. }
  discriminate C.
Qed.

(** C1, amended, on the two fields of the specification among fields of
    other titles and after an earlier ref field. *)
Lemma extracts_koko_pull_request_witness :
  handleGatewaySchemaChangeEvent GoStrconv.Int64 noUnicode
    (messageOf
       [field "ref" "refs/pull/7/merge";
        field "Ref" "refs/pull/5291/merge";
        field "Event" "pull_request_target";
        field "Commit" "https://github.com/kong/team-koko-bot/commit/180edc|sha";
        field "Message" "null"])
  = ({| organization := "kong"; pullRequest := 5291;
        repository := "team-koko-bot" |}, None).
Proof.
  apply (extracts_koko_pull_request GoStrconv.Int64 noUnicode _ _
           (field "Ref" "refs/pull/5291/merge")
           (field "Commit"
              "https://github.com/kong/team-koko-bot/commit/180edc|sha")
           (passesChecks_messageOf _)); reflexivity.
Defined.

(** Where [int] has 64 bits the error "pull request number was not
    present" is not equivalent to the absence of a ref field: a ref field
    whose third token spells [math.MinInt64] sets the pull request, the
    loop reaches its end, and the function still returns that error. *)
Lemma missing_error_despite_ref :
  ~ (forall (arch : GoStrconv.IntSize) (unicodeLower : string -> string)
            (m : MessageEvent) (a : Attachment) (st : scanState),
        passesChecks m a ->
        scanFields arch unicodeLower (Fields a) initialScan = Next st ->
        (snd (handleGatewaySchemaChangeEvent arch unicodeLower m)
         = Some "pull request number was not present in message event"
         <-> forall f, In f (Fields a) -> isRefField unicodeLower f = false)).
Proof.
  intros H.
  pose (fields :=
          [field "Ref" "refs/pull/-9223372036854775808/merge";
           field "Commit" "https://github.com/kong/team-koko-bot/commit/180edc|sha"]).
  destruct (H GoStrconv.Int64 noUnicode (messageOf fields) (attachmentOf fields)
              {| scanPullRequest := GoStrconv.MinInt64;
                 scanOrganization := "kong";
                 scanRepository := "team-koko-bot" |}
              (passesChecks_messageOf fields) eq_refl) as [Hno _].
  specialize (Hno eq_refl (field "Ref" "refs/pull/-9223372036854775808/merge")
                (or_introl eq_refl)).
  discriminate Hno.
Qed.

(** The checks after the loop on a ref field that spells
    [math.MinInt64] and on the message of the test without a commit
    field. *)
Lemma final_checks_on_examples :
  (snd (handleGatewaySchemaChangeEvent GoStrconv.Int64 noUnicode
          (messageOf [field "Ref" "refs/pull/-9223372036854775808/merge"]))
   = Some "pull request number was not present in message event"
   <-> GoStrconv.MinInt64 = GoStrconv.MinInt64)
  /\ (snd (handleGatewaySchemaChangeEvent GoStrconv.Int64 noUnicode
             (messageOf [field "Ref" "refs/pull/1"]))
      = Some "organization was not present in message event"
      <-> "" = "").
Proof.
  split.
  - apply (proj1 (final_checks GoStrconv.Int64 noUnicode
                    (messageOf [field "Ref" "refs/pull/-9223372036854775808/merge"])
                    (attachmentOf _)
                    {| scanPullRequest := GoStrconv.MinInt64;
                       scanOrganization := ""; scanRepository := "" |}
                    (passesChecks_messageOf _) eq_refl)).
  - apply (proj1 (proj2 (proj2 (proj2
             (final_checks GoStrconv.Int64 noUnicode
                (messageOf [field "Ref" "refs/pull/1"]) (attachmentOf _)
                {| scanPullRequest := 1;
                   scanOrganization := ""; scanRepository := "" |}
                (passesChecks_messageOf _) eq_refl))))).
    discriminate.
Defined.

(** C2.  The code does not keep what the claim says where [int] has 64
    bits.  The field with the title ["Ref"] and the value
    ["refs/pull/-9223372036854775808/merge"] is a ref field, its third
    token parses without an error, to [math.MinInt64], and the loop reaches
    its end with the pull request set by that field.  The number is the one
    the code reserved for "no ref field was read", so the function returns
    the error "pull request number was not present" for a ref field that
    is present and parsed.  The number next to it is extracted as any other
    number, and where [int] has 32 bits the same token is a parse
    error. *)
Theorem sentinel_ref_reported_missing (unicodeLower : string -> string) :
  let ref := field "Ref" "refs/pull/-9223372036854775808/merge" in
  let commit :=
    field "Commit" "https://github.com/kong/team-koko-bot/commit/180edc|sha" in
  isRefField unicodeLower ref = true
  /\ GoStrconv.ParseInt GoStrconv.Int64 (refToken ref) 10 0
     = (GoStrconv.MinInt64, None)
  /\ scanFields GoStrconv.Int64 unicodeLower [ref; commit] initialScan
     = Next {| scanPullRequest := GoStrconv.MinInt64;
               scanOrganization := "kong";
               scanRepository := "team-koko-bot" |}
  /\ handleGatewaySchemaChangeEvent GoStrconv.Int64 unicodeLower
       (messageOf [ref; commit])
     = (zeroGatewaySchemaChange,
        Some "pull request number was not present in message event")
  /\ handleGatewaySchemaChangeEvent GoStrconv.Int64 unicodeLower
       (messageOf [field "Ref" "refs/pull/-9223372036854775807/merge"; commit])
     = ({| organization := "kong";
           pullRequest := -9223372036854775807;
           repository := "team-koko-bot" |}, None)
  /\ handleGatewaySchemaChangeEvent GoStrconv.Int32 unicodeLower
       (messageOf [ref; commit])
     = (zeroGatewaySchemaChange,
        Some "unable to convert pull request to number: -9223372036854775808").
Proof.
  cbv zeta. repeat split; vm_compute; reflexivity.
Qed.

(** ** [PRDescription] *)

Lemma PRDescription_lookup_failed get org repo n err :
  get org repo n = inr err ->
  GitHub.PRDescription get org repo n
  = ([Enter FPRDescription; PullRequestsGet org repo n],
     Done ("", Some ("unable to retrieve pull request: " ++ err))).
Proof.
  intros H. unfold GitHub.PRDescription. rewrite H. reflexivity.
Qed.

(** C9. When the lookup of the pull request succeeds, [PRDescription]
    reads [*pr.Body] without a nil check: with a nil body it panics and
    returns neither a description nor an error; with a body it returns the
    body and no error; so it returns only when the body is not nil. *)
Theorem PRDescription_nil_body
  (get : string -> string -> Z -> GitHub.PullRequest + string)
  (org repo : string) (n : Z) (pr : GitHub.PullRequest) :
  get org repo n = inl pr ->
  (GitHub.Body pr = None ->
     result (GitHub.PRDescription get org repo n) = Panic)
  /\ (forall body, GitHub.Body pr = Some body ->
        result (GitHub.PRDescription get org repo n) = Done (body, None))
  /\ (forall v, result (GitHub.PRDescription get org repo n) = Done v ->
        GitHub.Body pr <> None)
  /\ trace (GitHub.PRDescription get org repo n)
     = [Enter FPRDescription; PullRequestsGet org repo n].
Proof.
  intros H. unfold GitHub.PRDescription. rewrite H.
  destruct (GitHub.Body pr) as [body|]; simpl.
  - split; [discriminate|]. split; [intros b [= <-]; reflexivity|].
    split; [discriminate|reflexivity].
  - split; [reflexivity|]. split; [discriminate|].
    split; [discriminate|reflexivity].
Qed.

(** C9 on a pull request without a description. *)
Lemma PRDescription_nil_body_witness :
  result (GitHub.PRDescription (fun _ _ _ => inl {| GitHub.Body := None |})
            "kong" "team-koko-bot" 5291) = Panic.
Proof.
  apply (proj1 (PRDescription_nil_body
                  (fun _ _ _ => inl {| GitHub.Body := None |})
                  "kong" "team-koko-bot" 5291 {| GitHub.Body := None |} eq_refl)).
  reflexivity.
Defined.

(** ** The dispatcher *)

Lemma len_positive (s : string) : s <> "" -> (0 <? GoStrings.len s) = true.
Proof.
  intros H. destruct s as [|c s]; [contradiction|]. reflexivity.
Qed.

Section DispatcherClaims.

Variable arch : GoStrconv.IntSize.
Variable unicodeLower : string -> string.
Variable botID : string.
Variable conversationInfo : string -> string + string.
Variable userInfo : string -> string + string.
Variable pullRequestsGet : string -> string -> Z -> GitHub.PullRequest + string.

Local Abbreviation dispatch :=
  (handleMessageEvent arch unicodeLower botID conversationInfo userInfo
     pullRequestsGet).

(** C8. A message whose subtype is neither empty nor ["bot_message"] is
    dropped without a handler being invoked: the run looks up neither the
    channel, nor the user, nor the pull request, and enters neither
    [handleBotMessage] nor the extractor; it acknowledges the event and
    logs that the subtype is ignored. *)
Theorem unsupported_subtype_dropped (e : Event) (m : MessageEvent) :
  Data e = EventsAPIEvent (InnerMessageEvent m) ->
  SubType m <> "" -> SubType m <> "bot_message" ->
  existsb isHandlerCall (trace (dispatch e)) = false
  /\ forall envelopeID, Request e = Some envelopeID ->
       dispatch e =
         ([Ack envelopeID;
           Log LevelDebug "event ignored as the sub-type is not a new message"],
          Done tt).
Proof.
  intros Hd Hne Hnb. unfold handleMessageEvent. rewrite Hd.
  apply String.eqb_neq in Hnb. rewrite (len_positive _ Hne), Hnb.
  destruct (Request e) as [id|]; simpl.
  - split; [reflexivity|]. intros ? [= <-]. reflexivity.
  - split; [reflexivity|discriminate].
Qed.

(** C10. A message whose bot identifier is the bot's own is dropped
    before the channel is looked up and before any handler is invoked,
    whatever its subtype: with an empty subtype as well as with
    ["bot_message"] the run acknowledges the event and logs that the
    message originated from the application. *)
Theorem own_message_dropped (e : Event) (m : MessageEvent) :
  Data e = EventsAPIEvent (InnerMessageEvent m) ->
  BotID m = botID ->
  existsb isHandlerCall (trace (dispatch e)) = false
  /\ forall envelopeID, Request e = Some envelopeID ->
       SubType m = "" \/ SubType m = "bot_message" ->
       dispatch e =
         ([Ack envelopeID;
           Log LevelDebug
             "event ignored as the message originated from our application"],
          Done tt).
Proof.
  intros Hd Hb. unfold handleMessageEvent. rewrite Hd, Hb, String.eqb_refl.
  destruct (Request e) as [id|]; [|split; [reflexivity|discriminate]].
  split.
  - destruct (_ && _); reflexivity.
  - intros ? [= <-] [Hs|Hs]; rewrite Hs; reflexivity.
Qed.

(** A message that is not dropped has its channel looked up: the trace
    does record the calls of the handlers. *)
Lemma processed_message_looks_up_channel (e : Event) (m : MessageEvent)
  (envelopeID : string) :
  Data e = EventsAPIEvent (InnerMessageEvent m) ->
  Request e = Some envelopeID ->
  SubType m = "" \/ SubType m = "bot_message" ->
  BotID m <> botID ->
  exists rest,
    trace (dispatch e)
    = Ack envelopeID :: GetConversationInfo (Channel m) :: rest.
Proof.
  intros Hd Hr Hs Hb. unfold handleMessageEvent. rewrite Hd, Hr.
  apply String.eqb_neq in Hb. rewrite Hb.
  assert (E : (0 <? GoStrings.len (SubType m))
              && negb (SubType m =? "bot_message")%string = false)
    by (destruct Hs as [-> | ->]; reflexivity).
  rewrite E. unfold bind at 1. simpl emit. cbv iota.
  unfold bind at 1. simpl emit. cbv iota.
  destruct (match conversationInfo (Channel m) with inl _ => _ | inr _ => _ end)
    as [t o].
  simpl. eexists. reflexivity.
Qed.

End DispatcherClaims.

(** ** The dispatcher on examples *)

(** C8 on a message of subtype ["message_changed"]. *)
Lemma unsupported_subtype_dropped_witness :
  handleMessageEvent GoStrconv.Int64 noUnicode "B0KOKO" feedChannel someUser
    pullRequestWithout
    (messageEventOf editedMessage)
  = ([Ack "envelope";
      Log LevelDebug "event ignored as the sub-type is not a new message"],
     Done tt).
Proof.
  apply (proj2 (unsupported_subtype_dropped GoStrconv.Int64 noUnicode "B0KOKO"
                  feedChannel someUser pullRequestWithout
                  (messageEventOf editedMessage) editedMessage eq_refl
                  ltac:(discriminate) ltac:(discriminate))).
  reflexivity.
Defined.

(** C10 on a message without subtype that carries the bot's own
    identifier. *)
Lemma own_message_dropped_witness :
  handleMessageEvent GoStrconv.Int64 noUnicode "B0KOKO" feedChannel someUser
    pullRequestWithout
    (messageEventOf ownMessage)
  = ([Ack "envelope";
      Log LevelDebug
        "event ignored as the message originated from our application"],
     Done tt).
Proof.
  apply (proj2 (own_message_dropped GoStrconv.Int64 noUnicode "B0KOKO"
                  feedChannel someUser pullRequestWithout
                  (messageEventOf ownMessage) ownMessage eq_refl eq_refl)).
  - reflexivity.
  - left. reflexivity.
Defined.

(** A schema change posted by another bot in the feed is extracted and its
    pull request is looked up. *)
Example dispatch_schema_change :
  handleMessageEvent GoStrconv.Int64 noUnicode "B0KOKO" feedChannel someUser
    (pullRequestWith "description")
    (messageEventOf schemaChangeMessage)
  = ([Ack "envelope";
      GetConversationInfo "C1";
      Enter FhandleBotMessage;
      Enter FhandleGatewaySchemaChangeEvent;
      Log LevelDebug "gateway change event received";
      Enter FPRDescription;
      PullRequestsGet "kong" "team-koko-bot" 5291],
     Done tt).
Proof. reflexivity. Qed.

(** The same message when the pull request has no description: the panic
    of [PRDescription] ends the run. *)
Example dispatch_schema_change_nil_body :
  result
    (handleMessageEvent GoStrconv.Int64 noUnicode "B0KOKO" feedChannel someUser
       pullRequestWithout
       (messageEventOf schemaChangeMessage))
  = Panic.
Proof. reflexivity. Qed.

(** A message of a person is logged after the lookups of the channel and
    of the user. *)
Example dispatch_human_message :
  handleMessageEvent GoStrconv.Int64 noUnicode "B0KOKO" feedChannel someUser
    pullRequestWithout
    (messageEventOf humanMessage)
  = ([Ack "envelope"; GetConversationInfo "C1"; GetUserInfo "U1";
      Log LevelDebug "message received"],
     Done tt).
Proof. reflexivity. Qed.

(** ** When the extraction succeeds *)

Section ExtractionSuccess.

Variable arch : GoStrconv.IntSize.
Variable unicodeLower : string -> string.

Local Abbreviation handle := (handleGatewaySchemaChangeEvent arch unicodeLower).
Local Abbreviation scan := (scanFields arch unicodeLower).
Local Abbreviation finish := (finishScan arch).
Local Abbreviation isRef := (isRefField unicodeLower).
Local Abbreviation isCommit := (isCommitField unicodeLower).
Local Abbreviation wellFormed := (wellFormedField arch unicodeLower).

Lemma finish_success_iff st g :
  finish st = (g, None) <->
  scanPullRequest st <> GoStrconv.MinInt64
  /\ scanOrganization st <> "" /\ scanRepository st <> ""
  /\ g = {| organization := scanOrganization st;
            pullRequest := GoStrconv.int arch (scanPullRequest st);
            repository := scanRepository st |}.
Proof.
  unfold finishScan, New.
  destruct (_ =? GoStrconv.MinInt64) eqn:E1.
  { apply Z.eqb_eq in E1. split; [discriminate|]. intros (H & _). contradiction. }
  apply Z.eqb_neq in E1.
  destruct (GoStrings.len (scanOrganization st) =? 0) eqn:E2.
  { apply len_zero_iff in E2. split; [discriminate|]. intros (_ & H & _). contradiction. }
  destruct (GoStrings.len (scanRepository st) =? 0) eqn:E3.
  { apply len_zero_iff in E3. split; [discriminate|]. intros (_ & _ & H & _). contradiction. }
  assert (scanOrganization st <> "")
    by (intros E; apply len_zero_iff in E; congruence).
  assert (scanRepository st <> "")
    by (intros E; apply len_zero_iff in E; congruence).
  split.
  - intros [= <-]. auto.
  - intros (_ & _ & _ & ->). reflexivity.
Qed.

(** A message that fails one of the three checks gets an error. *)
Lemma handle_error_unless_passes m g :
  handle m = (g, None) -> exists a, passesChecks m a.
Proof.
  intros H.
  destruct (checks_cases m) as [Hc|[[Hb Hc]|[[Hb Hc]|[[a (Hb & Ha & Hn)]|[a Hp]]]]].
  - rewrite (handle_no_botID arch unicodeLower m Hc) in H. discriminate.
  - rewrite (handle_no_attachments arch unicodeLower m Hb Hc) in H. discriminate.
  - rewrite (handle_too_many arch unicodeLower m Hb Hc) in H. discriminate.
  - rewrite (handle_no_author arch unicodeLower m a Hb Ha Hn) in H. discriminate.
  - exists a. exact Hp.
Qed.

(** The conditions under which the extraction succeeds, and its result. *)
Lemma handle_success m a fr fc :
  passesChecks m a ->
  forallb wellFormed (Fields a) = true ->
  findLast isRef (Fields a) = Some fr ->
  findLast isCommit (Fields a) = Some fc ->
  refNumber arch fr <> GoStrconv.MinInt64 ->
  commitOrganization fc <> "" -> commitRepository fc <> "" ->
  handle m = ({| organization := commitOrganization fc;
                 pullRequest := refNumber arch fr;
                 repository := commitRepository fc |}, None).
Proof.
  intros Hp Hwf Er Ec Hne Hno Hnr.
  rewrite (handle_passes arch unicodeLower m a Hp).
  rewrite (scan_wellFormed arch unicodeLower _ _ Hwf).
  destruct (fold_summary arch unicodeLower (Fields a) initialScan)
    as (Hpr & Ho & Hr).
  rewrite Er in Hpr. rewrite Ec in Ho, Hr.
  pose proof (findLast_In_true _ _ _ Er) as [Hin Hfr].
  assert (Hparse : GoStrconv.ParseInt arch (refToken fr) 10 0
                   = (refNumber arch fr, None)).
  { apply (wellFormed_ref_parsed arch unicodeLower); [|exact Hfr].
    rewrite forallb_forall in Hwf. apply Hwf. exact Hin. }
  apply finish_success_iff. rewrite Hpr, Ho, Hr.
  repeat split; try assumption.
  rewrite (int_of_parsed _ _ _ _ Hparse). reflexivity.
Qed.

(** X1. The extraction succeeds with the record [g] exactly when the
    message has a bot identifier and one attachment with an author, every
    field of the attachment is well formed, there is a last ref field whose
    number is not [math.MinInt64] and a last commit field whose
    organization and repository tokens are not empty, and [g] holds these
    three values. *)
Theorem extraction_succeeds_iff (m : MessageEvent) (g : gatewaySchemaChange) :
  handle m = (g, None) <->
  exists a fr fc,
    passesChecks m a
    /\ forallb wellFormed (Fields a) = true
    /\ findLast isRef (Fields a) = Some fr
    /\ findLast isCommit (Fields a) = Some fc
    /\ refNumber arch fr <> GoStrconv.MinInt64
    /\ commitOrganization fc <> "" /\ commitRepository fc <> ""
    /\ g = {| organization := commitOrganization fc;
              pullRequest := refNumber arch fr;
              repository := commitRepository fc |}.
Proof.
  split.
  - intros H. destruct (handle_error_unless_passes m g H) as [a Hp].
    rewrite (handle_passes arch unicodeLower m a Hp) in H.
    destruct (scan (Fields a) initialScan) as [st|r] eqn:Hs.
    + pose proof (scan_Next_wellFormed arch unicodeLower _ _ _ Hs) as Hwf.
      destruct (scan_summary arch unicodeLower _ _ _ Hs) as (Hpr & Ho & Hr).
      apply finish_success_iff in H. destruct H as (Hne & Hno & Hnr & ->).
      destruct (findLast isRef (Fields a)) as [fr|] eqn:Er;
        [|simpl in Hpr; contradiction].
      destruct (findLast isCommit (Fields a)) as [fc|] eqn:Ec;
        [|simpl in Ho; contradiction].
      pose proof (findLast_In_true _ _ _ Er) as [Hin Hfr].
      assert (Hparse : GoStrconv.ParseInt arch (refToken fr) 10 0
                       = (refNumber arch fr, None)).
      { apply (wellFormed_ref_parsed arch unicodeLower); [|exact Hfr].
        rewrite forallb_forall in Hwf. apply Hwf. exact Hin. }
      exists a, fr, fc. rewrite Hpr in Hne |- *. rewrite Ho in Hno |- *.
      rewrite Hr in Hnr |- *. rewrite (int_of_parsed _ _ _ _ Hparse).
      split; [exact Hp|]. repeat split; try assumption; try reflexivity.
    + destruct (scan_Return arch unicodeLower _ _ _ Hs) as [_ He].
      subst r. simpl in He. contradiction.
  - intros (a & fr & fc & Hp & Hwf & Er & Ec & Hne & Hno & Hnr & ->).
    apply (handle_success m a fr fc); assumption.
Qed.

(** *** Fields of other titles *)

Lemma scan_filter_relevant fields st :
  scan (filter (relevantField unicodeLower) fields) st = scan fields st.
Proof.
  revert st. induction fields as [|f fields IH]; intros st; simpl; [reflexivity|].
  unfold relevantField at 1.
  destruct (isRef f) eqn:Er; [|destruct (isCommit f) eqn:Ec]; simpl.
  - destruct (scanField arch unicodeLower st f); [apply IH|reflexivity].
  - destruct (scanField arch unicodeLower st f); [apply IH|reflexivity].
  - rewrite (step_other arch unicodeLower st f Er Ec). apply IH.
Qed.

(** X2. Fields whose lowered title is neither ["ref"] nor ["commit"] never
    influence the extraction: removing them from the attachments leaves
    the record and the error unchanged. *)
Theorem other_fields_ignored (m : MessageEvent) :
  handle (withoutOtherFields unicodeLower m) = handle m.
Proof.
  unfold handleGatewaySchemaChangeEvent, withoutOtherFields. simpl.
  rewrite length_map.
  destruct (Attachments m) as [|a rest]; simpl; [reflexivity|].
  rewrite scan_filter_relevant. reflexivity.
Qed.

End ExtractionSuccess.

(** ** The notification format *)

Lemma append_empty_r (s : string) : (s ++ "")%string = s.
Proof.
  induction s as [|c s IH]; simpl; [reflexivity|]. now rewrite IH.
Qed.

Lemma Split_no_sep (s : string) (sep : ascii) :
  noByte sep s = true -> GoStrings.Split s sep = [s].
Proof.
  unfold noByte. induction s as [|c s IH]; simpl; [reflexivity|].
  destruct (Ascii.eqb c sep); simpl; [discriminate|].
  intros H. rewrite (IH H). reflexivity.
Qed.

(** The token before the first separator. *)
Lemma Split_app_sep (a rest : string) (sep : ascii) :
  noByte sep a = true ->
  GoStrings.Split (a ++ String sep rest) sep = a :: GoStrings.Split rest sep.
Proof.
  unfold noByte. induction a as [|c a IH]; simpl.
  - intros _. rewrite Ascii.eqb_refl. reflexivity.
  - destruct (Ascii.eqb c sep); simpl; [discriminate|].
    intros H. rewrite (IH H). reflexivity.
Qed.

Lemma Split_token_tail (tok tail : string) (sep : ascii) :
  noByte sep tok = true -> emptyOrStartsWith sep tail = true ->
  exists more, GoStrings.Split (tok ++ tail) sep = tok :: more.
Proof.
  intros Ht Hs. destruct tail as [|c tail]; simpl in Hs.
  - exists []. rewrite append_empty_r. apply Split_no_sep. exact Ht.
  - apply Ascii.eqb_eq in Hs. subst c. eexists. apply Split_app_sep. exact Ht.
Qed.

(** The third token of a ref value [a/b/tok] or [a/b/tok/...]. *)
Lemma ref_value_tokens (a b tok tail : string) :
  noByte "/" a = true -> noByte "/" b = true -> noByte "/" tok = true ->
  emptyOrStartsWith "/" tail = true ->
  let tokens := GoStrings.Split (a ++ "/" ++ b ++ "/" ++ tok ++ tail) "/" in
  (3 <=? Z.of_nat (List.length tokens)) = true /\ nth 2 tokens "" = tok.
Proof.
  intros Ha Hb Ht Hs. cbv zeta. simpl append.
  rewrite (Split_app_sep a _ "/" Ha), (Split_app_sep b _ "/" Hb).
  destruct (Split_token_tail tok tail "/" Ht Hs) as [more ->].
  split; [|reflexivity]. apply Z.leb_le. simpl List.length. lia.
Qed.

(** The tokens of a commit value [p0/p1/p2/org/repo|label] or
    [p0/p1/p2/org/repo/...|label]. *)
Lemma commit_value_tokens (p0 p1 p2 org repo tail label : string) :
  let link := (p0 ++ "/" ++ p1 ++ "/" ++ p2 ++ "/" ++ org ++ "/" ++ repo ++ tail)%string in
  noByte "/" p0 = true -> noByte "/" p1 = true -> noByte "/" p2 = true ->
  noByte "/" org = true -> noByte "/" repo = true ->
  emptyOrStartsWith "/" tail = true ->
  noByte "|" link = true -> noByte "|" label = true ->
  GoStrings.Split (link ++ "|" ++ label) "|" = [link; label]
  /\ (5 <=? Z.of_nat (List.length (GoStrings.Split link "/"))) = true
  /\ nth 3 (GoStrings.Split link "/") "" = org
  /\ nth 4 (GoStrings.Split link "/") "" = repo.
Proof.
  intros link H0 H1 H2 Ho Hr Hs Hl Hb. split.
  - simpl append. rewrite (Split_app_sep link _ "|" Hl), (Split_no_sep _ _ Hb).
    reflexivity.
  - unfold link. simpl append.
    rewrite (Split_app_sep p0 _ "/" H0), (Split_app_sep p1 _ "/" H1),
      (Split_app_sep p2 _ "/" H2), (Split_app_sep org _ "/" Ho).
    destruct (Split_token_tail repo tail "/" Hr Hs) as [more ->].
    split; [|split; reflexivity]. apply Z.leb_le. simpl List.length. lia.
Qed.

Lemma digits_no_slash (s : string) : allDigits s = true -> noByte "/" s = true.
Proof.
  unfold noByte. induction s as [|c s IH]; simpl; [reflexivity|].
  intros H. apply andb_true_iff in H. destruct H as [Hc Hs].
  assert (E : Ascii.eqb c "/" = false).
  { revert Hc. clear. destruct c as [[] [] [] [] [] [] [] []];
      (discriminate || reflexivity). }
  rewrite E. apply IH. exact Hs.
Qed.

(** [ParseInt] in base 10 on a decimal numeral with a minus sign. *)
Lemma ParseInt_negative arch s :
  s <> "" -> allDigits s = true ->
  decimalValue s 0 <= 2 ^ (GoStrconv.bitsOf arch - 1) ->
  GoStrconv.ParseInt arch (String "-" s) 10 0 = (- decimalValue s 0, None).
Proof.
  intros Hne Hd Hv.
  unfold GoStrconv.ParseInt. cbv zeta.
  change (Ascii.eqb "-" "-") with true. change (Ascii.eqb "-" "+") with false.
  cbn [orb negb andb]. cbv iota.
  unfold GoStrconv.ParseUint.
  destruct (s =? "")%string eqn:E; [apply String.eqb_eq in E; contradiction|].
  change (0 =? 0) with true. cbv iota. cbv zeta.
  assert (H0 : 0 <= decimalValue s 0) by (apply decimalValue_ge; [exact Hd|lia]).
  rewrite parseUintLoop_decimal.
  - destruct (_ <? _) eqn:Ec; [apply Z.ltb_lt in Ec; lia|].
    unfold GoStrconv.int64. f_equal.
    destruct arch; simpl GoStrconv.bitsOf in *;
      change (2 ^ (32 - 1)) with 2147483648 in *;
      change (2 ^ (64 - 1)) with 9223372036854775808 in *;
      change (2 ^ 63) with 9223372036854775808;
      change (2 ^ 64) with 18446744073709551616;
      Z.div_mod_to_equations; lia.
  - exact Hd.
  - lia.
  - destruct arch; simpl GoStrconv.bitsOf in *;
      change (2 ^ (32 - 1)) with 2147483648 in *;
      change (2 ^ (64 - 1)) with 9223372036854775808 in *;
      [change (2 ^ 32 - 1) with 4294967295
      |change (2 ^ 64 - 1) with 18446744073709551615]; lia.
  - unfold GoStrconv.maxUint64. destruct arch; cbv; discriminate.
Qed.

Section NotificationFormat.

Variable arch : GoStrconv.IntSize.
Variable unicodeLower : string -> string.

Local Abbreviation handle := (handleGatewaySchemaChangeEvent arch unicodeLower).
Local Abbreviation isRef := (isRefField unicodeLower).
Local Abbreviation isCommit := (isCommitField unicodeLower).
Local Abbreviation wellFormed := (wellFormedField arch unicodeLower).

Lemma commit_not_ref f : isCommit f = true -> isRef f = false.
Proof.
  unfold isRefField, isCommitField. intros H.
  apply String.eqb_eq in H. rewrite H. reflexivity.
Qed.

(** A message whose only fields are a ref field and a commit field. *)
Lemma handle_ref_then_commit botID author fr fc :
  botID <> "" -> author <> "" ->
  isRef fr = true -> isCommit fc = true ->
  wellFormed fr = true -> wellFormed fc = true ->
  refNumber arch fr <> GoStrconv.MinInt64 ->
  commitOrganization fc <> "" -> commitRepository fc <> "" ->
  handle (notification botID author [fr; fc])
  = ({| organization := commitOrganization fc;
        pullRequest := refNumber arch fr;
        repository := commitRepository fc |}, None).
Proof.
  intros Hb Ha Hr Hc Hwr Hwc Hne Hno Hnr.
  apply (handle_success arch unicodeLower _
           {| AuthorName := author; Fields := [fr; fc] |} fr fc);
    try assumption.
  - repeat split; assumption.
  - simpl. rewrite Hwr, Hwc. reflexivity.
  - unfold findLast. simpl. rewrite (commit_not_ref fc Hc), Hr. reflexivity.
  - unfold findLast. simpl. rewrite Hc. reflexivity.
Qed.

(** X3. The format of the feed is decoded: a ref value [a/b/digits] or
    [a/b/digits/...] and a commit value [p0/p1/p2/org/repo|label] or
    [p0/p1/p2/org/repo/...|label] extract to the organization [org], the
    repository [repo] and the number [digits] spell.  Only the third token
    of the ref value and the fourth and fifth of the link are read: what
    [a], [b], [p0], [p1], [p2], the tails and the label are is not
    checked. *)
Theorem extracts_notification
  (botID author refTitle commitTitle : string)
  (a b digits refTail p0 p1 p2 org repo commitTail label : string) :
  let refValue := (a ++ "/" ++ b ++ "/" ++ digits ++ refTail)%string in
  let link :=
    (p0 ++ "/" ++ p1 ++ "/" ++ p2 ++ "/" ++ org ++ "/" ++ repo ++ commitTail)%string in
  botID <> "" -> author <> "" ->
  GoStrings.ToLower unicodeLower refTitle = "ref" ->
  GoStrings.ToLower unicodeLower commitTitle = "commit" ->
  noByte "/" a = true -> noByte "/" b = true ->
  digits <> "" -> allDigits digits = true ->
  decimalValue digits 0 < 2 ^ (GoStrconv.bitsOf arch - 1) ->
  emptyOrStartsWith "/" refTail = true ->
  noByte "/" p0 = true -> noByte "/" p1 = true -> noByte "/" p2 = true ->
  noByte "/" org = true -> noByte "/" repo = true ->
  org <> "" -> repo <> "" ->
  emptyOrStartsWith "/" commitTail = true ->
  noByte "|" link = true -> noByte "|" label = true ->
  handle (notification botID author
            [field refTitle refValue;
             field commitTitle (link ++ "|" ++ label)])
  = ({| organization := org;
        pullRequest := decimalValue digits 0;
        repository := repo |}, None).
Proof.
  intros refValue link Hb Hau Hrt Hct Ha Hbb Hdne Hd Hv Hrtail
    H0 H1 H2 Ho Hr Hone Hrne Hctail Hl Hlab.
  destruct (ref_value_tokens a b digits refTail Ha Hbb (digits_no_slash _ Hd) Hrtail)
    as [Hlen Htok].
  destruct (commit_value_tokens p0 p1 p2 org repo commitTail label
              H0 H1 H2 Ho Hr Hctail Hl Hlab) as (Hsplit & Hlen5 & Horg & Hrepo).
  fold refValue in Hlen, Htok. fold link in Hsplit, Hlen5, Horg, Hrepo.
  set (fr := field refTitle refValue).
  set (fc := field commitTitle (link ++ "|" ++ label)).
  assert (Hisr : isRef fr = true) by (unfold isRefField; simpl; rewrite Hrt; reflexivity).
  assert (Hisc : isCommit fc = true)
    by (unfold isCommitField; simpl; rewrite Hct; reflexivity).
  assert (Htoken : refToken fr = digits) by exact Htok.
  assert (Hparse : GoStrconv.ParseInt arch (refToken fr) 10 0
                   = (decimalValue digits 0, None))
    by (rewrite Htoken; apply ParseInt_decimal; assumption).
  assert (Hnum : refNumber arch fr = decimalValue digits 0)
    by (unfold refNumber; rewrite Hparse; reflexivity).
  assert (Hctoks : commitTokens fc = GoStrings.Split link "/")
    by (unfold commitTokens;
        change (Value fc) with (link ++ "|" ++ label)%string;
        rewrite Hsplit; reflexivity).
  assert (Hco : commitOrganization fc = org)
    by (unfold commitOrganization; rewrite Hctoks; exact Horg).
  assert (Hcr : commitRepository fc = repo)
    by (unfold commitRepository; rewrite Hctoks; exact Hrepo).
  rewrite <- Hnum, <- Hco, <- Hcr.
  apply handle_ref_then_commit; try assumption.
  - unfold wellFormedField. rewrite Hisr.
    change (Value fr) with refValue. rewrite Hlen, Hparse. reflexivity.
  - unfold wellFormedField. rewrite (commit_not_ref fc Hisc), Hisc, Hctoks.
    change (Value fc) with (link ++ "|" ++ label)%string.
    rewrite Hsplit, Hlen5. reflexivity.
  - rewrite Hnum. pose proof (decimalValue_ge digits 0 Hd ltac:(lia)).
    unfold GoStrconv.MinInt64. change (2 ^ 63) with 9223372036854775808. lia.
  - rewrite Hco. exact Hone.
  - rewrite Hcr. exact Hrne.
Qed.

(** X4. The number is not required to be positive: a ref value whose
    third token is a minus sign and decimal digits extracts to the negative
    number, which is what [handleBotMessage] then passes to
    [PRDescription]. *)
Theorem negative_pull_request_extracted
  (botID author refTitle a b digits refTail : string) (fc : AttachmentField) :
  botID <> "" -> author <> "" ->
  GoStrings.ToLower unicodeLower refTitle = "ref" ->
  noByte "/" a = true -> noByte "/" b = true ->
  digits <> "" -> allDigits digits = true ->
  0 < decimalValue digits 0 < 2 ^ (GoStrconv.bitsOf arch - 1) ->
  emptyOrStartsWith "/" refTail = true ->
  isCommit fc = true -> wellFormed fc = true ->
  commitOrganization fc <> "" -> commitRepository fc <> "" ->
  handle (notification botID author
            [field refTitle (a ++ "/" ++ b ++ "/" ++ String "-" digits ++ refTail);
             fc])
  = ({| organization := commitOrganization fc;
        pullRequest := - decimalValue digits 0;
        repository := commitRepository fc |}, None)
  /\ - decimalValue digits 0 < 0.
Proof.
  intros Hb Hau Hrt Ha Hbb Hdne Hd Hv Hrtail Hisc Hwc Hno Hnr.
  split; [|lia].
  assert (Hns : noByte "/" (String "-" digits) = true).
  { pose proof (digits_no_slash _ Hd) as H. unfold noByte in *. simpl. exact H. }
  destruct (ref_value_tokens a b (String "-" digits) refTail Ha Hbb Hns Hrtail)
    as [Hlen Htok].
  set (fr := field refTitle
               (a ++ "/" ++ b ++ "/" ++ String "-" digits ++ refTail)) in *.
  assert (Hisr : isRef fr = true) by (unfold isRefField; simpl; rewrite Hrt; reflexivity).
  assert (Htoken : refToken fr = String "-" digits) by exact Htok.
  assert (Hparse : GoStrconv.ParseInt arch (refToken fr) 10 0
                   = (- decimalValue digits 0, None))
    by (rewrite Htoken; apply ParseInt_negative; [assumption|assumption|lia]).
  assert (Hnum : refNumber arch fr = - decimalValue digits 0)
    by (unfold refNumber; rewrite Hparse; reflexivity).
  rewrite <- Hnum.
  apply handle_ref_then_commit; try assumption.
  - unfold wellFormedField. rewrite Hisr.
    change (Value fr)
      with (a ++ "/" ++ b ++ "/" ++ String "-" digits ++ refTail)%string.
    rewrite Hlen, Hparse. reflexivity.
  - rewrite Hnum. unfold GoStrconv.MinInt64.
    destruct arch; simpl GoStrconv.bitsOf in *;
      change (2 ^ (32 - 1)) with 2147483648 in *;
      change (2 ^ (64 - 1)) with 9223372036854775808 in *;
      change (2 ^ 63) with 9223372036854775808; lia.
Qed.

End NotificationFormat.

(** ** The dispatcher, case by case *)

Lemma trace_bind {A B} (m : Run A) (k : A -> Run B) :
  trace (bind m k)
  = (trace m ++ match result m with
                | Done a => trace (k a)
                | Panic => []
                end)%list.
Proof.
  destruct m as [t [a|]]; simpl.
  - destruct (k a) as [t' o]. reflexivity.
  - rewrite app_nil_r. reflexivity.
Qed.

Lemma result_bind {A B} (m : Run A) (k : A -> Run B) :
  result (bind m k)
  = match result m with
    | Done a => result (k a)
    | Panic => Panic
    end.
Proof.
  destruct m as [t [a|]]; simpl; [|reflexivity].
  destruct (k a) as [t' o]. reflexivity.
Qed.

Section DispatcherCases.

Variable arch : GoStrconv.IntSize.
Variable unicodeLower : string -> string.
Variable botID : string.
Variable conversationInfo : string -> string + string.
Variable userInfo : string -> string + string.
Variable pullRequestsGet : string -> string -> Z -> GitHub.PullRequest + string.

Local Abbreviation handle := (handleGatewaySchemaChangeEvent arch unicodeLower).
Local Abbreviation botMessageHandler :=
  (handleBotMessage arch unicodeLower pullRequestsGet).
Local Abbreviation dispatch :=
  (handleMessageEvent arch unicodeLower botID conversationInfo userInfo
     pullRequestsGet).

(** What [handleBotMessage] does, by the channel, by the result of the
    extraction and by the answer of the code host. *)
Lemma handleBotMessage_cases m ch :
  (ch <> "gateway-schema-change-feed"
   /\ botMessageHandler m ch
      = ([Enter FhandleBotMessage; Log LevelDebug "bot message received"],
         Done None))
  \/ (exists g msg,
        ch = "gateway-schema-change-feed" /\ handle m = (g, Some msg)
        /\ botMessageHandler m ch
           = ([Enter FhandleBotMessage; Enter FhandleGatewaySchemaChangeEvent;
               Log LevelDebug "gateway change event received"],
              Done (Some ("unable to handle gateway schema change event: " ++ msg))))
  \/ (exists g,
        ch = "gateway-schema-change-feed" /\ handle m = (g, None)
        /\ trace (botMessageHandler m ch)
           = [Enter FhandleBotMessage; Enter FhandleGatewaySchemaChangeEvent;
              Log LevelDebug "gateway change event received";
              Enter FPRDescription;
              PullRequestsGet (organization g) (repository g) (pullRequest g)]
        /\ result (botMessageHandler m ch)
           = match pullRequestsGet (organization g) (repository g) (pullRequest g) with
             | inr err =>
                 Done (Some ("unable to get PR description for gateway schema change event: "
                             ++ "unable to retrieve pull request: " ++ err))
             | inl pr =>
                 match GitHub.Body pr with
                 | Some _ => Done None
                 | None => Panic
                 end
             end).
Proof.
  unfold handleBotMessage.
  destruct (ch =? "gateway-schema-change-feed")%string eqn:Ech.
  - right. apply String.eqb_eq in Ech.
    destruct (handle m) as [g [msg|]] eqn:Eh.
    + left. exists g, msg. repeat split; try assumption. 
    + right. exists g. split; [exact Ech|]. split; [reflexivity|].
      unfold GitHub.PRDescription.
      destruct (pullRequestsGet _ _ _) as [pr|err]; [destruct (GitHub.Body pr)|];
        split; reflexivity.
  - left. apply String.eqb_neq in Ech. split; [exact Ech|reflexivity].
Qed.

(** What [handleMessageEvent] does, by the event, by the message and by the
    answers of the lookups. *)
Lemma dispatch_cases e :
  (Data e = DataOther
   /\ dispatch e
      = ([Log LevelError "event ignored as it is not an API event"], Done tt))
  \/ (exists inner,
        Data e = EventsAPIEvent inner /\ Request e = None
        /\ dispatch e = ([], Panic))
  \/ (exists id,
        Data e = EventsAPIEvent InnerOther /\ Request e = Some id
        /\ dispatch e
           = ([Ack id; Log LevelDebug "event ignored as it is not a message event"],
              Done tt))
  \/ (exists id m,
        Data e = EventsAPIEvent (InnerMessageEvent m) /\ Request e = Some id
        /\ SubType m <> "" /\ SubType m <> "bot_message"
        /\ dispatch e
           = ([Ack id;
               Log LevelDebug "event ignored as the sub-type is not a new message"],
              Done tt))
  \/ (exists id m,
        Data e = EventsAPIEvent (InnerMessageEvent m) /\ Request e = Some id
        /\ (SubType m = "" \/ SubType m = "bot_message")
        /\ BotID m = botID
        /\ dispatch e
           = ([Ack id;
               Log LevelDebug
                 "event ignored as the message originated from our application"],
              Done tt))
  \/ (exists id m err,
        Data e = EventsAPIEvent (InnerMessageEvent m) /\ Request e = Some id
        /\ (SubType m = "" \/ SubType m = "bot_message")
        /\ BotID m <> botID
        /\ conversationInfo (Channel m) = inr err
        /\ dispatch e
           = ([Ack id; GetConversationInfo (Channel m);
               Log LevelError "unable to get channel information"],
              Done tt))
  \/ (exists id m ch,
        Data e = EventsAPIEvent (InnerMessageEvent m) /\ Request e = Some id
        /\ SubType m = "bot_message" /\ BotID m <> botID
        /\ conversationInfo (Channel m) = inl ch
        /\ trace (dispatch e)
           = (Ack id :: GetConversationInfo (Channel m)
              :: trace (botMessageHandler m ch)
              ++ match result (botMessageHandler m ch) with
                 | Done (Some _) => [Log LevelError "unable to handle bot message"]
                 | _ => []
                 end)%list
        /\ result (dispatch e)
           = match result (botMessageHandler m ch) with
             | Done _ => Done tt
             | Panic => Panic
             end)
  \/ (exists id m ch,
        Data e = EventsAPIEvent (InnerMessageEvent m) /\ Request e = Some id
        /\ SubType m = "" /\ BotID m <> botID
        /\ conversationInfo (Channel m) = inl ch
        /\ dispatch e
           = ([Ack id; GetConversationInfo (Channel m); GetUserInfo (User m);
               Log (match userInfo (User m) with
                    | inl _ => LevelDebug
                    | inr _ => LevelError
                    end)
                   (match userInfo (User m) with
                    | inl _ => "message received"
                    | inr _ => "unable to get user information"
                    end)],
              Done tt)).
Proof.
  unfold handleMessageEvent.
  destruct (Data e) as [inner|]; [|left; split; reflexivity].
  right. destruct (Request e) as [id|]; [|left; exists inner; repeat split].
  right. destruct inner as [m|]; [|left; exists id; repeat split].
  right.
  destruct (string_dec (SubType m) "") as [Hs|Hs];
    [|destruct (string_dec (SubType m) "bot_message") as [Hb|Hb]].
  - (* no subtype *)
    right. rewrite Hs. cbn [GoStrings.len String.length Z.of_nat Z.ltb Z.compare andb].
    destruct (string_dec (BotID m) botID) as [Ho|Ho].
    + left. exists id, m. rewrite Ho, String.eqb_refl.
      repeat split; auto.
    + right. apply String.eqb_neq in Ho. rewrite Ho.
      destruct (conversationInfo (Channel m)) as [ch|err] eqn:Ec.
      * right. right. exists id, m, ch. apply String.eqb_neq in Ho.
        repeat split; try assumption.
        cbn [String.eqb]. unfold bind, emit.
        destruct (userInfo (User m)); reflexivity.
      * left. exists id, m, err. apply String.eqb_neq in Ho.
        repeat split; auto; try (unfold bind, emit; reflexivity).
  - (* bot_message *)
    right. rewrite Hb. cbn [GoStrings.len String.length Z.of_nat Z.ltb Z.compare
                              andb negb String.eqb Ascii.eqb Bool.eqb].
    destruct (string_dec (BotID m) botID) as [Ho|Ho].
    + left. exists id, m. rewrite Ho, String.eqb_refl.
      repeat split; auto.
    + right. apply String.eqb_neq in Ho. rewrite Ho.
      destruct (conversationInfo (Channel m)) as [ch|err] eqn:Ec.
      * right. left. exists id, m, ch. apply String.eqb_neq in Ho.
        split; [reflexivity|]. split; [reflexivity|]. split; [exact Hb|].
        split; [exact Ho|]. split; [exact Ec|].
        rewrite !trace_bind, !result_bind. simpl emit. cbn [trace result fst snd].
        rewrite ?trace_bind, ?result_bind.
        destruct (botMessageHandler m ch) as [t [[msg|]|]];
          cbn [trace result fst snd app emit ret]; split; reflexivity.
      * left. exists id, m, err. apply String.eqb_neq in Ho.
        repeat split; auto; try (unfold bind, emit; reflexivity).
  - (* another subtype *)
    left. exists id, m. rewrite (len_positive _ Hs).
    apply String.eqb_neq in Hb. rewrite Hb. apply String.eqb_neq in Hb.
    repeat split; auto.
Qed.

End DispatcherCases.

(** ** What the dispatcher calls, and when it panics *)

Section DispatcherMore.

Variable arch : GoStrconv.IntSize.
Variable unicodeLower : string -> string.
Variable botID : string.
Variable conversationInfo : string -> string + string.
Variable userInfo : string -> string + string.
Variable pullRequestsGet : string -> string -> Z -> GitHub.PullRequest + string.

Local Abbreviation handle := (handleGatewaySchemaChangeEvent arch unicodeLower).
Local Abbreviation botMessageHandler :=
  (handleBotMessage arch unicodeLower pullRequestsGet).
Local Abbreviation dispatch :=
  (handleMessageEvent arch unicodeLower botID conversationInfo userInfo
     pullRequestsGet).

(** The run for a bot message of another application whose channel was
    resolved. *)
Lemma dispatch_bot_message e m id ch :
  Data e = EventsAPIEvent (InnerMessageEvent m) -> Request e = Some id ->
  SubType m = "bot_message" -> BotID m <> botID ->
  conversationInfo (Channel m) = inl ch ->
  trace (dispatch e)
  = (Ack id :: GetConversationInfo (Channel m)
     :: trace (botMessageHandler m ch)
     ++ match result (botMessageHandler m ch) with
        | Done (Some _) => [Log LevelError "unable to handle bot message"]
        | _ => []
        end)%list
  /\ result (dispatch e)
     = match result (botMessageHandler m ch) with
       | Done _ => Done tt
       | Panic => Panic
       end.
Proof.
  intros Hd Hr Hs Hb Hc.
  destruct (dispatch_cases arch unicodeLower botID conversationInfo userInfo
              pullRequestsGet e)
    as [[H _]|[(i & H & H' & _)|[(i & H & _)|[(i & m' & H & _ & _ & H' & _)
       |[(i & m' & H & _ & _ & H' & _)|[(i & m' & err & H & _ & _ & _ & H' & _)
       |[(i & m' & ch' & H & H1 & _ & _ & H' & Ht & Hres)
       |(i & m' & ch' & H & _ & H' & _)]]]]]]];
    try congruence.
  assert (m' = m) by congruence. subst m'.
  assert (i = id) by congruence. subst i.
  assert (ch' = ch) by congruence. subst ch'.
  split; assumption.
Qed.

(** [handleBotMessage] asks the code host exactly for the extracted pull
    request, and only in the feed. *)
Lemma handleBotMessage_calls m ch o r n :
  In (PullRequestsGet o r n) (trace (botMessageHandler m ch))
  <-> ch = "gateway-schema-change-feed"
      /\ handle m
         = ({| organization := o; pullRequest := n; repository := r |}, None).
Proof.
  destruct (handleBotMessage_cases arch unicodeLower pullRequestsGet m ch)
    as [[Hch ->]|[(g & msg & Hch & Hh & ->)|(g & Hch & Hh & Ht & _)]].
  - simpl. split.
    + intros [H|[H|[]]]; discriminate.
    + intros [H _]. contradiction.
  - simpl. split.
    + intros [H|[H|[H|[]]]]; discriminate.
    + intros [_ H]. congruence.
  - rewrite Ht, Hh. simpl. split.
    + intros [H|[H|[H|[H|[H|[]]]]]]; try discriminate.
      injection H as <- <- <-. split; [exact Hch|]. destruct g; reflexivity.
    + intros [_ [= ->]]. simpl. auto 6.
Qed.

(** X5. The dispatcher asks the code host for a pull request exactly when
    a bot message of another application arrives in the channel named
    gateway-schema-change-feed and its extraction succeeds, and then for
    the extracted organization, repository and number. *)
Theorem github_called_iff_extracted (e : Event) (o r : string) (n : Z) :
  In (PullRequestsGet o r n) (trace (dispatch e))
  <-> exists m id,
        Data e = EventsAPIEvent (InnerMessageEvent m) /\ Request e = Some id
        /\ SubType m = "bot_message" /\ BotID m <> botID
        /\ conversationInfo (Channel m) = inl "gateway-schema-change-feed"
        /\ handle m
           = ({| organization := o; pullRequest := n; repository := r |}, None).
Proof.
  split.
  - destruct (dispatch_cases arch unicodeLower botID conversationInfo userInfo
                pullRequestsGet e)
      as [[_ ->]|[(i & _ & _ & ->)|[(i & _ & _ & ->)|[(i & m & _ & _ & _ & _ & ->)
         |[(i & m & _ & _ & _ & _ & ->)|[(i & m & err & _ & _ & _ & _ & _ & ->)
         |[(i & m & ch & Hd & Hr & Hs & Hb & Hc & Ht & _)
         |(i & m & ch & _ & _ & _ & _ & _ & ->)]]]]]]];
      simpl;
      try (intros H; repeat (destruct H as [H|H]; try discriminate H); contradiction).
    rewrite Ht. intros [H|[H|H]]; try discriminate H.
    apply in_app_or in H. destruct H as [H|H].
    + apply handleBotMessage_calls in H. destruct H as [-> Hh].
      exists m, i. repeat split; assumption.
    + destruct (result (botMessageHandler m ch)) as [[msg|]|]; simpl in H;
        try contradiction.
      destruct H as [H|[]]; discriminate.
  - intros (m & id & Hd & Hr & Hs & Hb & Hc & Hh).
    destruct (dispatch_bot_message e m id _ Hd Hr Hs Hb Hc) as [-> _].
    right. right. apply in_or_app. left.
    apply handleBotMessage_calls. split; [reflexivity|exact Hh].
Qed.

(** X6. A bot message of another application in the feed, by what the
    extraction returns and what the lookup of the code host answers.  An
    error of the extraction ends the run normally after one error log,
    without a call of the code host; an error the code host returns does
    the same after the call; a pull request with a body ends the run
    normally without an error log; and a pull request without a body ends
    the run in a panic right after the call: neither [handleBotMessage] nor
    [handleMessageEvent] recovers the panic of [PRDescription]. *)
Theorem feed_message_outcomes (e : Event) (m : MessageEvent) (id : string)
  (g : gatewaySchemaChange) :
  Data e = EventsAPIEvent (InnerMessageEvent m) -> Request e = Some id ->
  SubType m = "bot_message" -> BotID m <> botID ->
  conversationInfo (Channel m) = inl "gateway-schema-change-feed" ->
  let entered :=
    [Ack id; GetConversationInfo (Channel m);
     Enter FhandleBotMessage; Enter FhandleGatewaySchemaChangeEvent;
     Log LevelDebug "gateway change event received"] in
  let called :=
    (entered
     ++ [Enter FPRDescription;
         PullRequestsGet (organization g) (repository g) (pullRequest g)])%list in
  let failed := [Log LevelError "unable to handle bot message"] in
  (forall msg, handle m = (g, Some msg) ->
     dispatch e = ((entered ++ failed)%list, Done tt))
  /\ (handle m = (g, None) ->
      forall err,
        pullRequestsGet (organization g) (repository g) (pullRequest g) = inr err ->
        dispatch e = ((called ++ failed)%list, Done tt))
  /\ (handle m = (g, None) ->
      forall pr body,
        pullRequestsGet (organization g) (repository g) (pullRequest g) = inl pr ->
        GitHub.Body pr = Some body ->
        dispatch e = (called, Done tt))
  /\ (handle m = (g, None) ->
      forall pr,
        pullRequestsGet (organization g) (repository g) (pullRequest g) = inl pr ->
        GitHub.Body pr = None ->
        dispatch e = (called, Panic)).
Proof.
  intros Hd Hr Hs Hb Hc. cbv zeta.
  destruct (dispatch_bot_message e m id _ Hd Hr Hs Hb Hc) as [Ht Hres].
  assert (Hpair : dispatch e = (trace (dispatch e), result (dispatch e)))
    by (destruct (dispatch e); reflexivity).
  rewrite Hpair, Ht, Hres. clear Hpair Ht Hres.
  destruct (handleBotMessage_cases arch unicodeLower pullRequestsGet m
              "gateway-schema-change-feed")
    as [[Hch _]|[(g' & msg' & _ & Hh & ->)|(g' & _ & Hh & -> & ->)]];
    [contradiction| |].
  - split; [intros msg _; reflexivity|].
    repeat split; intros H; rewrite Hh in H; discriminate H.
  - split; [intros msg H; rewrite Hh in H; discriminate H|].
    repeat split; intros H; rewrite Hh in H; injection H as ->.
    + intros err ->. reflexivity.
    + intros pr body -> ->. reflexivity.
    + intros pr -> ->. reflexivity.
Qed.

Lemma handleBotMessage_no_ack_no_user m ch :
  occurrences isAck (trace (botMessageHandler m ch)) = 0%nat
  /\ occurrences isGetUserInfo (trace (botMessageHandler m ch)) = 0%nat.
Proof.
  destruct (handleBotMessage_cases arch unicodeLower pullRequestsGet m ch)
    as [[_ ->]|[(g & msg & _ & _ & ->)|(g & _ & _ & -> & _)]];
    split; reflexivity.
Qed.

Lemma occurrences_app kind (t1 t2 : list Effect) :
  occurrences kind (t1 ++ t2) = (occurrences kind t1 + occurrences kind t2)%nat.
Proof.
  unfold occurrences. rewrite filter_app, length_app. reflexivity.
Qed.

(** X7. An API event that carries a request is acknowledged exactly once,
    before anything else is done, whatever becomes of it afterwards; an
    event that is not an API event is never acknowledged. *)
Theorem acknowledged_once_first (e : Event) :
  match Data e, Request e with
  | EventsAPIEvent _, Some id =>
      exists rest,
        trace (dispatch e) = Ack id :: rest /\ occurrences isAck rest = 0%nat
  | _, _ => occurrences isAck (trace (dispatch e)) = 0%nat
  end.
Proof.
  destruct (dispatch_cases arch unicodeLower botID conversationInfo userInfo
              pullRequestsGet e)
    as [[Hd ->]|[(inner & Hd & Hr & ->)|[(i & Hd & Hr & ->)
       |[(i & m & Hd & Hr & _ & _ & ->)
       |[(i & m & Hd & Hr & _ & _ & ->)|[(i & m & err & Hd & Hr & _ & _ & _ & ->)
       |[(i & m & ch & Hd & Hr & Hs & Hb & Hc & Ht & _)
       |(i & m & ch & Hd & Hr & _ & _ & _ & ->)]]]]]]];
    rewrite Hd; try rewrite Hr; try reflexivity;
    try (eexists; split; [reflexivity|reflexivity]).
  rewrite Ht. eexists. split; [reflexivity|].
  change (occurrences isAck (GetConversationInfo (Channel m) :: ?t))
    with (occurrences isAck t).
  rewrite occurrences_app.
  rewrite (proj1 (handleBotMessage_no_ack_no_user m ch)).
  destruct (result (botMessageHandler m ch)) as [[msg|]|]; reflexivity.
Qed.

(** X8. The two kinds of message are kept apart: a message whose subtype
    is not ["bot_message"] never enters a handler and never reaches the
    code host, in whatever channel it is posted; a bot message never has
    its user looked up. *)
Theorem messages_kept_apart (e : Event) (m : MessageEvent) :
  Data e = EventsAPIEvent (InnerMessageEvent m) ->
  (SubType m <> "bot_message" ->
     occurrences isEnter (trace (dispatch e)) = 0%nat
     /\ occurrences isPullRequestsGet (trace (dispatch e)) = 0%nat)
  /\ (SubType m = "bot_message" ->
        occurrences isGetUserInfo (trace (dispatch e)) = 0%nat).
Proof.
  intros Hdata.
  destruct (dispatch_cases arch unicodeLower botID conversationInfo userInfo
              pullRequestsGet e)
    as [[Hd ->]|[(inner & Hd & Hr & ->)|[(i & Hd & Hr & ->)
       |[(i & m' & Hd & Hr & _ & _ & ->)
       |[(i & m' & Hd & Hr & _ & _ & ->)|[(i & m' & err & Hd & Hr & _ & _ & _ & ->)
       |[(i & m' & ch & Hd & Hr & Hs & Hb & Hc & Ht & _)
       |(i & m' & ch & Hd & Hr & Hs & _ & _ & ->)]]]]]]];
    try (split; [intros _; split; reflexivity|intros _; reflexivity]).
  - assert (m' = m) by congruence. subst m'. split; [congruence|].
    intros _. rewrite Ht.
    change (occurrences isGetUserInfo (Ack i :: GetConversationInfo (Channel m) :: ?t))
      with (occurrences isGetUserInfo t).
    rewrite occurrences_app.
    rewrite (proj2 (handleBotMessage_no_ack_no_user m ch)).
    destruct (result (botMessageHandler m ch)) as [[msg|]|]; reflexivity.
  - assert (m' = m) by congruence. subst m'.
    split; [intros _; split; reflexivity|]. intros H. rewrite Hs in H. discriminate.
Qed.

End DispatcherMore.

(** ** [strings.TrimSpace] and [strings.HasPrefix] *)

Lemma get_in_range (s : string) (k : nat) :
  (k < String.length s)%nat -> exists c, String.get k s = Some c.
Proof.
  revert k. induction s as [|c s IH]; intros k Hk; simpl in Hk; [lia|].
  destruct k as [|k]; simpl; [eexists; reflexivity|]. apply IH. lia.
Qed.

Lemma get_isASCII (s : string) (k : nat) (c : ascii) :
  GoStrings.isASCII s = true -> String.get k s = Some c ->
  GoStrings.isASCIIByte c = true.
Proof.
  revert k. induction s as [|c0 s IH]; intros k Ha Hg; simpl in *; [discriminate|].
  apply andb_true_iff in Ha. destruct Ha as [Hc Hs].
  destruct k as [|k]; [congruence|]. apply (IH k Hs Hg).
Qed.

(** Once the first byte is ASCII and not space, the second loop of
    [TrimSpace] leaves a string that is not empty. *)
Lemma trimStop_nonempty u c rest stop :
  GoStrings.isASCII (String c rest) = true ->
  GoStringsTrim.isASCIISpace c = false ->
  (1 <= stop <= String.length (String c rest))%nat ->
  GoStringsTrim.trimStop u (String c rest) stop <> "".
Proof.
  intros Ha Hc. induction stop as [|k IH]; intros Hk; [lia|].
  cbn [GoStringsTrim.trimStop].
  destruct (get_in_range (String c rest) k ltac:(lia)) as [c' Hg].
  rewrite Hg, (get_isASCII _ _ _ Ha Hg). cbn [negb].
  destruct (GoStringsTrim.isASCIISpace c') eqn:Es.
  - destruct k as [|k]; [simpl in Hg; congruence|]. apply IH. lia.
  - simpl. discriminate.
Qed.

(** On a string in ASCII, [TrimSpace] leaves nothing exactly when every
    byte is ASCII space. *)
Lemma TrimSpace_ascii u1 u2 s :
  GoStrings.isASCII s = true ->
  (GoStringsTrim.TrimSpace u1 u2 s = "" <-> blank s = true).
Proof.
  induction s as [|c s IH]; intros Ha.
  - simpl. split; reflexivity.
  - pose proof Ha as Ha'. simpl in Ha'. apply andb_true_iff in Ha'.
    destruct Ha' as [Hc Hs]. cbn [GoStringsTrim.TrimSpace blank].
    rewrite Hc. cbn [negb].
    destruct (GoStringsTrim.isASCIISpace c) eqn:Es; cbn [andb].
    + apply IH. exact Hs.
    + split; [|discriminate]. intros H. exfalso.
      apply (trimStop_nonempty u2 c s (String.length (String c s)) Ha Es);
        [simpl; lia|exact H].
Qed.

Lemma TrimSpace_len_ascii u1 u2 s :
  GoStrings.isASCII s = true ->
  (GoStrings.len (GoStringsTrim.TrimSpace u1 u2 s) =? 0) = blank s.
Proof.
  intros Ha. destruct (blank s) eqn:Eb.
  - apply len_zero_iff. apply TrimSpace_ascii; assumption.
  - destruct (_ =? 0) eqn:E; [|reflexivity].
    apply len_zero_iff in E. apply (TrimSpace_ascii u1 u2 s Ha) in E. congruence.
Qed.

(** [HasPrefix] holds exactly of the strings that continue the prefix. *)
Lemma HasPrefix_iff (s p : string) :
  GoStringsTrim.HasPrefix s p = true <-> exists rest, s = (p ++ rest)%string.
Proof.
  unfold GoStringsTrim.HasPrefix. revert s.
  induction p as [|c p IH]; intros s.
  - simpl. destruct s; simpl; split; eauto.
  - destruct s as [|c' s].
    + simpl. split; [discriminate|]. intros [rest H]. discriminate.
    + change (String.length (String c p)) with (S (String.length p)).
      change (String.length (String c' s)) with (S (String.length s)).
      change (substring 0 (S (String.length p)) (String c' s))
        with (String c' (substring 0 (String.length p) s)).
      change (S (String.length p) <=? S (String.length s))%nat
        with (String.length p <=? String.length s)%nat.
      cbn [String.eqb]. split.
      * intros H. apply andb_true_iff in H. destruct H as [Hl H].
        destruct (Ascii.eqb c' c) eqn:Ec; [|discriminate].
        apply Ascii.eqb_eq in Ec. subst c'.
        destruct (proj1 (IH s)) as [rest ->];
          [rewrite Hl, H; reflexivity|].
        exists rest. reflexivity.
      * intros [rest H]. simpl in H. injection H as -> ->.
        rewrite Ascii.eqb_refl.
        apply (IH (p ++ rest)%string). exists rest. reflexivity.
Qed.

(** A string that continues a prefix whose first byte is not space is not
    blank. *)
Lemma prefixed_not_blank (c : ascii) (p rest : string) :
  GoStringsTrim.isASCIISpace c = false ->
  blank (String c p ++ rest) = false.
Proof.
  intros H. simpl. rewrite H. reflexivity.
Qed.

(** ** The validation of the options *)

Section Startup.

Variable unicodeTrim unicodeTrimRight : string -> string.

Local Abbreviation NewSlack :=
  (SlackStartup.NewSlack unicodeTrim unicodeTrimRight).
Local Abbreviation trimmedLen :=
  (fun s => GoStrings.len (GoStringsTrim.TrimSpace unicodeTrim unicodeTrimRight s)).

(** A token in ASCII that has one of the two prefixes passes the check
    that it is set. *)
Lemma prefixed_token_is_set (s : string) (c : ascii) (p : string) :
  GoStrings.isASCII s = true ->
  GoStringsTrim.isASCIISpace c = false ->
  GoStringsTrim.HasPrefix s (String c p) = true ->
  (trimmedLen s =? 0) = false.
Proof.
  intros Ha Hc Hp. apply HasPrefix_iff in Hp. destruct Hp as [rest ->].
  rewrite (TrimSpace_len_ascii _ _ _ Ha). apply prefixed_not_blank. exact Hc.
Qed.

(** [NewSlack] returns an instance or an error, never both and never
    neither. *)
Lemma NewSlack_instance_or_error opts :
  (exists s, NewSlack opts = (Some s, None))
  \/ (exists err, NewSlack opts = (None, Some err)).
Proof.
  unfold SlackStartup.NewSlack.
  destruct (_ =? 0); [right; eexists; reflexivity|].
  destruct (negb _); [right; eexists; reflexivity|].
  destruct (_ =? 0); [right; eexists; reflexivity|].
  destruct (negb _); [right; eexists; reflexivity|].
  destruct (SlackStartup.GitHubClient opts); [|right; eexists; reflexivity].
  destruct (SlackStartup.Logger opts); [|right; eexists; reflexivity].
  left. eexists. reflexivity.
Qed.

(** X9. With tokens in ASCII, [NewSlack] returns no error exactly when
    the application token starts with [xapp-], the bot token starts with
    [xoxb-], and the client for GitHub and the logger are set; the checks
    that a token "is set" reject nothing the prefix checks accept.  The
    instance it then returns has no bot identifier yet, and holds the
    tokens and the client as given. *)
Theorem NewSlack_accepts_iff (opts : SlackStartup.Options) :
  GoStrings.isASCII (SlackStartup.AppToken opts) = true ->
  GoStrings.isASCII (SlackStartup.BotToken opts) = true ->
  (snd (NewSlack opts) = None
   <-> (exists rest, SlackStartup.AppToken opts = "xapp-" ++ rest)%string
       /\ (exists rest, SlackStartup.BotToken opts = "xoxb-" ++ rest)%string
       /\ SlackStartup.GitHubClient opts <> None
       /\ SlackStartup.Logger opts <> None)
  /\ (snd (NewSlack opts) = None ->
      exists s,
        fst (NewSlack opts) = Some s
        /\ SlackStartup.botID s = ""
        /\ SlackStartup.GitHubClient opts = Some (SlackStartup.gitHubClient s)
        /\ SlackStartup.apiToken (SlackStartup.client s) = SlackStartup.BotToken opts
        /\ SlackStartup.apiAppLevelToken (SlackStartup.client s)
           = SlackStartup.AppToken opts).
Proof.
  intros Ha Hb. unfold SlackStartup.NewSlack.
  rewrite <- !HasPrefix_iff.
  destruct (GoStringsTrim.HasPrefix (SlackStartup.AppToken opts) "xapp-") eqn:Epa.
  2:{ destruct (_ =? 0); simpl; (split; [split; [discriminate|]|discriminate]);
        intros (H & _); discriminate. }
  rewrite (prefixed_token_is_set _ "x" "app-" Ha eq_refl Epa). cbn [negb].
  destruct (GoStringsTrim.HasPrefix (SlackStartup.BotToken opts) "xoxb-") eqn:Epb.
  2:{ destruct (_ =? 0); simpl; (split; [split; [discriminate|]|discriminate]);
        intros (_ & H & _); discriminate. }
  rewrite (prefixed_token_is_set _ "x" "oxb-" Hb eq_refl Epb). cbn [negb].
  destruct (SlackStartup.GitHubClient opts) as [gh|].
  2:{ simpl. split; [split; [discriminate|]|discriminate].
      intros (_ & _ & H & _). contradiction. }
  destruct (SlackStartup.Logger opts) as [base|].
  2:{ simpl. split; [split; [discriminate|]|discriminate].
      intros (_ & _ & _ & H). contradiction. }
  simpl. split.
  - split; [|reflexivity]. intros _. repeat split; discriminate.
  - intros _. eexists. split; [reflexivity|]. simpl. repeat split.
Qed.


(** X11. With a token in ASCII, [NewClient] returns no error exactly when
    the token holds a byte that is not white space, the logger is set and
    the rate limiter could be created; there is no check of a prefix, and
    the client holds the token as given, white space included.  A blank
    token is reported before a missing logger. *)
Theorem NewClient_accepts_iff (rateLimiterError : error)
  (opts : GitHubStartup.Options) :
  GoStrings.isASCII (GitHubStartup.Token opts) = true ->
  let result :=
    GitHubStartup.NewClient unicodeTrim unicodeTrimRight rateLimiterError opts in
  (snd result = None
   <-> blank (GitHubStartup.Token opts) = false
       /\ GitHubStartup.Logger opts <> None
       /\ rateLimiterError = None)
  /\ (snd result = None ->
      exists c, fst result = Some c
                /\ GitHubStartup.accessToken c = GitHubStartup.Token opts)
  /\ (blank (GitHubStartup.Token opts) = true ->
      result = (None, Some "github token is not set")).
Proof.
  intros Ha. cbv zeta. unfold GitHubStartup.NewClient.
  rewrite (TrimSpace_len_ascii _ _ _ Ha).
  destruct (blank (GitHubStartup.Token opts)).
  { simpl. split; [split; [discriminate|intros (H & _); discriminate]|].
    split; [discriminate|reflexivity]. }
  destruct (GitHubStartup.Logger opts) as [base|].
  2:{ simpl. split; [split; [discriminate|intros (_ & H & _); contradiction]|].
      split; discriminate. }
  destruct rateLimiterError as [err|].
  { simpl. split; [split; [discriminate|intros (_ & _ & H); discriminate]|].
    split; discriminate. }
  simpl. split; [split; [intros _; repeat split; discriminate|reflexivity]|].
  split; [|discriminate]. intros _. eexists. split; reflexivity.
Qed.

End Startup.

(** ** The start of the program *)

Section MainFacts.

Variable unicodeTrim unicodeTrimRight : string -> string.
Variable getenv : string -> string.
Variable buildLogger : ZapLogger + string.
Variable rateLimiterError : error.
Variable authTest : string + string.
Variable eventLoopError : error.

Local Abbreviation main :=
  (Main.main unicodeTrim unicodeTrimRight getenv buildLogger rateLimiterError
     authTest eventLoopError).

(** [NewSlack] on tokens in ASCII, with the checks that a token is set
    folded into the prefix checks. *)
Lemma NewSlack_ascii (opts : SlackStartup.Options) :
  GoStrings.isASCII (SlackStartup.AppToken opts) = true ->
  GoStrings.isASCII (SlackStartup.BotToken opts) = true ->
  SlackStartup.NewSlack unicodeTrim unicodeTrimRight opts
  = if negb (GoStringsTrim.HasPrefix (SlackStartup.AppToken opts) "xapp-") then
      (None,
       Some (if blank (SlackStartup.AppToken opts)
             then "slack application token is not set"
             else "slack application token must have the prefix 'xapp-'"))
    else if negb (GoStringsTrim.HasPrefix (SlackStartup.BotToken opts) "xoxb-") then
      (None,
       Some (if blank (SlackStartup.BotToken opts)
             then "slack bot token is not set"
             else "slack bot token must have the prefix 'xoxb-'"))
    else
      match SlackStartup.GitHubClient opts, SlackStartup.Logger opts with
      | None, _ => (None, Some "client for GitHub is not set")
      | Some _, None => (None, Some "logger is not set")
      | Some gitHub, Some base =>
          let logger := With base "component" "slack" in
          let client :=
            {| SlackStartup.apiToken := SlackStartup.BotToken opts;
               SlackStartup.apiDebug := SlackStartup.Debug opts;
               SlackStartup.apiLogger := With logger "component" "api";
               SlackStartup.apiAppLevelToken := SlackStartup.AppToken opts |} in
          (Some {| SlackStartup.client := client;
                   SlackStartup.botID := "";
                   SlackStartup.gitHubClient := gitHub;
                   SlackStartup.handler :=
                     {| SlackStartup.socketClient := client;
                        SlackStartup.socketDebug := SlackStartup.Debug opts;
                        SlackStartup.socketLogger :=
                          With logger "component" "scocketmode" |};
                   SlackStartup.logger := logger |}, None)
      end.
Proof.
  intros Ha Hb. unfold SlackStartup.NewSlack.
  destruct (GoStringsTrim.HasPrefix (SlackStartup.AppToken opts) "xapp-") eqn:Epa.
  - rewrite (prefixed_token_is_set _ _ _ "x" "app-" Ha eq_refl Epa). cbn [negb].
    destruct (GoStringsTrim.HasPrefix (SlackStartup.BotToken opts) "xoxb-") eqn:Epb.
    + rewrite (prefixed_token_is_set _ _ _ "x" "oxb-" Hb eq_refl Epb). cbn [negb].
      destruct (SlackStartup.GitHubClient opts), (SlackStartup.Logger opts);
        reflexivity.
    + rewrite (TrimSpace_len_ascii _ _ _ Hb). cbn [negb].
      destruct (blank _); reflexivity.
  - rewrite (TrimSpace_len_ascii _ _ _ Ha). cbn [negb].
    destruct (blank _); reflexivity.
Qed.

(** X12. With the three variables of the environment in ASCII, [main]
    starts the event loop exactly when the logger could be built,
    GITHUB_TOKEN holds a byte that is not white space, the rate limiter
    could be created, SLACK_APP_TOKEN starts with [xapp-], SLACK_BOT_TOKEN
    starts with [xoxb-] and the authentication test answers; the loop then
    runs on an instance whose bot identifier is the one the test returned
    and which holds the three tokens as given. *)
Theorem main_starts_event_loop_iff :
  GoStrings.isASCII (getenv "SLACK_APP_TOKEN") = true ->
  GoStrings.isASCII (getenv "SLACK_BOT_TOKEN") = true ->
  GoStrings.isASCII (getenv "GITHUB_TOKEN") = true ->
  ((exists s, In (Main.EventLoop s) (fst main))
   <-> (exists base, buildLogger = inl base)
       /\ blank (getenv "GITHUB_TOKEN") = false
       /\ rateLimiterError = None
       /\ GoStringsTrim.HasPrefix (getenv "SLACK_APP_TOKEN") "xapp-" = true
       /\ GoStringsTrim.HasPrefix (getenv "SLACK_BOT_TOKEN") "xoxb-" = true
       /\ (exists id, authTest = inl id))
  /\ (forall s, In (Main.EventLoop s) (fst main) ->
      authTest = inl (SlackStartup.botID s)
      /\ SlackStartup.apiToken (SlackStartup.client s) = getenv "SLACK_BOT_TOKEN"
      /\ SlackStartup.apiAppLevelToken (SlackStartup.client s)
         = getenv "SLACK_APP_TOKEN"
      /\ GitHubStartup.accessToken (SlackStartup.gitHubClient s)
         = getenv "GITHUB_TOKEN").
Proof.
  intros Ha Hb Hg. unfold Main.main. cbv zeta.
  destruct buildLogger as [base|lerr].
  2:{ simpl. split.
      - split; [intros [s [H|[]]]; discriminate|].
        intros ([b H] & _). discriminate.
      - intros s [H|[]]. discriminate. }
  unfold GitHubStartup.NewClient. cbn [GitHubStartup.Token GitHubStartup.Logger].
  rewrite (TrimSpace_len_ascii _ _ _ Hg).
  destruct (blank (getenv "GITHUB_TOKEN")).
  { simpl. split.
    - split; [intros [s [H|[]]]; discriminate|].
      intros (_ & H & _). discriminate.
    - intros s [H|[]]. discriminate. }
  destruct rateLimiterError as [rerr|].
  { simpl. split.
    - split; [intros [s [H|[]]]; discriminate|].
      intros (_ & _ & H & _). discriminate.
    - intros s [H|[]]. discriminate. }
  rewrite NewSlack_ascii by assumption.
  cbn [SlackStartup.AppToken SlackStartup.BotToken SlackStartup.GitHubClient
         SlackStartup.Logger SlackStartup.Debug].
  destruct (GoStringsTrim.HasPrefix (getenv "SLACK_APP_TOKEN") "xapp-").
  2:{ simpl. split.
      - split; [intros [s [H|[]]]; discriminate|].
        intros (_ & _ & _ & H & _). discriminate.
      - intros s [H|[]]. discriminate. }
  destruct (GoStringsTrim.HasPrefix (getenv "SLACK_BOT_TOKEN") "xoxb-").
  2:{ simpl. split.
      - split; [intros [s [H|[]]]; discriminate|].
        intros (_ & _ & _ & _ & H & _). discriminate.
      - intros s [H|[]]. discriminate. }
  cbn [negb]. cbv zeta. unfold SlackStartup.Run.
  destruct authTest as [id|aerr].
  - destruct eventLoopError as [eerr|]; simpl.
    + split.
      * split; [intros _; repeat split; eauto|]. intros _. eexists. left. reflexivity.
      * intros s [H|[H|[]]]; [|discriminate]. injection H as <-. simpl. auto.
    + split.
      * split; [intros _; repeat split; eauto|]. intros _. eexists. left. reflexivity.
      * intros s [H|[]]. injection H as <-. simpl. auto.
  - simpl. split.
    + split; [intros [s [H|[]]]; discriminate|].
      intros (_ & _ & _ & _ & _ & [id H]). discriminate.
    + intros s [H|[]]. discriminate.
Qed.

(** [NewClient] as [main] calls it returns a client or an error. *)
Lemma main_client_or_error (base : ZapLogger) :
  (exists c,
     GitHubStartup.NewClient unicodeTrim unicodeTrimRight rateLimiterError
       {| GitHubStartup.Token := getenv "GITHUB_TOKEN";
          GitHubStartup.Logger := Some base |} = (Some c, None))
  \/ (exists err,
        GitHubStartup.NewClient unicodeTrim unicodeTrimRight rateLimiterError
          {| GitHubStartup.Token := getenv "GITHUB_TOKEN";
             GitHubStartup.Logger := Some base |} = (None, Some err)
        /\ err <> "client for GitHub is not set" /\ err <> "logger is not set").
Proof.
  unfold GitHubStartup.NewClient. cbn [GitHubStartup.Token GitHubStartup.Logger].
  destruct (_ =? 0).
  - right. eexists. split; [reflexivity|]. split; discriminate.
  - destruct rateLimiterError as [err|].
    + right. eexists. split; [reflexivity|]. split; discriminate.
    + left. eexists. reflexivity.
Qed.

(** X13. Whatever the environment holds, [main] never fails for a missing
    client for GitHub or a missing logger, the two errors of [NewSlack] it
    cannot cause since it builds both first; it never calls [Run] on a nil
    instance; and it returns normally exactly when the event loop was
    started and ended without an error. *)
Theorem main_never_misses_client_or_logger :
  (forall msg err, In (Main.LogError msg err) (fst main) ->
     err <> "client for GitHub is not set" /\ err <> "logger is not set")
  /\ snd main <> Main.Panicked
  /\ (snd main = Main.Returned
      <-> (exists s, fst main = [Main.EventLoop s]) /\ eventLoopError = None).
Proof.
  unfold Main.main. cbv zeta.
  destruct buildLogger as [base|lerr].
  2:{ simpl. split; [intros msg err [H|[]]; discriminate|].
      split; [discriminate|]. split; [discriminate|].
      intros ([s H] & _). discriminate. }
  destruct (main_client_or_error base) as [[c ->]|(cerr & -> & Hn1 & Hn2)].
  2:{ simpl. split.
      - intros msg err [H|[]]. injection H as <- <-. split; assumption.
      - split; [discriminate|]. split; [discriminate|].
        intros ([s H] & _). discriminate. }
  unfold SlackStartup.NewSlack.
  cbn [SlackStartup.AppToken SlackStartup.BotToken SlackStartup.GitHubClient
         SlackStartup.Logger SlackStartup.Debug].
  destruct (_ =? 0).
  { simpl. split; [intros msg err [H|[]]; injection H as <- <-; split; discriminate|].
    split; [discriminate|]. split; [discriminate|].
    intros ([s H] & _). discriminate. }
  destruct (negb _).
  { simpl. split; [intros msg err [H|[]]; injection H as <- <-; split; discriminate|].
    split; [discriminate|]. split; [discriminate|].
    intros ([s H] & _). discriminate. }
  destruct (_ =? 0).
  { simpl. split; [intros msg err [H|[]]; injection H as <- <-; split; discriminate|].
    split; [discriminate|]. split; [discriminate|].
    intros ([s H] & _). discriminate. }
  destruct (negb _).
  { simpl. split; [intros msg err [H|[]]; injection H as <- <-; split; discriminate|].
    split; [discriminate|]. split; [discriminate|].
    intros ([s H] & _). discriminate. }
  cbv zeta. unfold SlackStartup.Run.
  destruct authTest as [id|aerr].
  - destruct eventLoopError as [eerr|]; simpl.
    + split.
      * intros msg err [H|[H|[]]]; [discriminate|].
        injection H as <- <-. split; discriminate.
      * split; [discriminate|]. split; [discriminate|].
        intros (_ & H). discriminate.
    + split; [intros msg err [H|[]]; discriminate|].
      split; [discriminate|]. split; [|reflexivity].
      intros _. split; [eexists; reflexivity|reflexivity].
  - simpl. split.
    + intros msg err [H|[]]. injection H as <- <-. split; discriminate.
    + split; [discriminate|]. split; [discriminate|].
      intros ([s H] & _). discriminate.
Qed.

End MainFacts.

(** ** The further properties on examples *)

(** X3 on the values of the test "message contains valid attachments". *)
Lemma extracts_notification_witness :
  handleGatewaySchemaChangeEvent GoStrconv.Int64 noUnicode
    (notification "B056LB75L5R" "team-koko-bot"
       [field "Ref" "refs/pull/5291/merge";
        field "Commit"
          "<https://github.com/kong/team-koko-bot/commit/180edcde77e59309c21acad4837b53d0c85fc908|180edc>"])
  = ({| organization := "kong"; pullRequest := 5291;
        repository := "team-koko-bot" |}, None).
Proof.
  apply (extracts_notification GoStrconv.Int64 noUnicode
           "B056LB75L5R" "team-koko-bot" "Ref" "Commit"
           "refs" "pull" "5291" "/merge"
           "<https:" "" "github.com" "kong" "team-koko-bot"
           "/commit/180edcde77e59309c21acad4837b53d0c85fc908" "180edc>");
    (reflexivity || discriminate).
Defined.

(** X4 on the ref value ["refs/pull/-7/merge"]. *)
Lemma negative_pull_request_extracted_witness :
  handleGatewaySchemaChangeEvent GoStrconv.Int64 noUnicode
    (notification "B056LB75L5R" "team-koko-bot"
       [field "Ref" "refs/pull/-7/merge";
        field "Commit" "https://github.com/kong/team-koko-bot/commit/180edc|sha"])
  = ({| organization := "kong"; pullRequest := -7;
        repository := "team-koko-bot" |}, None)
  /\ -7 < 0.
Proof.
  apply (negative_pull_request_extracted GoStrconv.Int64 noUnicode
           "B056LB75L5R" "team-koko-bot" "Ref" "refs" "pull" "7" "/merge"
           (field "Commit"
              "https://github.com/kong/team-koko-bot/commit/180edc|sha"));
    try (reflexivity || discriminate).
  split; reflexivity.
Defined.

(** X6 on a schema change whose pull request has no description. *)
Lemma feed_message_outcomes_witness :
  handleMessageEvent GoStrconv.Int64 noUnicode "B0KOKO" feedChannel someUser
    pullRequestWithout (messageEventOf schemaChangeMessage)
  = ([Ack "envelope"; GetConversationInfo "C1";
      Enter FhandleBotMessage; Enter FhandleGatewaySchemaChangeEvent;
      Log LevelDebug "gateway change event received";
      Enter FPRDescription; PullRequestsGet "kong" "team-koko-bot" 5291],
     Panic).
Proof.
  apply (proj2 (proj2 (proj2
           (feed_message_outcomes GoStrconv.Int64 noUnicode "B0KOKO" feedChannel
              someUser pullRequestWithout
              (messageEventOf schemaChangeMessage) schemaChangeMessage "envelope"
              {| organization := "kong"; pullRequest := 5291;
                 repository := "team-koko-bot" |}
              eq_refl eq_refl eq_refl ltac:(discriminate) eq_refl)))
           eq_refl {| GitHub.Body := None |} eq_refl eq_refl).
Defined.

(** X8 on a message of a person posted in the feed. *)
Lemma messages_kept_apart_witness :
  occurrences isEnter
    (trace (handleMessageEvent GoStrconv.Int64 noUnicode "B0KOKO" feedChannel
              someUser pullRequestWithout (messageEventOf humanMessage))) = 0%nat
  /\ occurrences isPullRequestsGet
       (trace (handleMessageEvent GoStrconv.Int64 noUnicode "B0KOKO" feedChannel
                 someUser pullRequestWithout (messageEventOf humanMessage))) = 0%nat.
Proof.
  apply (proj1 (messages_kept_apart GoStrconv.Int64 noUnicode "B0KOKO"
                  feedChannel someUser pullRequestWithout
                  (messageEventOf humanMessage) humanMessage eq_refl)).
  discriminate.
Defined.

(** X9 on the options of the test "the options are valid". *)
Lemma NewSlack_accepts_iff_witness :
  snd (SlackStartup.NewSlack noUnicode noUnicode validOptions) = None.
Proof.
  apply (proj1 (NewSlack_accepts_iff noUnicode noUnicode validOptions
                  eq_refl eq_refl)).
  split; [exists ""; reflexivity|]. split; [exists ""; reflexivity|].
  split; discriminate.
Defined.


(** X11 on the options of the test "the options are valid". *)
Lemma NewClient_accepts_iff_witness :
  snd (GitHubStartup.NewClient noUnicode noUnicode None tokenOptions) = None.
Proof.
  apply (proj1 (NewClient_accepts_iff noUnicode noUnicode None tokenOptions
                  eq_refl)).
  split; [reflexivity|]. split; [discriminate|reflexivity].
Defined.

(** X12 on an environment with the three tokens set. *)
Lemma main_starts_event_loop_iff_witness :
  exists s,
    In (Main.EventLoop s)
      (fst (Main.main noUnicode noUnicode exampleEnv (inl baseLogger) None
              (inl "B0KOKO") None)).
Proof.
  apply (proj1 (main_starts_event_loop_iff noUnicode noUnicode exampleEnv
                  (inl baseLogger) None (inl "B0KOKO") None
                  eq_refl eq_refl eq_refl)).
  split; [exists baseLogger; reflexivity|].
  repeat (split; [reflexivity|]). exists "B0KOKO". reflexivity.
Defined.

(** The tests of [NewSlack] and of [NewClient]. *)
Example test_NewSlack_missing_app_token :
  forall u1 u2,
    SlackStartup.NewSlack u1 u2
      {| SlackStartup.AppToken := ""; SlackStartup.BotToken := "";
         SlackStartup.Debug := false; SlackStartup.GitHubClient := None;
         SlackStartup.Logger := None |}
    = (None, Some "slack application token is not set").
Proof. reflexivity. Qed.

Example test_NewSlack_invalid_app_token :
  forall u1 u2,
    SlackStartup.NewSlack u1 u2
      {| SlackStartup.AppToken := "invalid"; SlackStartup.BotToken := "";
         SlackStartup.Debug := false; SlackStartup.GitHubClient := None;
         SlackStartup.Logger := None |}
    = (None, Some "slack application token must have the prefix 'xapp-'").
Proof. reflexivity. Qed.

Example test_NewSlack_invalid_bot_token :
  forall u1 u2,
    SlackStartup.NewSlack u1 u2
      {| SlackStartup.AppToken := "xapp-"; SlackStartup.BotToken := "invalid";
         SlackStartup.Debug := false; SlackStartup.GitHubClient := None;
         SlackStartup.Logger := None |}
    = (None, Some "slack bot token must have the prefix 'xoxb-'").
Proof. reflexivity. Qed.

Example test_NewSlack_missing_client :
  forall u1 u2,
    SlackStartup.NewSlack u1 u2
      {| SlackStartup.AppToken := "xapp-"; SlackStartup.BotToken := "xoxb-";
         SlackStartup.Debug := false; SlackStartup.GitHubClient := None;
         SlackStartup.Logger := None |}
    = (None, Some "client for GitHub is not set").
Proof. reflexivity. Qed.

Example test_NewSlack_missing_logger :
  forall u1 u2,
    SlackStartup.NewSlack u1 u2
      {| SlackStartup.AppToken := "xapp-"; SlackStartup.BotToken := "xoxb-";
         SlackStartup.Debug := false;
         SlackStartup.GitHubClient := Some zeroClient;
         SlackStartup.Logger := None |}
    = (None, Some "logger is not set").
Proof. reflexivity. Qed.

Example test_NewClient_missing_token :
  forall u1 u2 r,
    GitHubStartup.NewClient u1 u2 r
      {| GitHubStartup.Token := ""; GitHubStartup.Logger := None |}
    = (None, Some "github token is not set").
Proof. reflexivity. Qed.

Example test_NewClient_missing_logger :
  forall u1 u2 r,
    GitHubStartup.NewClient u1 u2 r
      {| GitHubStartup.Token := "token"; GitHubStartup.Logger := None |}
    = (None, Some "logger is not set").
Proof. reflexivity. Qed.

(** ** The first field that is not well formed *)

Section FirstIllFormed.

Variable arch : GoStrconv.IntSize.
Variable unicodeLower : string -> string.

Local Abbreviation handle := (handleGatewaySchemaChangeEvent arch unicodeLower).
Local Abbreviation scan := (scanFields arch unicodeLower).
Local Abbreviation step := (scanField arch unicodeLower).
Local Abbreviation wellFormed := (wellFormedField arch unicodeLower).

(** What the turn of a field returns does not depend on the state of the
    loop. *)
Lemma step_Return_any_state st st' f r :
  step st f = Return r -> step st' f = Return r.
Proof.
  destruct (isRefField unicodeLower f) eqn:Hr.
  - rewrite (step_ref arch unicodeLower st f Hr),
      (step_ref arch unicodeLower st' f Hr). cbv zeta.
    destruct (_ <? 3); [trivial|]. destruct (snd _); [trivial|discriminate].
  - destruct (isCommitField unicodeLower f) eqn:Hc.
    + rewrite (step_commit arch unicodeLower st f Hc),
        (step_commit arch unicodeLower st' f Hc).
      destruct (negb _); [trivial|]. destruct (_ <? 5); [trivial|discriminate].
    + rewrite (step_other arch unicodeLower st f Hr Hc). discriminate.
Qed.

(** X14. The first field that is not well formed decides the result: the
    function returns its error, whatever the fields before it assigned and
    whatever fields come after it, which are not read; so a malformed field
    hides every valid field behind it, and the errors of the final checks
    are reached only when every field is well formed. *)
Theorem first_ill_formed_field_decides (m m' : MessageEvent) (a a' : Attachment)
  (pre pre' post post' : list AttachmentField) (f : AttachmentField) :
  passesChecks m a -> passesChecks m' a' ->
  Fields a = (pre ++ f :: post)%list ->
  Fields a' = (pre' ++ f :: post')%list ->
  forallb wellFormed pre = true -> forallb wellFormed pre' = true ->
  wellFormed f = false ->
  handle m = handle m'
  /\ fst (handle m) = zeroGatewaySchemaChange
  /\ exists err,
       snd (handle m) = Some err
       /\ err <> "pull request number was not present in message event"
       /\ err <> "organization was not present in message event"
       /\ err <> "repository was not present in message event".
Proof.
  intros Hp Hp' Hf Hf' Hpre Hpre' Hill.
  pose proof (scan_wellFormed arch unicodeLower pre initialScan Hpre) as Hs.
  pose proof (scan_wellFormed arch unicodeLower pre' initialScan Hpre') as Hs'.
  destruct (step_illFormed arch unicodeLower
              (fold_left (applyField arch unicodeLower) pre initialScan) f Hill)
    as [r Hr].
  pose proof (step_Return_any_state _
                (fold_left (applyField arch unicodeLower) pre' initialScan) f r Hr)
    as Hr'.
  rewrite (handle_returns_at arch unicodeLower m a pre f post _ r Hp Hf Hs Hr).
  rewrite (handle_returns_at arch unicodeLower m' a' pre' f post' _ r Hp' Hf' Hs' Hr').
  split; [reflexivity|].
  destruct (step_Return arch unicodeLower _ f r Hr) as [Hz _].
  split; [exact Hz|].
  revert Hr. clear.
  destruct (isRefField unicodeLower f) eqn:Er.
  - rewrite (step_ref arch unicodeLower _ f Er). cbv zeta.
    destruct (_ <? 3).
    + intros [= <-]. eexists. split; [reflexivity|]. repeat split; discriminate.
    + destruct (snd _); [|discriminate].
      intros [= <-]. eexists. split; [reflexivity|]. repeat split; discriminate.
  - destruct (isCommitField unicodeLower f) eqn:Ec.
    + rewrite (step_commit arch unicodeLower _ f Ec).
      destruct (negb _).
      * intros [= <-]. eexists. split; [reflexivity|]. repeat split; discriminate.
      * destruct (_ <? 5); [|discriminate].
        intros [= <-]. eexists. split; [reflexivity|]. repeat split; discriminate.
    + rewrite (step_other arch unicodeLower _ f Er Ec). discriminate.
Qed.

End FirstIllFormed.

(** X14 on a malformed ref field before and after valid fields. *)
Lemma first_ill_formed_field_decides_witness :
  handleGatewaySchemaChangeEvent GoStrconv.Int64 noUnicode
    (messageOf
       [field "Commit" "https://github.com/kong/team-koko-bot/commit/180edc|sha";
        field "Ref" "refs/pull";
        field "Ref" "refs/pull/5291/merge"])
  = handleGatewaySchemaChangeEvent GoStrconv.Int64 noUnicode
      (messageOf [field "Ref" "refs/pull"]).
Proof.
  apply (first_ill_formed_field_decides GoStrconv.Int64 noUnicode _ _ _ _
           [field "Commit" "https://github.com/kong/team-koko-bot/commit/180edc|sha"]
           [] [field "Ref" "refs/pull/5291/merge"] []
           (field "Ref" "refs/pull")
           (passesChecks_messageOf _) (passesChecks_messageOf _)
           eq_refl eq_refl eq_refl eq_refl eq_refl).
Defined.
